(** * Deep Research Assistant: the orchestration core of [app.py] and
      [streamlit_app.py], embedded in Rocq.

    The two scripts share their stage functions up to prompt wording, the
    developer message and the pre-research guard of [main].  They are
    modelled once, parameterised by a [variant].

    - Python [str] values are [string]s; a character stands for a code
      point below 256, which is enough for [strip], [split], [lower] and
      the substring test of the code.
    - Values decoded by [json.loads] live in [json]; the decoder, the
      encoder [json.dumps] and Python's [str()] formatting of such values
      are library behaviour and enter through the interface [JsonLib].
      The module [PyLib] implements it for closed examples.
    - The Language Model Gateway ([client.responses.create]) is an oracle:
      a script of replies consumed in order; once the script is used up
      the gateway raises.  Every call is recorded with its full request,
      so that a run denotes an outcome, a trace and the rest of the
      script.
    - [main] is one run of the page: it reads the widgets, reads and
      writes the session state and the process environment, and renders.
    - Python exceptions are the [Raised] outcomes; nothing in the stage
      functions catches them.  The unbounded [for _ in itertools.count()]
      loop takes fuel. *)

From Stdlib Require Import Bool Arith List String Ascii ZArith Lia.
From Stdlib Require Import DecimalString.
Import ListNotations.

Local Open Scope string_scope.
Local Open Scope list_scope.

Infix "+++" := String.append (right associativity, at level 60).

(* ------------------------------------------------------------------ *)
(** * Python strings *)

Definition chr (n : nat) : string := String (ascii_of_nat n) EmptyString.
Definition nl : string := chr 10.
Definition dq : string := chr 34.
Definition quoted (s : string) : string := dq +++ s +++ dq.

Definition code (c : ascii) : nat := nat_of_ascii c.

(** [str.isspace] on code points below 256: TAB..CR, FS..US, SPACE, NEL
    and NBSP. *)
Definition is_space (c : ascii) : bool :=
  let n := code c in
  (((9 <=? n) && (n <=? 13)) || ((28 <=? n) && (n <=? 32))
   || (n =? 133) || (n =? 160))%nat.

Definition is_empty (s : string) : bool :=
  match s with EmptyString => true | String _ _ => false end.

Fixpoint lstrip (s : string) : string :=
  match s with
  | EmptyString => EmptyString
  | String c s' => if is_space c then lstrip s' else s
  end.

Fixpoint rstrip (s : string) : string :=
  match s with
  | EmptyString => EmptyString
  | String c s' =>
      let r := rstrip s' in
      if is_space c && is_empty r then EmptyString else String c r
  end.

(** [s.strip()] *)
Definition strip (s : string) : string := rstrip (lstrip s).

(** [s.split(sep)] for a one-character separator: never returns the
    empty list, and keeps empty fields. *)
Fixpoint split (sep : ascii) (s : string) : list string :=
  match s with
  | EmptyString => [EmptyString]
  | String c s' =>
      if Ascii.eqb c sep then EmptyString :: split sep s'
      else match split sep s' with
           | [] => [String c EmptyString]
           | field :: fields => String c field :: fields
           end
  end.

Definition newline : ascii := ascii_of_nat 10.

(** [str.lower] on code points below 256: A..Z and the Latin-1 capitals
    U+00C0..U+00DE (U+00D7 excepted) move up by 32. *)
Definition lower_char (c : ascii) : ascii :=
  let n := code c in
  if (((65 <=? n) && (n <=? 90))
      || ((192 <=? n) && (n <=? 222) && negb (n =? 215)))%nat
  then ascii_of_nat (n + 32) else c.

Fixpoint lower (s : string) : string :=
  match s with
  | EmptyString => EmptyString
  | String c s' => String (lower_char c) (lower s')
  end.

(** [sub in s] on strings. *)
Fixpoint py_in (sub s : string) : bool :=
  if String.prefix sub s then true
  else match s with
       | EmptyString => false
       | String _ s' => py_in sub s'
       end.

(** What "[s] contains [sub]" means, independently of the search. *)
Definition Substring (sub s : string) : Prop :=
  exists pre post, s = pre +++ sub +++ post.

(** A line is blank when it consists of whitespace only. *)
Definition blank (s : string) : Prop :=
  forall c, In c (list_ascii_of_string s) -> is_space c = true.

(* ------------------------------------------------------------------ *)
(** * Python values and exceptions *)

(** Values produced by [json.loads]: [None], [bool], [int], [float],
    [str], [list] and [dict] (insertion-ordered).  The code never computes
    with a float; it is kept as the literal it was read from. *)
#[warnings="-register-all"]
Inductive json : Type :=
| JNull
| JBool (b : bool)
| JInt (z : Z)
| JFloat (literal : string)
| JString (s : string)
| JArray (items : list json)
| JObject (members : list (string * json)).

Inductive exn : Type :=
| IndexError
| AttributeError
| KeyError (key : string)
| TypeError
| JSONDecodeError
| APIConnectionError
| StopException.

Inductive outcome (A : Type) : Type :=
| Returned (a : A)
| Raised (e : exn)
| OutOfFuel.
Arguments Returned {A} a.
Arguments Raised {A} e.
Arguments OutOfFuel {A}.

Definition obind {A B} (o : outcome A) (f : A -> outcome B) : outcome B :=
  match o with
  | Returned a => f a
  | Raised e => Raised e
  | OutOfFuel => OutOfFuel
  end.

(** [l[i]] on a list. *)
Definition py_index {A} (l : list A) (i : nat) : outcome A :=
  match nth_error l i with
  | Some x => Returned x
  | None => Raised IndexError
  end.

Fixpoint assoc (k : string) (kvs : list (string * json)) : option json :=
  match kvs with
  | [] => None
  | (k', v) :: rest => if String.eqb k k' then Some v else assoc k rest
  end.

(** [value[key]] with a string key: only a [dict] accepts it. *)
Definition py_getitem (value : json) (key : string) : outcome json :=
  match value with
  | JObject kvs =>
      match assoc key kvs with
      | Some v => Returned v
      | None => Raised (KeyError key)
      end
  | _ => Raised TypeError
  end.

(** [for q in value]: a list yields its items, a dict its keys, a string
    its characters; the other values are not iterable. *)
Definition py_iter (value : json) : outcome (list json) :=
  match value with
  | JArray items => Returned items
  | JObject kvs => Returned (map (fun kv => JString (fst kv)) kvs)
  | JString s =>
      Returned (map (fun c => JString (String c EmptyString))
                    (list_ascii_of_string s))
  | _ => Raised TypeError
  end.

(* ------------------------------------------------------------------ *)
(** * Gateway requests and replies *)

Record message := { role : string; content : string }.

Inductive input_t :=
| Prompt (text : string)
| Messages (msgs : list message).

Record tool := { tool_type : string }.

(** The keyword arguments of [client.responses.create]. *)
Record request := {
  model : string;
  input : input_t;
  previous_response_id : option string;
  instructions : string;
  tools : list tool
}.

(** The part of a reply the code navigates: [resp.id] and
    [resp.output[i].content[j].text].  An output item that is not a
    message (a web-search call) has no [content]; a content part that is a
    refusal has no [text]. *)
Inductive content_part :=
| OutputText (text : string)
| OutputRefusal (refusal : string).

Inductive output_item :=
| OutputMessage (parts : list content_part)
| ToolCall (call_type : string).

Record response := { id_ : string; output : list output_item }.

Definition get_content (item : output_item) : outcome (list content_part) :=
  match item with
  | OutputMessage parts => Returned parts
  | ToolCall _ => Raised AttributeError
  end.

Definition get_text (part : content_part) : outcome string :=
  match part with
  | OutputText t => Returned t
  | OutputRefusal _ => Raised AttributeError
  end.

(** [resp.output[i].content[0].text] *)
Definition text_at (resp : response) (i : nat) : outcome string :=
  obind (py_index (output resp) i) (fun item =>
  obind (get_content item) (fun parts =>
  obind (py_index parts 0) get_text)).

(* ------------------------------------------------------------------ *)
(** * Runs: outcome, trace, remaining script *)

Inductive ui_output :=
| st_warning (body : string)
| st_success (body : string)
| st_markdown (body : string).

(** [Call req None] is a call the gateway did not answer. *)
Inductive event :=
| Call (req : request) (reply : option response)
| Ui (out : ui_output).

Definition M (A : Type) : Type :=
  list response -> outcome A * list event * list response.

Definition ret {A} (a : A) : M A := fun s => (Returned a, [], s).

Definition bind {A B} (m : M A) (f : A -> M B) : M B :=
  fun s =>
    match m s with
    | (Returned a, t, s') =>
        match f a s' with (o, t', s'') => (o, t ++ t', s'') end
    | (Raised e, t, s') => (Raised e, t, s')
    | (OutOfFuel, t, s') => (OutOfFuel, t, s')
    end.

Definition lift {A} (o : outcome A) : M A := fun s => (o, [], s).
Definition raise {A} (e : exn) : M A := lift (Raised e).
Definition diverge {A} : M A := lift OutOfFuel.
Definition show (out : ui_output) : M unit :=
  fun s => (Returned tt, [Ui out], s).

(** [client.responses.create(...)] *)
Definition create (req : request) : M response :=
  fun s =>
    match s with
    | [] => (Raised APIConnectionError, [Call req None], [])
    | r :: s' => (Returned r, [Call req (Some r)], s')
    end.

Notation "x <- m ;; k" := (bind m (fun x => k))
  (at level 61, m at next level, right associativity).
Notation "m ;;; k" := (bind m (fun _ => k))
  (at level 61, right associativity).

Definition outcome_of {A} (r : outcome A * list event * list response) :=
  fst (fst r).
Definition trace_of {A} (r : outcome A * list event * list response) :=
  snd (fst r).

(* ------------------------------------------------------------------ *)
(** * Constants of the scripts *)

Inductive variant := AppPy | StreamlitAppPy.

Definition MODEL : string := "gpt-4.1".
Definition MODEL_MINI : string := "gpt-4.1-mini".
Definition TOOLS : list tool := [ {| tool_type := "web_search_preview" |} ].

Definition DEVELOPER_MESSAGE (v : variant) : string :=
  match v with
  | AppPy =>
      "You are an expert Deep Researcher." +++ nl +++
      "You provide complete and in depth research to the user."
  | StreamlitAppPy =>
      nl +++ "You are an expert Deep Researcher." +++ nl +++
      "You provide complete and in depth research to the user." +++ nl
  end.

Definition PLAN_FORMAT : string :=
  "Format: {" +++ quoted "goal" +++ ": " +++ quoted "..." +++ ", "
  +++ quoted "queries" +++ ": [" +++ quoted "q1" +++ ", ....]}".

(* ------------------------------------------------------------------ *)
(** * The stage functions *)

(** [json.loads] ([None] is a [JSONDecodeError]), [json.dumps], and
    [str()] as applied by an f-string field. *)
Class JsonLib := {
  json_loads : string -> option json;
  json_dumps : json -> string;
  py_str : json -> string
}.

Section Stages.

Context {lib : JsonLib}.

Definition loads (text : string) : outcome json :=
  match json_loads text with
  | Some value => Returned value
  | None => Raised JSONDecodeError
  end.

Definition str_list (l : list string) : json := JArray (map JString l).

(** ** Clarification *)

Definition clarify_prompt (v : variant) (topic : string) : string :=
  match v with
  | AppPy =>
      "Ask 5 numbered clarifying questions about the topic of research: "
      +++ topic +++ ". "
      +++ "The goal of the questions is to understand the intented purpose of the research. "
      +++ "Reply only with the questions."
  | StreamlitAppPy =>
      nl +++
      "Ask 5 numbered clarifying questions about the topic of research: "
      +++ topic +++ "." +++ nl
      +++ "The goal of the questions is to understand the intented purpose of the research."
      +++ nl +++ "Reply only with the questions." +++ nl
  end.

Definition clarify_request (v : variant) (topic : string) : request :=
  {| model := MODEL_MINI;
     input := Prompt (clarify_prompt v topic);
     previous_response_id := None;
     instructions := DEVELOPER_MESSAGE v;
     tools := [] |}.

(** [[q.strip() for q in text.split("\n") if q.strip()]] *)
Definition question_lines (text : string) : list string :=
  map strip (filter (fun q => negb (is_empty (strip q))) (split newline text)).

Definition ask_clarifying_questions (v : variant) (topic : string)
  : M (list string * string) :=
  clarify <- create (clarify_request v topic) ;;
  text <- lift (text_at clarify 0) ;;
  ret (question_lines text, id_ clarify).

(** ** Planning *)

Definition plan_prompt (v : variant) (topic : string)
    (questions answers : list string) : string :=
  match v with
  | AppPy =>
      "Using the user answers " +++ py_str (str_list answers)
      +++ " to the " +++ py_str (str_list questions)
      +++ ", write a goal sentence and 5 web searches "
      +++ "queries for the research about " +++ topic +++ " " +++ nl
      +++ "Output: A json list of the goal and the 5 web queries that will reach it."
      +++ nl +++ PLAN_FORMAT
  | StreamlitAppPy =>
      nl +++ "Using the user answers " +++ py_str (str_list answers)
      +++ " to the " +++ py_str (str_list questions)
      +++ ", write a goal sentence and 5 web searches queries for the research about "
      +++ topic +++ nl
      +++ "Output: A json list of the goal and the 5 web queries that will reach it."
      +++ nl +++ PLAN_FORMAT +++ nl
  end.

Definition plan_request (v : variant) (topic : string)
    (questions answers : list string) (prev_id : string) : request :=
  {| model := MODEL;
     input := Prompt (plan_prompt v topic questions answers);
     previous_response_id := Some prev_id;
     instructions := DEVELOPER_MESSAGE v;
     tools := [] |}.

(** [create_plan] of app.py, [generate_plan] of streamlit_app.py. *)
Definition create_plan (v : variant) (topic : string)
    (questions answers : list string) (prev_id : string)
  : M (json * json * string) :=
  resp <- create (plan_request v topic questions answers prev_id) ;;
  text <- lift (text_at resp 0) ;;
  plan <- lift (loads text) ;;
  goal <- lift (py_getitem plan "goal") ;;
  queries <- lift (py_getitem plan "queries") ;;
  ret (goal, queries, id_ resp).

(** ** Search *)

Definition search_request (v : variant) (query : json) (prev_id : string)
  : request :=
  {| model := MODEL;
     input := Prompt ("search: " +++ py_str query);
     previous_response_id := Some prev_id;
     instructions := DEVELOPER_MESSAGE v;
     tools := TOOLS |}.

(** The dict [{"query": query, "resp_id": text}]. *)
Definition artifact (query : json) (text : string) : json :=
  JObject [("query", query); ("resp_id", JString text)].

Definition run_search (v : variant) (query : json) (prev_id : string)
  : M json :=
  search_resp <- create (search_request v query prev_id) ;;
  text <- lift (text_at search_resp 1) ;;
  ret (artifact query text).

(** ** Evaluation *)

Definition evaluate_request (v : variant) (goal : json)
    (collected : list json) : request :=
  {| model := MODEL;
     input := Messages
       [ {| role := "developer";
            content := "Research goal: " +++ py_str goal |};
         {| role := "assistant";
            content := json_dumps (JArray collected) |};
         {| role := "user";
            content := "Does this information answer the research goal? Answer Yes or No only" |} ];
     previous_response_id := None;
     instructions := DEVELOPER_MESSAGE v;
     tools := [] |}.

(** The decision read off a reply: ["yes" in text.lower()]. *)
Definition says_yes (text : string) : bool := py_in "yes" (lower text).

(** [evaluate_progress] of app.py, [evaluate] of streamlit_app.py. *)
Definition evaluate_progress (v : variant) (goal : json)
    (collected : list json) : M bool :=
  review <- create (evaluate_request v goal collected) ;;
  text <- lift (text_at review 0) ;;
  ret (says_yes text).

(** ** The research loop *)

Definition more_request (v : variant) (goal : json)
    (collected : list json) (prev_id : string) : request :=
  {| model := MODEL;
     input := Messages
       [ {| role := "assistant";
            content := "Current data: " +++ json_dumps (JArray collected) |};
         {| role := "user";
            content := "This has not met the goal: " +++ py_str goal
                       +++ ". Write 5 other web searchs to achieve the goal" |} ];
     previous_response_id := Some prev_id;
     instructions := DEVELOPER_MESSAGE v;
     tools := [] |}.

(** [for q in queries: collected.append(run_search(client, q, prev_id))] *)
Fixpoint search_each (v : variant) (queries : list json) (prev_id : string)
    (collected : list json) : M (list json) :=
  match queries with
  | [] => ret collected
  | q :: rest =>
      found <- run_search v q prev_id ;;
      search_each v rest prev_id (collected ++ [found])
  end.

(** The body of [for _ in itertools.count()], one unit of fuel per
    iteration; [collected] is the list the iteration starts from. *)
Fixpoint research_loop (fuel : nat) (v : variant) (goal queries : json)
    (prev_id : string) (collected : list json) : M (list json) :=
  match fuel with
  | O => diverge
  | S fuel' =>
      qs <- lift (py_iter queries) ;;
      collected <- search_each v qs prev_id collected ;;
      satisfied <- evaluate_progress v goal collected ;;
      if satisfied then ret collected
      else
        more <- create (more_request v goal collected prev_id) ;;
        text <- lift (text_at more 0) ;;
        queries' <- lift (loads text) ;;
        research_loop fuel' v goal queries' prev_id []
  end.

(** [conduct_research] of app.py, [perform_research] of
    streamlit_app.py. *)
Definition conduct_research (fuel : nat) (v : variant) (goal queries : json)
    (prev_id : string) : M (list json) :=
  research_loop fuel v goal queries prev_id [].

(** ** Report *)

Definition report_instruction (goal : json) : string :=
  "Write a complete and detail report about research goal: "
  +++ py_str goal +++ " "
  +++ "Cite Sources inline using [n] and append a reference list mapping [n] to url".

Definition report_request (v : variant) (goal : json)
    (collected : list json) : request :=
  {| model := MODEL;
     input := Messages
       [ {| role := "developer"; content := report_instruction goal |};
         {| role := "assistant";
            content := json_dumps (JArray collected) |} ];
     previous_response_id := None;
     instructions := DEVELOPER_MESSAGE v;
     tools := [] |}.

(** [generate_final_report] of app.py, [generate_report] of
    streamlit_app.py. *)
Definition generate_final_report (v : variant) (goal : json)
    (collected : list json) : M string :=
  report <- create (report_request v goal collected) ;;
  lift (text_at report 0).

(** ** The "Run Deep Research" handler of [main] *)

(** The answers read back from the text inputs, one per question:
    [input idx] is the value of the widget with key [answer_idx]. *)
Fixpoint collect_answers_from (idx : nat) (questions : list string)
    (input : nat -> string) : list string :=
  match questions with
  | [] => []
  | _ :: rest => input idx :: collect_answers_from (S idx) rest input
  end.

Definition collect_answers := collect_answers_from 0.

(** app.py: [any(a.strip() == "" for a in answers)];
    streamlit_app.py: ["" in answers]. *)
Definition unanswered (v : variant) (answers : list string) : bool :=
  match v with
  | AppPy => existsb (fun a => String.eqb (strip a) "") answers
  | StreamlitAppPy => existsb (fun a => String.eqb "" a) answers
  end.

Definition WARNING (v : variant) : string :=
  match v with
  | AppPy => "Answer all questions before proceeding."
  | StreamlitAppPy =>
      "Please answer all clarifying questions before proceeding."
  end.

Definition goal_banner (v : variant) (goal : json) : string :=
  match v with
  | AppPy => "Research Goal: " +++ py_str goal
  | StreamlitAppPy => "Research goal: " +++ py_str goal
  end.

(** The heading of app.py carries a pictograph (U+1F4C4) after the
    hashes, which lies outside the modelled character range and is left
    out of the literal. *)
Definition REPORT_HEADING (v : variant) : string := "## Final Report".

(** The body of [if st.button("Run Deep Research"):].  [st.stop()] raises
    [StopException]; the spinners only decorate the page. *)
Definition run_deep_research (fuel : nat) (v : variant) (topic : string)
    (questions : list string) (clarify_id : string)
    (answers : list string) : M string :=
  (if unanswered v answers
   then show (st_warning (WARNING v)) ;;; raise StopException
   else ret tt) ;;;
  plan <- create_plan v topic questions answers clarify_id ;;
  let '(goal, queries, goal_id) := plan in
  show (st_success (goal_banner v goal)) ;;;
  collected <- conduct_research fuel v goal queries goal_id ;;
  report_md <- generate_final_report v goal collected ;;
  show (st_markdown (REPORT_HEADING v)) ;;;
  show (st_markdown report_md) ;;;
  ret report_md.

(** ** Reading a trace *)

(** The decision a reply to the evaluation call stands for. *)
Definition decision (review : response) : outcome bool :=
  obind (text_at review 0) (fun text => Returned (says_yes text)).

(** A search call of this session: some query, continued from [prev_id]. *)
Definition search_call (v : variant) (prev_id : string) (e : event) : Prop :=
  exists query reply, e = Call (search_request v query prev_id) reply.

(** [batch v prev_id qs seg c]: [seg] is one answered search call per
    query of [qs], in order, each continued from [prev_id], and [c] holds
    the artifact of each. *)
Inductive batch (v : variant) (prev_id : string)
  : list json -> list event -> list json -> Prop :=
| batch_nil : batch v prev_id [] [] []
| batch_cons q qs reply text seg c :
    text_at reply 1 = Returned text ->
    batch v prev_id qs seg c ->
    batch v prev_id (q :: qs)
          (Call (search_request v q prev_id) (Some reply) :: seg)
          (artifact q text :: c).

(** The traces the loop can leave behind when started on [queries] with
    an empty collected set: it stops inside a batch, at an evaluation, at
    the request for other queries, or goes round again on the decoded
    reply. *)
Inductive loop_shape (v : variant) (goal : json) (prev_id : string)
  : json -> list event -> Prop :=
| shape_searching queries seg :
    Forall (search_call v prev_id) seg ->
    loop_shape v goal prev_id queries seg
| shape_evaluated queries qs seg c reply :
    py_iter queries = Returned qs ->
    batch v prev_id qs seg c ->
    loop_shape v goal prev_id queries
      (seg ++ [Call (evaluate_request v goal c) reply])
| shape_asked queries qs seg c review reply :
    py_iter queries = Returned qs ->
    batch v prev_id qs seg c ->
    decision review = Returned false ->
    loop_shape v goal prev_id queries
      (seg ++ [Call (evaluate_request v goal c) (Some review);
               Call (more_request v goal c prev_id) reply])
| shape_retried queries qs seg c review more text queries' rest :
    py_iter queries = Returned qs ->
    batch v prev_id qs seg c ->
    decision review = Returned false ->
    text_at more 0 = Returned text ->
    json_loads text = Some queries' ->
    loop_shape v goal prev_id queries' rest ->
    loop_shape v goal prev_id queries
      (seg ++ Call (evaluate_request v goal c) (Some review)
           :: Call (more_request v goal c prev_id) (Some more)
           :: rest).

(** The three calls the loop makes. *)
Definition loop_call (v : variant) (goal : json) (prev_id : string)
    (e : event) : Prop :=
  search_call v prev_id e
  \/ (exists c reply, e = Call (evaluate_request v goal c) reply)
  \/ (exists c reply, e = Call (more_request v goal c prev_id) reply).

End Stages.

(** The kind of a call, read off its request alone: only searches carry
    tools; the other calls differ in their message list and in whether
    they continue a token. *)
Inductive kind := Search | Evaluate | More | Report | Single.

Definition kind_of (req : request) : kind :=
  match tools req with
  | _ :: _ => Search
  | [] =>
      match input req, previous_response_id req with
      | Messages [_; _; _], _ => Evaluate
      | Messages [_; _], Some _ => More
      | Messages [_; _], None => Report
      | _, _ => Single
      end
  end.

Definition is_search (e : event) : bool :=
  match e with
  | Call req _ => match kind_of req with Search => true | _ => false end
  | Ui _ => false
  end.

(** ** The statements of the specification that the code does not meet *)

(** A plan with a non-empty goal string and at least one query. *)
Definition fully_populated (goal queries : json) : Prop :=
  (exists s, goal = JString s /\ s <> EmptyString)
  /\ (exists items, queries = JArray items /\ items <> []).

(** A stage that refuses its inputs before calling the gateway. *)
Definition rejected_before_call {A} (run : outcome A * list event * list response)
  : Prop :=
  (exists e, outcome_of run = Raised e) /\ trace_of run = [].

(** An artifact whose reference is the token of the search reply. *)
Definition stores_only_reference (search_resp : response) (found : json)
  : Prop :=
  py_getitem found "resp_id" = Returned (JString (id_ search_resp)).

(* ------------------------------------------------------------------ *)
(** * Library models for closed examples

    A decoder, an encoder and a formatter for the part of JSON and of
    Python's [str()] that the examples below exercise: no float literals
    and no [\u] escapes on input (the decoder rejects them), characters
    below 256; a float value prints as its literal.  The general theorems
    hold for every [JsonLib]. *)

Module PyLib.

Definition is_json_ws (c : ascii) : bool :=
  let n := code c in
  ((n =? 32) || (n =? 9) || (n =? 10) || (n =? 13))%nat.

Fixpoint skip_ws (s : string) : string :=
  match s with
  | String c s' => if is_json_ws c then skip_ws s' else s
  | EmptyString => EmptyString
  end.

Definition unescape (c : ascii) : option ascii :=
  let n := code c in
  if (n =? 34)%nat then Some c
  else if (n =? 92)%nat then Some c
  else if (n =? 47)%nat then Some c
  else if (n =? 98)%nat then Some (ascii_of_nat 8)
  else if (n =? 102)%nat then Some (ascii_of_nat 12)
  else if (n =? 110)%nat then Some (ascii_of_nat 10)
  else if (n =? 114)%nat then Some (ascii_of_nat 13)
  else if (n =? 116)%nat then Some (ascii_of_nat 9)
  else None.

(** The characters of a string literal after its opening quote. *)
Fixpoint scan_string (s : string) : option (string * string) :=
  match s with
  | EmptyString => None
  | String c rest =>
      if (code c =? 34)%nat then Some (EmptyString, rest)
      else if (code c =? 92)%nat then
        match rest with
        | String e rest' =>
            match unescape e, scan_string rest' with
            | Some ch, Some (body, r) => Some (String ch body, r)
            | _, _ => None
            end
        | EmptyString => None
        end
      else if (code c <? 32)%nat then None
      else match scan_string rest with
           | Some (body, r) => Some (String c body, r)
           | None => None
           end
  end.

Definition is_digit (c : ascii) : bool :=
  ((48 <=? code c) && (code c <=? 57))%nat.

Fixpoint scan_digits (s : string) (acc : Z) : Z * string :=
  match s with
  | String c rest =>
      if is_digit c
      then scan_digits rest (10 * acc + Z.of_nat (code c - 48))%Z
      else (acc, s)
  | EmptyString => (acc, s)
  end.

Definition starts_fraction (s : string) : bool :=
  match s with
  | String c _ =>
      ((code c =? 46) || (code c =? 101) || (code c =? 69))%nat
  | EmptyString => false
  end.

(** An integer literal without its sign: [0] or a digit string that does
    not start with [0]. *)
Definition scan_nat (s : string) : option (Z * string) :=
  match s with
  | String c rest =>
      if negb (is_digit c) then None
      else
        let '(z, r) :=
          if (code c =? 48)%nat then (0%Z, rest) else scan_digits s 0%Z in
        match r with
        | String d _ => if is_digit d || starts_fraction r then None
                        else Some (z, r)
        | EmptyString => Some (z, r)
        end
  | EmptyString => None
  end.

(** [d[k] = v]: an existing key keeps its place. *)
Fixpoint dict_set (k : string) (v : json) (kvs : list (string * json))
  : list (string * json) :=
  match kvs with
  | [] => [(k, v)]
  | (k', v') :: rest =>
      if String.eqb k k' then (k', v) :: rest
      else (k', v') :: dict_set k v rest
  end.

Definition dict_of (kvs : list (string * json)) : list (string * json) :=
  fold_left (fun d kv => dict_set (fst kv) (snd kv) d) kvs [].

Definition expect (n : nat) (s : string) : option string :=
  match skip_ws s with
  | String c rest => if (code c =? n)%nat then Some rest else None
  | EmptyString => None
  end.

Fixpoint parse_value (fuel : nat) (s : string) : option (json * string) :=
  match fuel with
  | O => None
  | S fuel' =>
      match skip_ws s with
      | String c rest =>
          let n := code c in
          if (n =? 34)%nat then
            match scan_string rest with
            | Some (body, r) => Some (JString body, r)
            | None => None
            end
          else if (n =? 91)%nat then
            match expect 93 rest with
            | Some r => Some (JArray [], r)
            | None =>
                match parse_items fuel' rest with
                | Some (items, r) => Some (JArray items, r)
                | None => None
                end
            end
          else if (n =? 123)%nat then
            match expect 125 rest with
            | Some r => Some (JObject [], r)
            | None =>
                match parse_members fuel' rest with
                | Some (kvs, r) => Some (JObject (dict_of kvs), r)
                | None => None
                end
            end
          else if (n =? 45)%nat then
            match scan_nat rest with
            | Some (z, r) => Some (JInt (- z), r)
            | None => None
            end
          else if is_digit c then
            match scan_nat (String c rest) with
            | Some (z, r) => Some (JInt z, r)
            | None => None
            end
          else if String.prefix "null" (String c rest)
          then Some (JNull, String.substring 4 (String.length rest) (String c rest))
          else if String.prefix "true" (String c rest)
          then Some (JBool true, String.substring 4 (String.length rest) (String c rest))
          else if String.prefix "false" (String c rest)
          then Some (JBool false, String.substring 5 (String.length rest) (String c rest))
          else None
      | EmptyString => None
      end
  end

with parse_items (fuel : nat) (s : string) : option (list json * string) :=
  match fuel with
  | O => None
  | S fuel' =>
      match parse_value fuel' s with
      | Some (item, r) =>
          match expect 93 r with
          | Some r' => Some ([item], r')
          | None =>
              match expect 44 r with
              | Some r' =>
                  match parse_items fuel' r' with
                  | Some (items, r'') => Some (item :: items, r'')
                  | None => None
                  end
              | None => None
              end
          end
      | None => None
      end
  end

with parse_members (fuel : nat) (s : string)
  : option (list (string * json) * string) :=
  match fuel with
  | O => None
  | S fuel' =>
      match expect 34 s with
      | Some r =>
          match scan_string r with
          | Some (key, r1) =>
              match expect 58 r1 with
              | Some r2 =>
                  match parse_value fuel' r2 with
                  | Some (value, r3) =>
                      match expect 125 r3 with
                      | Some r4 => Some ([(key, value)], r4)
                      | None =>
                          match expect 44 r3 with
                          | Some r4 =>
                              match parse_members fuel' r4 with
                              | Some (kvs, r5) => Some ((key, value) :: kvs, r5)
                              | None => None
                              end
                          | None => None
                          end
                      end
                  | None => None
                  end
              | None => None
              end
          | None => None
          end
      | None => None
      end
  end.

(** [json.loads(text)] *)
Definition parse_json (text : string) : option json :=
  match parse_value (2 * String.length text + 2) text with
  | Some (value, rest) => if is_empty (skip_ws rest) then Some value else None
  | None => None
  end.

Definition int_str (z : Z) : string :=
  NilZero.string_of_int (Z.to_int z).

Definition hex_digit (n : nat) : string :=
  chr (if (n <? 10)%nat then 48 + n else 87 + n).

Definition hex2 (n : nat) : string :=
  hex_digit (n / 16) +++ hex_digit (n mod 16).

Definition backslash : string := chr 92.

(** One character inside a [json.dumps] string literal
    ([ensure_ascii=True]). *)
Definition dumps_char (c : ascii) : string :=
  let n := code c in
  if (n =? 34)%nat then backslash +++ dq
  else if (n =? 92)%nat then backslash +++ backslash
  else if (n =? 10)%nat then backslash +++ "n"
  else if (n =? 13)%nat then backslash +++ "r"
  else if (n =? 9)%nat then backslash +++ "t"
  else if (n =? 8)%nat then backslash +++ "b"
  else if (n =? 12)%nat then backslash +++ "f"
  else if ((n <? 32) || (126 <? n))%nat then backslash +++ "u00" +++ hex2 n
  else String c EmptyString.

Fixpoint dumps_chars (s : string) : string :=
  match s with
  | EmptyString => EmptyString
  | String c s' => dumps_char c +++ dumps_chars s'
  end.

Definition dumps_string (s : string) : string := quoted (dumps_chars s).

(** [sep.join(fields)] *)
Fixpoint join (sep : string) (fields : list string) : string :=
  match fields with
  | [] => EmptyString
  | [f] => f
  | f :: rest => f +++ sep +++ join sep rest
  end.

(** [json.dumps(value)] with the default separators. *)
Fixpoint dumps (value : json) : string :=
  match value with
  | JNull => "null"
  | JBool true => "true"
  | JBool false => "false"
  | JInt z => int_str z
  | JFloat literal => literal
  | JString s => dumps_string s
  | JArray items =>
      "[" +++ join ", " (map dumps items) +++ "]"
  | JObject kvs =>
      "{" +++ join ", "
                (map (fun kv => dumps_string (fst kv) +++ ": "
                                +++ dumps (snd kv)) kvs)
      +++ "}"
  end.

Definition has_char (n : nat) (s : string) : bool :=
  existsb (fun c => (code c =? n)%nat) (list_ascii_of_string s).

(** One character inside [repr(s)] with the quote character [q]. *)
Definition repr_char (q : nat) (c : ascii) : string :=
  let n := code c in
  if (n =? 92)%nat then backslash +++ backslash
  else if (n =? q)%nat then backslash +++ String c EmptyString
  else if (n =? 10)%nat then backslash +++ "n"
  else if (n =? 13)%nat then backslash +++ "r"
  else if (n =? 9)%nat then backslash +++ "t"
  else if ((n <? 32) || ((126 <? n) && (n <? 161)) || (n =? 173))%nat
  then backslash +++ "x" +++ hex2 n
  else String c EmptyString.

(** [repr(s)] of a string: single quotes unless the string has a single
    quote and no double quote. *)
Definition repr_string (s : string) : string :=
  let q := if has_char 39 s && negb (has_char 34 s) then 34 else 39 in
  chr q +++ String.concat EmptyString
              (map (repr_char q) (list_ascii_of_string s)) +++ chr q.

Fixpoint repr (value : json) : string :=
  match value with
  | JNull => "None"
  | JBool true => "True"
  | JBool false => "False"
  | JInt z => int_str z
  | JFloat literal => literal
  | JString s => repr_string s
  | JArray items => "[" +++ join ", " (map repr items) +++ "]"
  | JObject kvs =>
      "{" +++ join ", "
                (map (fun kv => repr_string (fst kv) +++ ": "
                                +++ repr (snd kv)) kvs)
      +++ "}"
  end.

(** [str(value)], as an f-string field formats it. *)
Definition str_of (value : json) : string :=
  match value with
  | JString s => s
  | _ => repr value
  end.

Definition lib : JsonLib :=
  {| json_loads := parse_json; json_dumps := dumps; py_str := str_of |}.

End PyLib.

(* ------------------------------------------------------------------ *)
(** * The page: [main]

    Streamlit runs [main] from the top on every interaction.  One run
    reads the widgets ([widgets]: what the user typed and which button
    was clicked), and reads and writes what outlives the run ([world]:
    [st.session_state] and the process environment).  A run denotes an
    outcome, what was rendered and called, the world it leaves and the
    rest of the gateway script. *)

(** The keys of [st.session_state] the scripts use. *)
Record session_state := {
  ss_questions : option (list string);
  ss_clarify_id : option string;
  ss_answers : option (list string)
}.

(** [OPENAI_API_KEY] is [os.environ["OPENAI_API_KEY"]], if set. *)
Record world := {
  session : session_state;
  OPENAI_API_KEY : option string
}.

(** [secrets] is [st.secrets["OPENAI_API_KEY"]], [None] when the lookup
    raises; [answer_input idx] is the text input with key [answer_idx]. *)
Record widgets := {
  secrets : option string;
  sidebar_key : string;
  topic_input : string;
  generate_clicked : bool;
  run_clicked : bool;
  answer_input : nat -> string
}.

Inductive page_output :=
| st_set_page_config (page_title layout : string)
| st_title (body : string)
| st_error (body : string)
| st_info (body : string)
| st_subheader (body : string)
| st_text_input (label : string) (key placeholder : option string)
| st_sidebar_text_input (label kind : string)
| st_button (label : string).

(** What a run of the page leaves behind: stage events and renderings. *)
Inductive page_event :=
| Stage (e : event)
| Page (out : page_output).

Definition P (A : Type) : Type :=
  world -> list response ->
  outcome A * list page_event * world * list response.

Definition pret {A} (a : A) : P A := fun w s => (Returned a, [], w, s).

Definition pbind {A B} (m : P A) (f : A -> P B) : P B :=
  fun w s =>
    match m w s with
    | (Returned a, t, w', s') =>
        match f a w' s' with
        | (o, t', w'', s'') => (o, t ++ t', w'', s'')
        end
    | (Raised e, t, w', s') => (Raised e, t, w', s')
    | (OutOfFuel, t, w', s') => (OutOfFuel, t, w', s')
    end.

(** A stage function run inside the page. *)
Definition plift {A} (m : M A) : P A :=
  fun w s => match m s with (o, t, s') => (o, map Stage t, w, s') end.

Definition praise {A} (e : exn) : P A := fun w s => (Raised e, [], w, s).
Definition render (out : page_output) : P unit :=
  fun w s => (Returned tt, [Page out], w, s).
Definition get_world : P world := fun w s => (Returned w, [], w, s).
Definition put_session (ss : session_state) : P unit :=
  fun w s => (Returned tt, [],
              {| session := ss; OPENAI_API_KEY := OPENAI_API_KEY w |}, s).

(** [st.stop()] *)
Definition st_stop {A} : P A := praise StopException.

(** [st.session_state[key]] for a key that may be missing. *)
Definition session_get {A} (key : string) (field : session_state -> option A)
  : P A :=
  fun w s =>
    match field (session w) with
    | Some x => (Returned x, [], w, s)
    | None => (Raised (KeyError key), [], w, s)
    end.

(** [get_openai_client]: the key goes into the process environment; the
    client it returns is the gateway. *)
Definition get_openai_client (api_key : string) : P unit :=
  fun w s => (Returned tt, [],
              {| session := session w; OPENAI_API_KEY := Some api_key |}, s).

Notation "x <-- m ;; k" := (pbind m (fun x => k))
  (at level 61, m at next level, right associativity).
Notation "m ;;- k" := (pbind m (fun _ => k))
  (at level 61, right associativity).

(** [f"answer_{idx}"] *)
Definition answer_key (idx : nat) : string :=
  "answer_" +++ PyLib.int_str (Z.of_nat idx).

(** [for idx, q in enumerate(questions): answers.append(st.text_input(q,
    key=f"answer_{idx}"))], from index [idx] on. *)
Fixpoint read_answers (inp : widgets) (idx : nat) (questions : list string)
  : P (list string) :=
  match questions with
  | [] => pret []
  | q :: rest =>
      render (st_text_input q (Some (answer_key idx)) None) ;;-
      answers <-- read_answers inp (S idx) rest ;;
      pret (answer_input inp idx :: answers)
  end.

Section Pages.

Context {lib : JsonLib}.

(** The guard of the handler, and what follows it. *)
Definition answers_guard (v : variant) (answers : list string) : M unit :=
  if unanswered v answers
  then show (st_warning (WARNING v)) ;;; raise StopException
  else ret tt.

Definition plan_research_report (fuel : nat) (v : variant) (topic : string)
    (questions : list string) (clarify_id : string)
    (answers : list string) : M string :=
  plan <- create_plan v topic questions answers clarify_id ;;
  let '(goal, queries, goal_id) := plan in
  show (st_success (goal_banner v goal)) ;;;
  collected <- conduct_research fuel v goal queries goal_id ;;
  report_md <- generate_final_report v goal collected ;;
  show (st_markdown (REPORT_HEADING v)) ;;;
  show (st_markdown report_md) ;;;
  ret report_md.

(** app.py: the secret if the lookup succeeds, else the environment
    variable. *)
Definition app_api_key (inp : widgets) (w : world) : option string :=
  match secrets inp with
  | Some key => Some key
  | None => OPENAI_API_KEY w
  end.

(** [not api_key] *)
Definition no_key (api_key : option string) : bool :=
  match api_key with
  | Some key => is_empty key
  | None => true
  end.

Definition key_text (api_key : option string) : string :=
  match api_key with
  | Some key => key
  | None => EmptyString
  end.

Definition KEY_ERROR : string :=
  "OPENAI_API_KEY not found. Set it in Streamlit Secrets or as an environment variable.".

Definition SUBHEADER (v : variant) : string :=
  match v with
  | AppPy => "Please answer the following questions:"
  | StreamlitAppPy => "Clarifying Questions"
  end.

(** The body of [if st.button("Run Deep Research"):].  Only
    streamlit_app.py makes a client here, after its guard; app.py uses
    the one made further up. *)
Definition handler (fuel : nat) (v : variant) (inp : widgets)
    (api_key : string) (answers : list string) : P unit :=
  plift (answers_guard v answers) ;;-
  match v with
  | AppPy => pret tt
  | StreamlitAppPy => get_openai_client api_key
  end ;;-
  questions <-- session_get "questions" ss_questions ;;
  clarify_id <-- session_get "clarify_id" ss_clarify_id ;;
  plift (plan_research_report fuel v (topic_input inp) questions
           clarify_id answers) ;;-
  pret tt.

(** From the subheader on: one text input per stored question, the run
    button and, when it was clicked, the handler. *)
Definition answer_form (fuel : nat) (v : variant) (inp : widgets)
    (api_key : string) : P unit :=
  render (st_subheader (SUBHEADER v)) ;;-
  questions <-- session_get "questions" ss_questions ;;
  answers <-- read_answers inp 0 questions ;;
  render (st_button "Run Deep Research") ;;-
  if run_clicked inp then handler fuel v inp api_key answers
  else pret tt.

Definition stored (w : world) : bool :=
  match ss_questions (session w) with
  | Some _ => true
  | None => false
  end.

(** [main] of app.py.  The title carries a pictograph (U+1F50D) before
    its words, left out of the literal like the one of the report
    heading. *)
Definition app_main (fuel : nat) (inp : widgets) : P unit :=
  render (st_set_page_config "Deep Research Assistant" "wide") ;;-
  render (st_title "Deep Research Assistant") ;;-
  w <-- get_world ;;
  let api_key := app_api_key inp w in
  if no_key api_key then render (st_error KEY_ERROR) ;;- st_stop
  else
    render (st_text_input "Topic of research" None
              (Some "e.g., Quantum Computing for Beginners")) ;;-
    let topic := topic_input inp in
    if is_empty topic then st_stop
    else
      render (st_button "Generate Clarifying Questions") ;;-
      w <-- get_world ;;
      if generate_clicked inp || stored w then
        get_openai_client (key_text api_key) ;;-
        (if stored w then pret tt
         else
           asked <-- plift (ask_clarifying_questions AppPy topic) ;;
           let '(qs, clarify_id) := asked in
           w <-- get_world ;;
           put_session {| ss_questions := Some qs;
                          ss_clarify_id := Some clarify_id;
                          ss_answers := ss_answers (session w) |}) ;;-
        answer_form fuel AppPy inp (key_text api_key)
      else pret tt.

(** [main] of streamlit_app.py. *)
Definition streamlit_main (fuel : nat) (inp : widgets) : P unit :=
  render (st_title "Deep Research Assistant") ;;-
  render (st_sidebar_text_input "OpenAI API Key" "password") ;;-
  let api_key := sidebar_key inp in
  if is_empty api_key
  then render (st_info "Please enter your OpenAI API key to begin.") ;;-
       st_stop
  else
    render (st_text_input "Enter the topic of research:" None None) ;;-
    let topic := topic_input inp in
    if is_empty topic then st_stop
    else
      render (st_button "Generate Clarifying Questions") ;;-
      (if generate_clicked inp then
         get_openai_client api_key ;;-
         asked <-- plift (ask_clarifying_questions StreamlitAppPy topic) ;;
         let '(questions, clarify_id) := asked in
         put_session {| ss_questions := Some questions;
                        ss_clarify_id := Some clarify_id;
                        ss_answers :=
                          Some (repeat EmptyString (List.length questions)) |}
       else pret tt) ;;-
      w <-- get_world ;;
      if stored w then answer_form fuel StreamlitAppPy inp api_key
      else pret tt.

Definition main (fuel : nat) (v : variant) : widgets -> P unit :=
  match v with
  | AppPy => app_main fuel
  | StreamlitAppPy => streamlit_main fuel
  end.

(** The key a run works with. *)
Definition api_key_of (v : variant) (inp : widgets) (w : world)
  : option string :=
  match v with
  | AppPy => app_api_key inp w
  | StreamlitAppPy => Some (sidebar_key inp)
  end.

(** [questions] and [clarify_id] are stored together. *)
Definition paired (ss : session_state) : Prop :=
  ss_questions ss = None <-> ss_clarify_id ss = None.

End Pages.

(** The text inputs [read_answers] renders. *)
Fixpoint answer_inputs (idx : nat) (questions : list string)
  : list page_event :=
  match questions with
  | [] => []
  | q :: rest =>
      Page (st_text_input q (Some (answer_key idx)) None)
      :: answer_inputs (S idx) rest
  end.

(** An outcome with its value forgotten. *)
Definition void {A} (o : outcome A) : outcome unit :=
  obind o (fun _ => Returned tt).

(** The exceptions that reading a reply can raise. *)
Definition reply_error (e : exn) : Prop :=
  e = IndexError \/ e = AttributeError \/ e = TypeError
  \/ e = JSONDecodeError \/ e = APIConnectionError.

(** The stage events of a page trace, in order. *)
Definition stage_events (tr : list page_event) : list event :=
  flat_map (fun e => match e with Stage x => [x] | Page _ => [] end) tr.

(** A page trace without gateway calls. *)
Definition no_calls (t : list page_event) : Prop :=
  forall req reply, ~ In (Call req reply) (stage_events t).

(** The world with [api_key] written to the environment. *)
Definition with_key (api_key : string) (w : world) : world :=
  {| session := session w; OPENAI_API_KEY := Some api_key |}.

(* ------------------------------------------------------------------ *)
(** * A session

    The end-to-end scenario: the first evaluation says no, the
    regenerated list has three queries instead of two, the second
    evaluation says yes. *)

Module Scenario.

Definition text_reply (ident text : string) : response :=
  {| id_ := ident; output := [OutputMessage [OutputText text]] |}.

Definition search_reply (ident text : string) : response :=
  {| id_ := ident;
     output := [ToolCall "web_search_call";
                OutputMessage [OutputText text]] |}.

Definition topic : string := "Quantum Computing for Beginners".

Definition clarify_reply : response :=
  text_reply "resp_clarify"
    ("1. Who is the audience?" +++ nl +++ nl +++ "  2. How deep?  " +++ nl).

Definition questions : list string :=
  ["1. Who is the audience?"; "2. How deep?"].
Definition answers : list string := ["Students"; "Introductory"].

Definition goal : json :=
  JString "Explain quantum computing basics for a beginner audience".

Definition plan_text : string :=
  "{" +++ quoted "goal" +++ ": "
  +++ quoted "Explain quantum computing basics for a beginner audience"
  +++ ", " +++ quoted "queries" +++ ": [" +++ quoted "q1" +++ ", "
  +++ quoted "q2" +++ "]}".

Definition more_text : string :=
  "[" +++ quoted "q3" +++ ", " +++ quoted "q4" +++ ", " +++ quoted "q5"
  +++ "]".

Definition plan_reply : response := text_reply "resp_plan" plan_text.

Definition first_attempt : list response :=
  [ search_reply "resp_s1" "Qubits generalise bits.";
    search_reply "resp_s2" "Gates act on qubits.";
    text_reply "resp_e1" "No." ].

Definition second_attempt : list response :=
  [ search_reply "resp_s3" "Superposition explained.";
    search_reply "resp_s4" "Entanglement explained.";
    search_reply "resp_s5" "Shor and Grover.";
    text_reply "resp_e2" "Yes" ].

Definition more_reply : response := text_reply "resp_more" more_text.
Definition report_reply : response :=
  text_reply "resp_report" "Quantum computers use qubits [1].".

Definition research_script : list response :=
  first_attempt ++ [more_reply] ++ second_attempt.

Definition session_script : list response :=
  [plan_reply] ++ research_script ++ [report_reply].

Definition queries : json := JArray [JString "q1"; JString "q2"].

Definition final_set : list json :=
  [ artifact (JString "q3") "Superposition explained.";
    artifact (JString "q4") "Entanglement explained.";
    artifact (JString "q5") "Shor and Grover." ].

(** A plan reply with both fields present and empty. *)
Definition empty_plan_text : string :=
  "{" +++ quoted "goal" +++ ": " +++ quoted EmptyString +++ ", "
  +++ quoted "queries" +++ ": []}".

(** A search reply that lacks the second output block. *)
Definition bare_reply : response := text_reply "resp_s0" "No tool was used.".

Definition first_set : list json :=
  [ artifact (JString "q1") "Qubits generalise bits.";
    artifact (JString "q2") "Gates act on qubits." ].

(** The page: a key, the world with and without stored questions, and
    the two clicks. *)
Definition api_key : string := "sk-test".

Definition fresh_world : world :=
  {| session := {| ss_questions := None; ss_clarify_id := None;
                   ss_answers := None |};
     OPENAI_API_KEY := None |}.

Definition stored_world : world :=
  {| session := {| ss_questions := Some questions;
                   ss_clarify_id := Some "resp_clarify";
                   ss_answers := None |};
     OPENAI_API_KEY := None |}.

Definition run_click : widgets :=
  {| secrets := Some api_key; sidebar_key := api_key;
     topic_input := topic; generate_clicked := false; run_clicked := true;
     answer_input := fun idx => nth idx answers EmptyString |}.

Definition generate_click : widgets :=
  {| secrets := Some api_key; sidebar_key := api_key;
     topic_input := topic; generate_clicked := true; run_clicked := false;
     answer_input := fun idx => nth idx answers EmptyString |}.

End Scenario.

(* ------------------------------------------------------------------ *)
(** * Facts about the string operations *)

Lemma prefix_iff (p s : string) :
  String.prefix p s = true <-> exists post, s = p +++ post.
Proof.
  revert s; induction p as [|a p IH]; intros s.
  - destruct s; simpl; split; intros _; eauto.
  - destruct s as [|b s]; simpl.
    + split; [discriminate | intros [post H]; discriminate].
    + destruct (ascii_dec a b) as [->|Hne].
      * rewrite IH. split; intros [post H]; exists post.
        -- now rewrite H.
        -- now injection H.
      * split; [discriminate|].
        intros [post H]. injection H as Hab _. congruence.
Qed.

Lemma py_in_unfold (sub s : string) :
  py_in sub s =
  if String.prefix sub s then true
  else match s with
       | EmptyString => false
       | String _ s' => py_in sub s'
       end.
Proof. destruct s; reflexivity. Qed.

Lemma py_in_iff (sub s : string) : py_in sub s = true <-> Substring sub s.
Proof.
  unfold Substring. induction s as [|c s IH]; rewrite py_in_unfold.
  - destruct (String.prefix sub EmptyString) eqn:Hp.
    + apply prefix_iff in Hp as [post Hp].
      split; [intros _; now exists EmptyString, post | reflexivity].
    + split; [discriminate|].
      intros (pre & post & H). destruct pre; [|discriminate].
      assert (String.prefix sub EmptyString = true)
        by (apply prefix_iff; now exists post).
      congruence.
  - destruct (String.prefix sub (String c s)) eqn:Hp.
    + apply prefix_iff in Hp as [post Hp].
      split; [intros _; now exists EmptyString, post | reflexivity].
    + rewrite IH. split.
      * intros (pre & post & H). exists (String c pre), post.
        simpl. now rewrite H.
      * intros (pre & post & H). destruct pre as [|a pre].
        -- assert (String.prefix sub (String c s) = true)
             by (apply prefix_iff; now exists post).
           congruence.
        -- injection H as _ H. now exists pre, post.
Qed.

Lemma blank_nil : blank EmptyString.
Proof. intros c []. Qed.

Lemma blank_cons (c : ascii) (s : string) :
  blank (String c s) <-> is_space c = true /\ blank s.
Proof.
  unfold blank; simpl. split.
  - intros H. split; [apply H; now left | intros d Hd; apply H; now right].
  - intros [Hc Hs] d [<-|Hd]; auto.
Qed.

Lemma is_empty_iff (s : string) : is_empty s = true <-> s = EmptyString.
Proof. destruct s; simpl; split; congruence. Qed.

Lemma lstrip_blank (s : string) : lstrip s = EmptyString <-> blank s.
Proof.
  induction s as [|c s IH]; simpl.
  - split; [intros _; apply blank_nil | reflexivity].
  - rewrite blank_cons. destruct (is_space c).
    + rewrite IH. tauto.
    + split; [discriminate | intros [? _]; discriminate].
Qed.

Lemma rstrip_blank (s : string) : rstrip s = EmptyString <-> blank s.
Proof.
  induction s as [|c s IH]; simpl.
  - split; [intros _; apply blank_nil | reflexivity].
  - rewrite blank_cons. destruct (is_space c); simpl.
    + destruct (rstrip s) eqn:Hr; simpl.
      * split; [intros _; split; [reflexivity | now apply IH] | reflexivity].
      * split; [discriminate | intros [_ Hs]; apply IH in Hs; discriminate].
    + split; [discriminate | intros [? _]; discriminate].
Qed.

Lemma lstrip_blank_tail (s : string) : blank (lstrip s) <-> blank s.
Proof.
  induction s as [|c s IH]; simpl; [tauto|].
  destruct (is_space c) eqn:Hc.
  - rewrite IH, blank_cons. tauto.
  - tauto.
Qed.

Lemma strip_empty_iff (s : string) : strip s = EmptyString <-> blank s.
Proof. unfold strip. now rewrite rstrip_blank, lstrip_blank_tail. Qed.

Lemma lstrip_head (s : string) (c : ascii) (r : string) :
  lstrip s = String c r -> is_space c = false.
Proof.
  induction s as [|a s IH]; simpl; [discriminate|].
  destruct (is_space a) eqn:Ha; [exact IH|].
  intros H; injection H as <- _. exact Ha.
Qed.

Lemma rstrip_head (s : string) (c : ascii) (r : string) :
  rstrip s = String c r -> exists s', s = String c s'.
Proof.
  destruct s as [|a s]; simpl; [discriminate|].
  destruct (is_space a && is_empty (rstrip s)); [discriminate|].
  intros H; injection H as <- _. now exists s.
Qed.

(** A stripped string does not start with whitespace. *)
Lemma strip_head (s : string) (c : ascii) (r : string) :
  strip s = String c r -> is_space c = false.
Proof.
  unfold strip. intros H.
  destruct (rstrip_head _ _ _ H) as [s' Hs]. now apply lstrip_head in Hs.
Qed.

Lemma strip_not_blank (s : string) :
  strip s <> EmptyString -> ~ blank (strip s).
Proof.
  intros Hne Hb. destruct (strip s) as [|c r] eqn:Hs; [congruence|].
  apply strip_head in Hs. apply blank_cons in Hb as [Hc _]. congruence.
Qed.

Lemma rstrip_idem (s : string) : rstrip (rstrip s) = rstrip s.
Proof.
  induction s as [|c s IH]; simpl; [reflexivity|].
  destruct (is_space c && is_empty (rstrip s)) eqn:Hc; simpl; [reflexivity|].
  now rewrite IH, Hc.
Qed.

(** Stripping twice is stripping once: the result has no leading and no
    trailing whitespace left. *)
Lemma strip_idem (s : string) : strip (strip s) = strip s.
Proof.
  unfold strip.
  destruct (rstrip (lstrip s)) as [|c r] eqn:Hs; [reflexivity|].
  pose proof (strip_head s c r Hs) as Hc.
  cbn [lstrip]. rewrite Hc, <- Hs. apply rstrip_idem.
Qed.

Lemma split_nonempty (sep : ascii) (s : string) : split sep s <> [].
Proof.
  destruct s as [|c s]; simpl; [discriminate|].
  destruct (Ascii.eqb c sep); [discriminate|].
  destruct (split sep s); discriminate.
Qed.

(** [split] loses nothing: joining the fields with the separator gives
    the text back. *)
Lemma split_join (sep : ascii) (s : string) :
  PyLib.join (String sep EmptyString) (split sep s) = s.
Proof.
  induction s as [|c s IH]; [reflexivity|].
  cbn [split]. pose proof (split_nonempty sep s) as Hne.
  destruct (Ascii.eqb_spec c sep) as [->|Hc];
    destruct (split sep s) as [|f fs]; try congruence.
  - change (String sep (PyLib.join (String sep EmptyString) (f :: fs))
            = String sep s).
    now rewrite IH.
  - destruct fs as [|g fs].
    + simpl in *. now subst.
    + change (String c (PyLib.join (String sep EmptyString) (f :: g :: fs))
              = String c s).
      now rewrite IH.
Qed.

(* ------------------------------------------------------------------ *)
(** * The stages, one gateway call each *)

Section Properties.

Context {lib : JsonLib}.

Lemma question_lines_in (text q : string) :
  In q (question_lines text) <->
  exists line, In line (split newline text) /\ ~ blank line /\ q = strip line.
Proof.
  unfold question_lines. rewrite in_map_iff. split.
  - intros (line & <- & Hin). apply filter_In in Hin as [Hin Hne].
    exists line. repeat split; trivial.
    rewrite <- strip_empty_iff, <- is_empty_iff.
    now destruct (is_empty (strip line)).
  - intros (line & Hin & Hnb & ->). exists line. split; [reflexivity|].
    apply filter_In. split; [exact Hin|].
    destruct (is_empty (strip line)) eqn:He; [|reflexivity].
    apply is_empty_iff, strip_empty_iff in He. contradiction.
Qed.

Lemma blank_dec (s : string) : {blank s} + {~ blank s}.
Proof.
  destruct (is_empty (strip s)) eqn:He.
  - left. now apply strip_empty_iff, is_empty_iff.
  - right. intros Hb. apply strip_empty_iff, is_empty_iff in Hb. congruence.
Qed.

(** C7, as the code has it: the question list is made of the non-blank
    lines of the reply, in order, each trimmed; no entry is blank or
    carries outer whitespace; and a reply with no non-blank line yields
    the empty list, which is returned like any other. *)
Theorem clarify_questions_trimmed (v : variant) (topic : string)
    (clarify : response) (s : list response) (text : string) :
  text_at clarify 0 = Returned text ->
  ask_clarifying_questions v topic (clarify :: s)
  = (Returned (question_lines text, id_ clarify),
     [Call (clarify_request v topic) (Some clarify)], s)
  /\ (forall q, In q (question_lines text) <->
        exists line, In line (split newline text)
                     /\ ~ blank line /\ q = strip line)
  /\ (forall q, In q (question_lines text) -> ~ blank q /\ strip q = q)
  /\ (question_lines text = [] <->
        forall line, In line (split newline text) -> blank line).
Proof.
  intros Htext. repeat split.
  - unfold ask_clarifying_questions, bind, create, lift, ret.
    rewrite Htext. reflexivity.
  - apply question_lines_in.
  - apply question_lines_in.
  - apply question_lines_in in H as (line & _ & Hnb & ->).
    apply strip_not_blank. now rewrite strip_empty_iff.
  - apply question_lines_in in H as (line & _ & _ & ->). apply strip_idem.
  - intros Hnil line Hin. destruct (blank_dec line) as [Hb|Hnb]; [exact Hb|].
    assert (In (strip line) (question_lines text)) as Hq
      by (apply question_lines_in; eauto).
    rewrite Hnil in Hq. destruct Hq.
  - intros Hall. destruct (question_lines text) as [|q qs] eqn:Hq;
      [reflexivity|].
    assert (In q (question_lines text)) as Hin by (rewrite Hq; now left).
    apply question_lines_in in Hin as (line & Hin & Hnb & _).
    destruct Hnb. now apply Hall.
Qed.

Lemma py_getitem_total (value : json) (key : string) :
  py_getitem value key <> OutOfFuel.
Proof.
  destruct value; simpl; try discriminate.
  destruct (assoc key members); discriminate.
Qed.

Lemma text_at_total (resp : response) (i : nat) : text_at resp i <> OutOfFuel.
Proof.
  unfold text_at, py_index.
  destruct (nth_error (output resp) i) as [[parts|]|]; simpl;
    try discriminate.
  destruct parts as [|[|] ?]; simpl; discriminate.
Qed.

Lemma create_plan_run (v : variant) (topic : string)
    (questions answers : list string) (prev_id : string)
    (resp : response) (s : list response) :
  create_plan v topic questions answers prev_id (resp :: s)
  = (obind (text_at resp 0) (fun text =>
     obind (loads text) (fun plan =>
     obind (py_getitem plan "goal") (fun goal =>
     obind (py_getitem plan "queries") (fun queries =>
     Returned (goal, queries, id_ resp))))),
     [Call (plan_request v topic questions answers prev_id) (Some resp)], s).
Proof.
  unfold create_plan, bind, create, lift, ret.
  destruct (text_at resp 0); simpl; trivial.
  destruct (loads a); simpl; trivial.
  destruct (py_getitem a0 "goal"); simpl; trivial.
  destruct (py_getitem a0 "queries"); reflexivity.
Qed.

(** C5, as the code has it: the planning stage returns exactly when the
    reply text decodes to an object that has both fields, and then returns
    whatever is stored under them; a text that does not decode and a
    missing field are fatal; no other check is made. *)
Theorem create_plan_returns_fields (v : variant) (topic : string)
    (questions answers : list string) (prev_id : string)
    (resp : response) (s : list response) :
  let run := create_plan v topic questions answers prev_id (resp :: s) in
  trace_of run
  = [Call (plan_request v topic questions answers prev_id) (Some resp)]
  /\ (forall goal queries ident,
        outcome_of run = Returned (goal, queries, ident) <->
        exists text plan,
          text_at resp 0 = Returned text
          /\ json_loads text = Some plan
          /\ py_getitem plan "goal" = Returned goal
          /\ py_getitem plan "queries" = Returned queries
          /\ ident = id_ resp)
  /\ (forall text,
        text_at resp 0 = Returned text -> json_loads text = None ->
        outcome_of run = Raised JSONDecodeError)
  /\ (forall text kvs key,
        text_at resp 0 = Returned text ->
        json_loads text = Some (JObject kvs) ->
        (key = "goal" \/ key = "queries") -> assoc key kvs = None ->
        exists missing, outcome_of run = Raised (KeyError missing))
  /\ outcome_of run <> OutOfFuel.
Proof.
  cbv zeta. rewrite create_plan_run. unfold outcome_of, trace_of, loads.
  cbn [fst snd]. split; [reflexivity|]. split; [|split; [|split]].
  - intros goal queries ident. split.
    + destruct (text_at resp 0) as [text| |]; cbn [obind]; try discriminate.
      destruct (json_loads text) as [plan|] eqn:Hl; cbn [obind];
        try discriminate.
      destruct (py_getitem plan "goal") as [g| |] eqn:Hg; cbn [obind];
        try discriminate.
      destruct (py_getitem plan "queries") as [q| |] eqn:Hq; cbn [obind];
        try discriminate.
      intros [= <- <- <-]. now exists text, plan.
    + intros (text & plan & -> & Hl & Hg & Hq & ->). cbn [obind].
      rewrite Hl. cbn [obind]. rewrite Hg. cbn [obind]. now rewrite Hq.
  - intros text -> Hl. cbn [obind]. now rewrite Hl.
  - intros text kvs key -> Hl Hkey Hnone. cbn [obind]. rewrite Hl.
    cbn [obind py_getitem].
    destruct (assoc "goal" kvs) as [g|] eqn:Hg; cbn [obind].
    + destruct Hkey as [-> | ->]; [congruence|].
      rewrite Hnone. now exists "queries".
    + now exists "goal".
  - pose proof py_getitem_total as Htot.
    destruct (text_at resp 0) as [text| |] eqn:Ht; cbn [obind];
      try discriminate; [|now apply text_at_total in Ht].
    destruct (json_loads text) as [plan|]; cbn [obind]; try discriminate.
    destruct (py_getitem plan "goal") as [g| |] eqn:Hg; cbn [obind];
      try discriminate; [|now apply Htot in Hg].
    destruct (py_getitem plan "queries") as [q| |] eqn:Hq; cbn [obind];
      try discriminate. now apply Htot in Hq.
Qed.

(** C6, as the code has it: the planning stage compares no lengths.  For
    any question and answer lists it issues its one gateway call, with
    both lists in the prompt; the lists have equal length only because
    [main] reads back one text input per question. *)
Theorem create_plan_calls_gateway_regardless (v : variant) (topic : string)
    (questions answers : list string) (prev_id : string)
    (s : list response) :
  trace_of (create_plan v topic questions answers prev_id s)
  = [Call (plan_request v topic questions answers prev_id) (hd_error s)]
  /\ forall input : nat -> string,
       List.length (collect_answers questions input) = List.length questions.
Proof.
  split.
  - destruct s as [|resp s]; [reflexivity|]. now rewrite create_plan_run.
  - intros input. unfold collect_answers. generalize 0.
    induction questions as [|q qs IH]; intros n; simpl; [reflexivity|].
    now rewrite IH.
Qed.

(** C4: whatever the reply text, the evaluation returns a positive
    decision exactly when the lower-cased text contains [yes]. *)
Theorem evaluate_yes_iff (v : variant) (goal : json) (collected : list json)
    (review : response) (s : list response) (text : string) :
  text_at review 0 = Returned text ->
  exists verdict,
    evaluate_progress v goal collected (review :: s)
    = (Returned verdict,
       [Call (evaluate_request v goal collected) (Some review)], s)
    /\ (verdict = true <-> Substring "yes" (lower text)).
Proof.
  intros Htext. exists (says_yes text). split.
  - unfold evaluate_progress, bind, create, lift, ret.
    rewrite Htext. reflexivity.
  - apply py_in_iff.
Qed.

Lemma run_search_run (v : variant) (query : json) (prev_id : string)
    (s : list response) :
  run_search v query prev_id s
  = match s with
    | [] => (Raised APIConnectionError,
             [Call (search_request v query prev_id) None], [])
    | reply :: s' =>
        (obind (text_at reply 1) (fun text => Returned (artifact query text)),
         [Call (search_request v query prev_id) (Some reply)], s')
    end.
Proof.
  unfold run_search, bind, create, lift, ret.
  destruct s as [|reply s']; [reflexivity|].
  destruct (text_at reply 1); reflexivity.
Qed.

(** C10: a reply with fewer than two output blocks, or whose second block
    has an empty content list, makes [run_search] raise [IndexError] after
    the call was made; nothing guards the two indexings. *)
Theorem run_search_index_error (v : variant) (query : json)
    (prev_id : string) (reply : response) (s : list response) :
  List.length (output reply) < 2
  \/ nth_error (output reply) 1 = Some (OutputMessage []) ->
  run_search v query prev_id (reply :: s)
  = (Raised IndexError,
     [Call (search_request v query prev_id) (Some reply)], s).
Proof.
  intros H. rewrite run_search_run. unfold text_at, py_index.
  destruct H as [Hlen|Hnth].
  - assert (nth_error (output reply) 1 = None) as Hnone
      by (apply nth_error_None; lia).
    now rewrite Hnone.
  - now rewrite Hnth.
Qed.

(** The only replies [run_search] returns on: a second output block that
    is a message starting with a text part. *)
Lemma run_search_returns_iff (v : variant) (query : json) (prev_id : string)
    (reply : response) (s : list response) (found : json) :
  outcome_of (run_search v query prev_id (reply :: s)) = Returned found <->
  exists text parts,
    nth_error (output reply) 1 = Some (OutputMessage (OutputText text :: parts))
    /\ found = artifact query text.
Proof.
  rewrite run_search_run. unfold outcome_of, text_at, py_index. cbn [fst].
  destruct (nth_error (output reply) 1) as [[[|[t|r] parts]|c]|]; simpl.
  all: split; [intros [= <-] | intros (t' & p' & [= <- <-] & ->)];
    try discriminate; eauto.
Qed.

(** ** The guard of the handler *)

Lemma unanswered_app_iff (answers : list string) :
  unanswered AppPy answers = true <-> exists a, In a answers /\ blank a.
Proof.
  unfold unanswered. rewrite existsb_exists.
  split; intros (a & Hin & H); exists a; split; trivial.
  - now apply strip_empty_iff, String.eqb_eq.
  - now apply String.eqb_eq, strip_empty_iff.
Qed.

Lemma unanswered_streamlit_iff (answers : list string) :
  unanswered StreamlitAppPy answers = true <-> In EmptyString answers.
Proof.
  unfold unanswered. rewrite existsb_exists. split.
  - intros (a & Hin & H). apply String.eqb_eq in H. now subst.
  - intros Hin. exists EmptyString. split; [exact Hin | reflexivity].
Qed.

(** When the guard fires, the user is warned and nothing else happens:
    no gateway call, no reply consumed. *)
Lemma guard_stops_before_planning (fuel : nat) (v : variant) (topic : string)
    (questions : list string) (clarify_id : string) (answers : list string)
    (s : list response) :
  unanswered v answers = true ->
  run_deep_research fuel v topic questions clarify_id answers s
  = (Raised StopException, [Ui (st_warning (WARNING v))], s).
Proof.
  intros H. unfold run_deep_research. rewrite H. reflexivity.
Qed.

(** app.py stops on every answer list with a blank entry. *)
Lemma app_guard_stops_blank (fuel : nat) (topic : string)
    (questions : list string) (clarify_id : string) (answers : list string)
    (s : list response) :
  (exists a, In a answers /\ blank a) ->
  run_deep_research fuel AppPy topic questions clarify_id answers s
  = (Raised StopException, [Ui (st_warning (WARNING AppPy))], s).
Proof.
  intros H. now apply guard_stops_before_planning, unanswered_app_iff.
Qed.

(* ------------------------------------------------------------------ *)
(** * The research loop *)

Lemma evaluate_progress_run (v : variant) (goal : json)
    (collected : list json) (s : list response) :
  evaluate_progress v goal collected s
  = match s with
    | [] => (Raised APIConnectionError,
             [Call (evaluate_request v goal collected) None], [])
    | review :: s' =>
        (decision review,
         [Call (evaluate_request v goal collected) (Some review)], s')
    end.
Proof.
  unfold evaluate_progress, decision, bind, create, lift, ret.
  destruct s as [|review s']; [reflexivity|].
  destruct (text_at review 0); reflexivity.
Qed.

Lemma batch_calls (v : variant) (prev_id : string) (qs : list json)
    (seg : list event) (c : list json) :
  batch v prev_id qs seg c -> Forall (search_call v prev_id) seg.
Proof.
  induction 1; constructor; trivial. unfold search_call; eauto.
Qed.

(** The artifacts of a batch name its queries, one each, in order. *)
Lemma batch_queries (v : variant) (prev_id : string) (qs : list json)
    (seg : list event) (c : list json) :
  batch v prev_id qs seg c ->
  map (fun found => py_getitem found "query") c = map Returned qs
  /\ List.length seg = List.length qs.
Proof.
  induction 1 as [|q qs reply text seg c _ _ [IHc IHs]]; [now split|].
  split; simpl; [now rewrite IHc | now rewrite IHs].
Qed.

(** One pass over the query list: either every call was answered with a
    usable reply, and the new artifacts were appended in order, or the
    pass stopped at the first call that was not. *)
Lemma search_each_shape (v : variant) (prev_id : string) (qs : list json) :
  forall (acc : list json) (s : list response) o tr s',
    search_each v qs prev_id acc s = (o, tr, s') ->
    (exists c, o = Returned (acc ++ c) /\ batch v prev_id qs tr c)
    \/ ((exists e, o = Raised e) /\ Forall (search_call v prev_id) tr).
Proof.
  induction qs as [|q qs IH]; intros acc s o tr s' Hrun.
  - injection Hrun as <- <- <-. left. exists []. split.
    + now rewrite app_nil_r.
    + constructor.
  - cbn [search_each] in Hrun. unfold bind in Hrun.
    rewrite run_search_run in Hrun.
    assert (search_call v prev_id (Call (search_request v q prev_id) (hd_error s)))
      as Hcall by (unfold search_call; eauto).
    destruct s as [|reply s1].
    + injection Hrun as <- <- <-. right. split; eauto.
    + destruct (text_at reply 1) as [text| |] eqn:Ht; cbn [obind] in Hrun.
      * destruct (search_each v qs prev_id (acc ++ [artifact q text]) s1)
          as [[o2 t2] s2] eqn:Hrest.
        injection Hrun as <- <- <-.
        destruct (IH _ _ _ _ _ Hrest) as [(c & -> & Hb) | (He & Hf)].
        -- left. exists (artifact q text :: c). split.
           ++ now rewrite <- app_assoc.
           ++ now constructor.
        -- right. split; [exact He|]. now constructor.
      * injection Hrun as <- <- <-. right. split; eauto.
      * now apply text_at_total in Ht.
Qed.

Lemma search_each_script (v : variant) (prev_id : string) (qs : list json) :
  forall (acc : list json) (s : list response) o tr s',
    search_each v qs prev_id acc s = (o, tr, s') ->
    List.length s' <= List.length s.
Proof.
  induction qs as [|q qs IH]; intros acc s o tr s' Hrun.
  - injection Hrun as <- <- <-. lia.
  - cbn [search_each] in Hrun. unfold bind in Hrun.
    rewrite run_search_run in Hrun.
    destruct s as [|reply s1]; [injection Hrun as <- <- <-; simpl; lia|].
    destruct (text_at reply 1) as [text| |]; cbn [obind] in Hrun.
    + destruct (search_each v qs prev_id (acc ++ [artifact q text]) s1)
        as [[o2 t2] s2] eqn:Hrest.
      injection Hrun as <- <- <-. apply IH in Hrest. simpl. lia.
    + injection Hrun as <- <- <-. simpl. lia.
    + injection Hrun as <- <- <-. simpl. lia.
Qed.

(** One iteration of the loop, read as a decision tree over the script. *)
Lemma research_loop_step (fuel : nat) (v : variant) (goal queries : json)
    (prev_id : string) (acc : list json) (s : list response) :
  research_loop (S fuel) v goal queries prev_id acc s
  = match py_iter queries with
    | Returned qs =>
        match search_each v qs prev_id acc s with
        | (Returned c, t1, []) =>
            (Raised APIConnectionError,
             t1 ++ [Call (evaluate_request v goal c) None], [])
        | (Returned c, t1, review :: s2) =>
            let asked := Call (evaluate_request v goal c) (Some review) in
            match decision review, s2 with
            | Returned true, _ => (Returned c, t1 ++ [asked], s2)
            | Returned false, [] =>
                (Raised APIConnectionError,
                 t1 ++ [asked; Call (more_request v goal c prev_id) None], [])
            | Returned false, more :: s3 =>
                let again :=
                  Call (more_request v goal c prev_id) (Some more) in
                match obind (text_at more 0) loads with
                | Returned queries' =>
                    match research_loop fuel v goal queries' prev_id [] s3 with
                    | (o, t4, s4) => (o, t1 ++ asked :: again :: t4, s4)
                    end
                | Raised e => (Raised e, t1 ++ [asked; again], s3)
                | OutOfFuel => (OutOfFuel, t1 ++ [asked; again], s3)
                end
            | Raised e, _ => (Raised e, t1 ++ [asked], s2)
            | OutOfFuel, _ => (OutOfFuel, t1 ++ [asked], s2)
            end
        | (Raised e, t1, s1) => (Raised e, t1, s1)
        | (OutOfFuel, t1, s1) => (OutOfFuel, t1, s1)
        end
    | Raised e => (Raised e, [], s)
    | OutOfFuel => (OutOfFuel, [], s)
    end.
Proof.
  cbn [research_loop]. unfold bind at 1. unfold lift at 1.
  destruct (py_iter queries) as [qs| |]; try reflexivity.
  unfold bind at 1.
  destruct (search_each v qs prev_id acc s) as [[[c| |] t1] s1];
    try reflexivity.
  cbn [app]. unfold bind at 1. rewrite evaluate_progress_run.
  destruct s1 as [|review s2]; [reflexivity|].
  destruct (decision review) as [[|]| |]; cbv zeta.
  - unfold ret. now rewrite app_nil_r.
  - unfold bind at 1, create at 1.
    destruct s2 as [|more s3]; [reflexivity|].
    unfold bind at 1, lift at 1.
    destruct (text_at more 0) as [text| |]; cbn [obind]; try reflexivity.
    unfold bind at 1, lift at 1.
    destruct (loads text) as [queries'| |]; try reflexivity.
    cbn [app].
    destruct (research_loop fuel v goal queries' prev_id [] s3)
      as [[o t4] s4].
    reflexivity.
  - reflexivity.
  - reflexivity.
Qed.

Lemma loads_inv (text : string) (value : json) :
  loads text = Returned value -> json_loads text = Some value.
Proof.
  unfold loads. destruct (json_loads text); [|discriminate].
  now intros [= ->].
Qed.

(** Every run of the loop from an empty collected set leaves a trace of
    the shape [loop_shape] describes, whatever its outcome. *)
Lemma research_loop_shape (v : variant) (goal : json) (prev_id : string) :
  forall (fuel : nat) (queries : json) (s : list response) o tr s',
    research_loop fuel v goal queries prev_id [] s = (o, tr, s') ->
    loop_shape v goal prev_id queries tr.
Proof.
  induction fuel as [|fuel IH]; intros queries s o tr s' Hrun.
  - injection Hrun as <- <- <-. now apply shape_searching.
  - rewrite research_loop_step in Hrun.
    destruct (py_iter queries) as [qs| |] eqn:Hq;
      try (injection Hrun as <- <- <-; now apply shape_searching).
    destruct (search_each v qs prev_id [] s) as [[o1 t1] s1] eqn:Hs.
    destruct (search_each_shape _ _ _ _ _ _ _ _ Hs)
      as [(c & -> & Hb) | ((e & ->) & Hf)];
      [|injection Hrun as <- <- <-; now apply shape_searching].
    cbn [app] in Hrun.
    destruct s1 as [|review s2];
      [injection Hrun as <- <- <-; now apply shape_evaluated with qs|].
    cbv zeta in Hrun.
    destruct (decision review) as [[|]| |] eqn:Hd;
      try (injection Hrun as <- <- <-; now apply shape_evaluated with qs).
    destruct s2 as [|more s3];
      [injection Hrun as <- <- <-; now apply shape_asked with qs|].
    destruct (text_at more 0) as [text| |] eqn:Ht; cbn [obind] in Hrun;
      try (injection Hrun as <- <- <-; now apply shape_asked with qs).
    destruct (loads text) as [queries'| |] eqn:Hl;
      try (injection Hrun as <- <- <-; now apply shape_asked with qs).
    destruct (research_loop fuel v goal queries' prev_id [] s3)
      as [[o4 t4] s4] eqn:Hrec.
    injection Hrun as <- <- <-.
    apply shape_retried with qs text queries'; trivial.
    + now apply loads_inv.
    + eapply IH, Hrec.
Qed.

(** The loop returns only from an evaluation that said yes, and returns
    the very list that evaluation was asked about. *)
Lemma research_loop_returns (v : variant) (goal : json) (prev_id : string) :
  forall (fuel : nat) (queries : json) (acc : list json)
         (s : list response) collected tr s',
    research_loop fuel v goal queries prev_id acc s
    = (Returned collected, tr, s') ->
    exists pre review,
      tr = pre ++ [Call (evaluate_request v goal collected) (Some review)]
      /\ decision review = Returned true.
Proof.
  induction fuel as [|fuel IH]; intros queries acc s collected tr s' Hrun;
    [discriminate|].
  rewrite research_loop_step in Hrun.
  destruct (py_iter queries) as [qs| |]; try discriminate.
  destruct (search_each v qs prev_id acc s) as [[[c| |] t1] [|review s2]];
    try discriminate.
  cbv zeta in Hrun.
  destruct (decision review) as [[|]| |] eqn:Hd; try discriminate.
  - injection Hrun as <- <- <-. now exists t1, review.
  - destruct s2 as [|more s3]; [discriminate|].
    destruct (obind (text_at more 0) loads) as [queries'| |];
      try discriminate.
    destruct (research_loop fuel v goal queries' prev_id [] s3)
      as [[o4 t4] s4] eqn:Hrec.
    injection Hrun as -> <- <-.
    destruct (IH _ _ _ _ _ _ Hrec) as (pre & review' & -> & Hyes).
    exists (t1 ++ Call (evaluate_request v goal c) (Some review)
               :: Call (more_request v goal c prev_id) (Some more) :: pre),
      review'.
    split; [|exact Hyes]. now rewrite <- app_assoc.
Qed.

(** With more fuel than scripted replies the loop never runs dry: it
    returns or raises. *)
Lemma research_loop_total (v : variant) (goal : json) (prev_id : string) :
  forall (fuel : nat) (queries : json) (acc : list json)
         (s : list response),
    List.length s < fuel ->
    outcome_of (research_loop fuel v goal queries prev_id acc s) <> OutOfFuel.
Proof.
  induction fuel as [|fuel IH]; intros queries acc s Hlen; [lia|].
  rewrite research_loop_step.
  destruct (py_iter queries) as [qs| |] eqn:Hq; try discriminate.
  - destruct (search_each v qs prev_id acc s) as [[o1 t1] s1] eqn:Hs.
    pose proof (search_each_script _ _ _ _ _ _ _ _ Hs) as Hle.
    destruct (search_each_shape _ _ _ _ _ _ _ _ Hs)
      as [(c & -> & _) | ((e & ->) & _)]; [|discriminate].
    destruct s1 as [|review s2]; [discriminate|]. cbv zeta.
    destruct (decision review) as [[|]| |] eqn:Hd; try discriminate.
    + destruct s2 as [|more s3]; [discriminate|].
      destruct (text_at more 0) as [text| |] eqn:Ht; cbn [obind];
        try discriminate; [|now apply text_at_total in Ht].
      unfold loads. destruct (json_loads text) as [queries'|];
        [|discriminate].
      specialize (IH queries' [] s3).
      destruct (research_loop fuel v goal queries' prev_id [] s3)
        as [[o4 t4] s4].
      apply IH. simpl in Hle. lia.
    + unfold decision in Hd.
      destruct (text_at review 0) eqn:Ht; try discriminate.
      now apply text_at_total in Ht.
  - destruct queries; discriminate.
Qed.

(** ** Traces of the loop *)

Lemma search_call_is_search (v : variant) (prev_id : string) (e : event) :
  search_call v prev_id e -> is_search e = true.
Proof. intros (q & reply & ->). reflexivity. Qed.

Lemma is_search_kind (req : request) (reply : option response) :
  is_search (Call req reply) = true <-> kind_of req = Search.
Proof.
  simpl. destruct (kind_of req); split; congruence.
Qed.

Lemma loop_shape_calls (v : variant) (goal : json) (prev_id : string)
    (queries : json) (tr : list event) :
  loop_shape v goal prev_id queries tr ->
  Forall (loop_call v goal prev_id) tr.
Proof.
  assert (forall seg, Forall (search_call v prev_id) seg ->
                      Forall (loop_call v goal prev_id) seg) as Hs
    by (intros seg; apply Forall_impl; intros e He; now left).
  induction 1 as [queries seg Hf
                 |queries qs seg c reply _ Hb
                 |queries qs seg c review reply _ Hb _
                 |queries qs seg c review more text queries' rest
                    _ Hb _ _ _ _ IH].
  - now apply Hs.
  - apply Forall_app. split; [eapply Hs, batch_calls, Hb|].
    constructor; [|constructor]. right; left; eauto.
  - apply Forall_app. split; [eapply Hs, batch_calls, Hb|].
    constructor; [right; left; eauto|].
    constructor; [right; right; eauto | constructor].
  - apply Forall_app. split; [eapply Hs, batch_calls, Hb|].
    constructor; [right; left; eauto|].
    constructor; [right; right; eauto | exact IH].
Qed.

(** Where a list splits at its first element outside [P]. *)
Lemma split_at_first_other {A} (P : A -> Prop) (seg0 : list A) :
  forall (x : A) (rest pre : list A) (y : A) (post : list A),
    Forall P seg0 -> ~ P y ->
    seg0 ++ x :: rest = pre ++ y :: post ->
    (pre = seg0 /\ y = x /\ post = rest)
    \/ (exists pre', pre = seg0 ++ x :: pre' /\ rest = pre' ++ y :: post).
Proof.
  induction seg0 as [|a seg0 IH]; intros x rest pre y post Hf Hy Heq.
  - destruct pre as [|p pre]; simpl in Heq.
    + injection Heq as <- <-. now left.
    + injection Heq as <- ->. right. now exists pre.
  - apply Forall_cons_iff in Hf as [Ha Hf].
    destruct pre as [|p pre]; simpl in Heq.
    + injection Heq as <- _. contradiction.
    + injection Heq as <- Heq.
      destruct (IH _ _ _ _ _ Hf Hy Heq) as [(-> & -> & ->) | (pre' & -> & ->)].
      * now left.
      * right. now exists pre'.
Qed.

(** The first call that is not a search, in a trace of the loop: it is
    the evaluation of the batch searched before it. *)
Lemma loop_shape_head (v : variant) (goal : json) (prev_id : string)
    (queries : json) (tr : list event) :
  loop_shape v goal prev_id queries tr ->
  forall seg req reply post,
    tr = seg ++ Call req reply :: post ->
    Forall (fun e => is_search e = true) seg ->
    kind_of req <> Search ->
    exists qs c,
      py_iter queries = Returned qs
      /\ batch v prev_id qs seg c
      /\ req = evaluate_request v goal c.
Proof.
  intros Hshape seg req reply post Heq Hseg Hreq.
  assert (~ is_search (Call req reply) = true) as Hy
    by now rewrite is_search_kind.
  assert (forall seg0 qs c, batch v prev_id qs seg0 c ->
            Forall (fun e => is_search e = true) seg0) as Hb0.
  { intros seg0 qs c Hb. eapply Forall_impl; [|eapply batch_calls, Hb].
    intros e. apply search_call_is_search. }
  destruct Hshape as [queries seg0 Hf
                     |queries qs seg0 c reply0 Hq Hb
                     |queries qs seg0 c review reply0 Hq Hb _
                     |queries qs seg0 c review more text queries' rest
                        Hq Hb _ _ _ _].
  - exfalso. rewrite Heq in Hf. apply Forall_app in Hf as [_ Hf].
    apply Forall_cons_iff in Hf as [Hc _].
    now apply search_call_is_search in Hc.
  - apply (split_at_first_other (fun e => is_search e = true)) in Heq
      as [(Hpre & Hx & _) | (pre' & Hpre & _)];
      trivial; try (eapply Hb0, Hb); subst seg.
    + injection Hx as Hx _. now exists qs, c.
    + exfalso. apply Forall_app in Hseg as [_ Hseg].
      apply Forall_cons_iff in Hseg as [Hc _]. discriminate Hc.
  - apply (split_at_first_other (fun e => is_search e = true)) in Heq
      as [(Hpre & Hx & _) | (pre' & Hpre & _)];
      trivial; try (eapply Hb0, Hb); subst seg.
    + injection Hx as Hx _. now exists qs, c.
    + exfalso. apply Forall_app in Hseg as [_ Hseg].
      apply Forall_cons_iff in Hseg as [Hc _]. discriminate Hc.
  - apply (split_at_first_other (fun e => is_search e = true)) in Heq
      as [(Hpre & Hx & _) | (pre' & Hpre & _)];
      trivial; try (eapply Hb0, Hb); subst seg.
    + injection Hx as Hx _. now exists qs, c.
    + exfalso. apply Forall_app in Hseg as [_ Hseg].
      apply Forall_cons_iff in Hseg as [Hc _]. discriminate Hc.
Qed.

(** After a request for other queries, the searches up to the next call
    of another kind are exactly the batch of the decoded reply, and that
    next call is the evaluation of this batch alone. *)
Lemma loop_shape_retry (v : variant) (goal : json) (prev_id : string)
    (queries : json) (tr : list event) :
  loop_shape v goal prev_id queries tr ->
  forall pre asked more seg req reply post,
    tr = pre ++ Call asked (Some more) :: seg ++ Call req reply :: post ->
    kind_of asked = More ->
    Forall (fun e => is_search e = true) seg ->
    kind_of req <> Search ->
    exists text queries' qs c,
      text_at more 0 = Returned text
      /\ json_loads text = Some queries'
      /\ py_iter queries' = Returned qs
      /\ batch v prev_id qs seg c
      /\ req = evaluate_request v goal c.
Proof.
  assert (forall seg0 qs c, batch v prev_id qs seg0 c ->
            Forall (fun e => is_search e = true) seg0) as Hb0.
  { intros seg0 qs c Hb. eapply Forall_impl; [|eapply batch_calls, Hb].
    intros e. apply search_call_is_search. }
  induction 1 as [queries seg0 Hf
                 |queries qs seg0 c reply0 Hq Hb
                 |queries qs seg0 c review reply0 Hq Hb _
                 |queries qs seg0 c review more0 text queries' rest
                    Hq Hb _ Ht Hl Hrest IH];
    intros pre asked more seg req reply post Heq Hasked Hseg Hreq;
    assert (~ is_search (Call asked (Some more)) = true) as Hy
      by (rewrite is_search_kind, Hasked; discriminate).
  - exfalso. rewrite Heq in Hf. apply Forall_app in Hf as [_ Hf].
    apply Forall_cons_iff in Hf as [Hc _].
    now apply search_call_is_search in Hc.
  - exfalso.
    apply (split_at_first_other (fun e => is_search e = true)) in Heq
      as [(_ & Hx & _) | (pre' & _ & Hnil)];
      trivial; try (eapply Hb0, Hb).
    + injection Hx as Hx _. now rewrite Hx in Hasked.
    + now destruct pre'.
  - exfalso.
    apply (split_at_first_other (fun e => is_search e = true)) in Heq
      as [(_ & Hx & _) | (pre' & _ & Hrest)];
      trivial; try (eapply Hb0, Hb).
    + injection Hx as Hx _. now rewrite Hx in Hasked.
    + destruct pre' as [|p [|p' pre']]; try discriminate.
      injection Hrest as _ Hrest. now destruct seg.
  - apply (split_at_first_other (fun e => is_search e = true)) in Heq
      as [(_ & Hx & _) | (pre' & _ & Htail)];
      trivial; try (eapply Hb0, Hb).
    + exfalso. injection Hx as Hx _. now rewrite Hx in Hasked.
    + destruct pre' as [|p pre'].
      * injection Htail as _ Hmore Htail. subst more0.
        destruct (loop_shape_head _ _ _ _ _ Hrest _ _ _ _ Htail Hseg Hreq)
          as (qs' & c' & Hq' & Hb' & Hreq').
        now exists text, queries', qs', c'.
      * injection Htail as _ Htail.
        now apply (IH pre' asked more seg req reply post).
Qed.

(** C1: when the loop returns, the last thing it did was an evaluation
    call over exactly the list it returns, answered with a text that
    says yes; nothing happens between that answer and the return. *)
Theorem research_returns_evaluated_set (fuel : nat) (v : variant)
    (goal queries : json) (prev_id : string) (s : list response)
    (collected : list json) (tr : list event) (s' : list response) :
  conduct_research fuel v goal queries prev_id s
  = (Returned collected, tr, s') ->
  exists pre review text,
    tr = pre ++ [Call (evaluate_request v goal collected) (Some review)]
    /\ text_at review 0 = Returned text
    /\ says_yes text = true.
Proof.
  intros Hrun. apply research_loop_returns in Hrun
    as (pre & review & -> & Hyes).
  unfold decision in Hyes.
  destruct (text_at review 0) as [text| |] eqn:Ht; try discriminate.
  injection Hyes as Hyes. now exists pre, review, text.
Qed.

(** C2: in any run of the loop, the searches between a request for other
    queries and the next call of another kind are one answered search per
    query of the decoded reply, in order, and that next call evaluates
    the artifacts of these searches and no others. *)
Theorem retry_evaluates_fresh_batch (fuel : nat) (v : variant)
    (goal queries : json) (prev_id : string) (s : list response)
    (o : outcome (list json)) (tr : list event) (s' : list response)
    (pre : list event) (asked : request) (more : response)
    (seg : list event) (req : request) (reply : option response)
    (post : list event) :
  conduct_research fuel v goal queries prev_id s = (o, tr, s') ->
  tr = pre ++ Call asked (Some more) :: seg ++ Call req reply :: post ->
  kind_of asked = More ->
  Forall (fun e => is_search e = true) seg ->
  kind_of req <> Search ->
  exists text queries' qs c,
    text_at more 0 = Returned text
    /\ json_loads text = Some queries'
    /\ py_iter queries' = Returned qs
    /\ batch v prev_id qs seg c
    /\ req = evaluate_request v goal c.
Proof.
  intros Hrun Heq Hasked Hseg Hreq. apply research_loop_shape in Hrun.
  exact (loop_shape_retry _ _ _ _ _ Hrun _ _ _ _ _ _ _ Heq Hasked Hseg Hreq).
Qed.

(** Inside the loop every search continues from the loop's [prev_id]. *)
Lemma searches_continue_from_prev_id (fuel : nat) (v : variant)
    (goal queries : json) (prev_id : string) (s : list response)
    (o : outcome (list json)) (tr : list event) (s' : list response) :
  conduct_research fuel v goal queries prev_id s = (o, tr, s') ->
  forall req reply,
    In (Call req reply) tr -> kind_of req = Search ->
    exists query, req = search_request v query prev_id.
Proof.
  intros Hrun req reply Hin Hkind.
  apply research_loop_shape, loop_shape_calls in Hrun.
  rewrite Forall_forall in Hrun.
  destruct (Hrun _ Hin) as [(q & r & [= -> _])
                           |[(c & r & [= -> _]) | (c & r & [= -> _])]];
    try discriminate.
  now exists q.
Qed.

(** ** The handler *)

Lemma generate_final_report_run (v : variant) (goal : json)
    (collected : list json) (s : list response) :
  generate_final_report v goal collected s
  = match s with
    | [] => (Raised APIConnectionError,
             [Call (report_request v goal collected) None], [])
    | report :: s' =>
        (text_at report 0,
         [Call (report_request v goal collected) (Some report)], s')
    end.
Proof.
  unfold generate_final_report, bind, create, lift.
  destruct s as [|report s']; [reflexivity|].
  destruct (text_at report 0); reflexivity.
Qed.

Lemma create_plan_inv (v : variant) (topic : string)
    (questions answers : list string) (prev_id : string)
    (s : list response) o t0 s0 :
  create_plan v topic questions answers prev_id s = (o, t0, s0) ->
  t0 = [Call (plan_request v topic questions answers prev_id) (hd_error s)]
  /\ forall goal queries goal_id,
       o = Returned (goal, queries, goal_id) ->
       exists resp, s = resp :: s0 /\ goal_id = id_ resp.
Proof.
  destruct s as [|resp s1].
  - intros [= <- <- <-]. split; [reflexivity | discriminate].
  - rewrite create_plan_run. intros [= <- <- <-]. split; [reflexivity|].
    intros goal queries goal_id Hret. exists resp. split; [reflexivity|].
    destruct (text_at resp 0) as [text| |]; try discriminate.
    cbn [obind] in Hret. destruct (loads text) as [plan| |];
      try discriminate.
    cbn [obind] in Hret.
    destruct (py_getitem plan "goal"); try discriminate.
    cbn [obind] in Hret.
    destruct (py_getitem plan "queries"); try discriminate.
    now injection Hret.
Qed.

(** The handler, read as a decision tree over its stages. *)
Lemma run_deep_research_run (fuel : nat) (v : variant) (topic : string)
    (questions : list string) (clarify_id : string) (answers : list string)
    (s : list response) :
  run_deep_research fuel v topic questions clarify_id answers s
  = if unanswered v answers
    then (Raised StopException, [Ui (st_warning (WARNING v))], s)
    else
      match create_plan v topic questions answers clarify_id s with
      | (Returned (goal, queries, goal_id), t0, s0) =>
          let banner := Ui (st_success (goal_banner v goal)) in
          match conduct_research fuel v goal queries goal_id s0 with
          | (Returned collected, t1, s1) =>
              match generate_final_report v goal collected s1 with
              | (Returned report_md, t2, s2) =>
                  (Returned report_md,
                   t0 ++ banner :: t1 ++ t2
                      ++ [Ui (st_markdown (REPORT_HEADING v));
                          Ui (st_markdown report_md)], s2)
              | (Raised e, t2, s2) =>
                  (Raised e, t0 ++ banner :: t1 ++ t2, s2)
              | (OutOfFuel, t2, s2) =>
                  (OutOfFuel, t0 ++ banner :: t1 ++ t2, s2)
              end
          | (Raised e, t1, s1) => (Raised e, t0 ++ banner :: t1, s1)
          | (OutOfFuel, t1, s1) => (OutOfFuel, t0 ++ banner :: t1, s1)
          end
      | (Raised e, t0, s0) => (Raised e, t0, s0)
      | (OutOfFuel, t0, s0) => (OutOfFuel, t0, s0)
      end.
Proof.
  unfold run_deep_research.
  destruct (unanswered v answers); [reflexivity|].
  unfold bind at 1. unfold ret at 1. cbn [app]. unfold bind at 1.
  destruct (create_plan v topic questions answers clarify_id s)
    as [[[[[goal queries] goal_id]| |] t0] s0]; try reflexivity.
  unfold bind at 1. unfold show at 1. unfold bind at 1.
  destruct (conduct_research fuel v goal queries goal_id s0)
    as [[[collected| |] t1] s1]; try reflexivity.
  unfold bind at 1.
  destruct (generate_final_report v goal collected s1)
    as [[[report_md| |] t2] s2]; reflexivity.
Qed.

(** C3: every search call of a session continues from one and the same
    token, the id of the reply to the planning call that opens the
    session; no search continues from another search. *)
Theorem searches_continue_from_planning_token (fuel : nat) (v : variant)
    (topic : string) (questions : list string) (clarify_id : string)
    (answers : list string) (s : list response)
    (o : outcome string) (tr : list event) (s' : list response) :
  run_deep_research fuel v topic questions clarify_id answers s
  = (o, tr, s') ->
  forall req reply,
    In (Call req reply) tr -> kind_of req = Search ->
    exists plan_resp,
      hd_error tr
      = Some (Call (plan_request v topic questions answers clarify_id)
                   (Some plan_resp))
      /\ previous_response_id req = Some (id_ plan_resp)
      /\ exists query, req = search_request v query (id_ plan_resp).
Proof.
  intros Hrun req reply Hin Hkind. rewrite run_deep_research_run in Hrun.
  destruct (unanswered v answers).
  { injection Hrun as <- <- <-. destruct Hin as [[=]|[]]. }
  destruct (create_plan v topic questions answers clarify_id s)
    as [[o0 t0] s0] eqn:Hplan.
  apply create_plan_inv in Hplan as [-> Hid].
  assert (forall (rest : list event),
            In (Call req reply)
               (Call (plan_request v topic questions answers clarify_id)
                     (hd_error s) :: rest) ->
            In (Call req reply) rest) as Hskip.
  { intros rest [[= <- _]|H]; [discriminate Hkind | exact H]. }
  destruct o0 as [[[goal queries] goal_id]| |];
    try (injection Hrun as <- <- <-; now apply Hskip in Hin).
  destruct (Hid _ _ _ eq_refl) as (resp & -> & ->). cbv zeta in Hrun.
  destruct (conduct_research fuel v goal queries (id_ resp) s0)
    as [[o1 t1] s1] eqn:Hloop.
  assert (In (Call req reply) t1 ->
          exists plan_resp,
            Some (Call (plan_request v topic questions answers clarify_id)
                       (Some resp))
            = Some (Call (plan_request v topic questions answers clarify_id)
                         (Some plan_resp))
            /\ previous_response_id req = Some (id_ plan_resp)
            /\ exists query, req = search_request v query (id_ plan_resp))
    as Hloop_in.
  { intros H1.
    destruct (searches_continue_from_prev_id _ _ _ _ _ _ _ _ _ Hloop
                _ _ H1 Hkind) as (query & ->).
    exists resp. repeat split. now exists query. }
  destruct o1 as [collected| |].
  2,3: injection Hrun as <- <- <-; apply Hskip in Hin;
       destruct Hin as [[=]|Hin]; now apply Hloop_in.
  rewrite generate_final_report_run in Hrun.
  assert (forall t2 reply2,
            In (Call req reply)
               (t1 ++ [Call (report_request v goal collected) reply2] ++ t2) ->
            (forall e, In e t2 -> exists out, e = Ui out) ->
            In (Call req reply) t1) as Hreport.
  { intros t2 reply2 H Hui. apply in_app_or in H as [H|H]; [exact H|].
    destruct H as [[= <- _]|H]; [discriminate Hkind|].
    apply Hui in H as [out [=]]. }
  destruct s1 as [|report s2].
  { injection Hrun as <- <- <-. apply Hskip in Hin.
    destruct Hin as [[=]|Hin]. apply Hloop_in.
    apply (Hreport [] None); [now rewrite app_nil_r | intros e []]. }
  destruct (text_at report 0) as [report_md|err|];
    injection Hrun as <- <- <-; apply Hskip in Hin;
    destruct Hin as [[=]|Hin]; apply Hloop_in.
  - apply (Hreport [Ui (st_markdown (REPORT_HEADING v));
                    Ui (st_markdown report_md)] (Some report)); [exact Hin|].
    intros e [<-|[<-|[]]]; eauto.
  - apply (Hreport [] (Some report)); [now rewrite app_nil_r | intros e []].
  - apply (Hreport [] (Some report)); [now rewrite app_nil_r | intros e []].
Qed.

(** The report stage is asked about the list the last evaluation
    approved: in a session that returns a report, the report call follows
    that evaluation immediately and carries the same list. *)
Lemma report_receives_evaluated_set (fuel : nat) (v : variant)
    (topic : string) (questions : list string) (clarify_id : string)
    (answers : list string) (s : list response)
    (report_md : string) (tr : list event) (s' : list response) :
  run_deep_research fuel v topic questions clarify_id answers s
  = (Returned report_md, tr, s') ->
  exists plan_resp goal collected pre review report,
    tr = Call (plan_request v topic questions answers clarify_id)
              (Some plan_resp)
         :: Ui (st_success (goal_banner v goal))
         :: pre
         ++ [Call (evaluate_request v goal collected) (Some review);
             Call (report_request v goal collected) (Some report);
             Ui (st_markdown (REPORT_HEADING v));
             Ui (st_markdown report_md)]
    /\ decision review = Returned true
    /\ text_at report 0 = Returned report_md.
Proof.
  intros Hrun. rewrite run_deep_research_run in Hrun.
  destruct (unanswered v answers); [discriminate|].
  destruct (create_plan v topic questions answers clarify_id s)
    as [[o0 t0] s0] eqn:Hplan.
  apply create_plan_inv in Hplan as [-> Hid].
  destruct o0 as [[[goal queries] goal_id]| |]; try discriminate.
  destruct (Hid _ _ _ eq_refl) as (resp & -> & ->). cbv zeta in Hrun.
  destruct (conduct_research fuel v goal queries (id_ resp) s0)
    as [[[collected| |] t1] s1] eqn:Hloop; try discriminate.
  apply research_loop_returns in Hloop as (pre & review & -> & Hyes).
  rewrite generate_final_report_run in Hrun.
  destruct s1 as [|report s2]; [discriminate|].
  destruct (text_at report 0) as [md| |] eqn:Ht; try discriminate.
  injection Hrun as <- <- <-.
  exists resp, goal, collected, pre, review, report.
  repeat split; trivial. simpl. now rewrite <- app_assoc.
Qed.

(** C8, as the code has it: the [resp_id] field of an artifact holds the
    text of the first content part of the reply's second output block,
    whatever the reply's id is; and the loop never continues a call from
    it: its calls are the searches and the requests for other queries,
    continued from [prev_id], and the evaluations, continued from
    nothing, the collected list going out only through [json.dumps] in a
    message. *)
Theorem artifact_holds_answer_text :
  (forall (v : variant) (query : json) (prev_id : string)
          (reply : response) (s : list response) (text : string),
      text_at reply 1 = Returned text ->
      run_search v query prev_id (reply :: s)
      = (Returned (artifact query text),
         [Call (search_request v query prev_id) (Some reply)], s)
      /\ py_getitem (artifact query text) "resp_id"
         = Returned (JString text))
  /\ (forall (fuel : nat) (v : variant) (goal queries : json)
             (prev_id : string) (s : list response) req reply,
        In (Call req reply)
           (trace_of (conduct_research fuel v goal queries prev_id s)) ->
        (previous_response_id req = None
         \/ previous_response_id req = Some prev_id)
        /\ ((exists query, req = search_request v query prev_id)
            \/ (exists c, req = evaluate_request v goal c)
            \/ (exists c, req = more_request v goal c prev_id))).
Proof.
  split.
  - intros v query prev_id reply s text Ht. rewrite run_search_run, Ht.
    split; reflexivity.
  - intros fuel v goal queries prev_id s req reply Hin.
    destruct (conduct_research fuel v goal queries prev_id s)
      as [[o tr] s'] eqn:Hrun.
    apply research_loop_shape, loop_shape_calls in Hrun.
    rewrite Forall_forall in Hrun.
    destruct (Hrun _ Hin) as [(q & r & [= -> _])
                             |[(c & r & [= -> _]) | (c & r & [= -> _])]].
    + split; [now right | left; now exists q].
    + split; [now left | right; left; now exists c].
    + split; [now right | right; right; now exists c].
Qed.

End Properties.

(* ------------------------------------------------------------------ *)
(** * More about the text operations of the stages *)

Lemma lower_app (s t : string) : lower (s +++ t) = lower s +++ lower t.
Proof. induction s as [|c s IH]; simpl; [reflexivity | now rewrite IH]. Qed.

Lemma lower_app_inv (x y : string) :
  forall t, lower t = x +++ y ->
            exists t1 t2, t = t1 +++ t2 /\ lower t1 = x /\ lower t2 = y.
Proof.
  induction x as [|c x IH]; intros t H.
  - now exists EmptyString, t.
  - destruct t as [|a t]; [discriminate|]. simpl in H.
    injection H as Hc H. destruct (IH _ H) as (t1 & t2 & -> & <- & <-).
    exists (String a t1), t2. simpl. now rewrite Hc.
Qed.

Lemma lower_char_y (a : ascii) :
  lower_char a = "y"%char <-> a = "y"%char \/ a = "Y"%char.
Proof.
  split; [|intros [->| ->]; reflexivity].
  destruct a as [[] [] [] [] [] [] [] []]; vm_compute; intros H;
    try discriminate H; auto.
Qed.

Lemma lower_char_e (a : ascii) :
  lower_char a = "e"%char <-> a = "e"%char \/ a = "E"%char.
Proof.
  split; [|intros [->| ->]; reflexivity].
  destruct a as [[] [] [] [] [] [] [] []]; vm_compute; intros H;
    try discriminate H; auto.
Qed.

Lemma lower_char_s (a : ascii) :
  lower_char a = "s"%char <-> a = "s"%char \/ a = "S"%char.
Proof.
  split; [|intros [->| ->]; reflexivity].
  destruct a as [[] [] [] [] [] [] [] []]; vm_compute; intros H;
    try discriminate H; auto.
Qed.

(** The decision is positive exactly when the reply has, anywhere, the
    letters y, e, s in a row, each in either case: inside a longer word
    as well, and whatever else the reply says. *)
Theorem says_yes_any_case (text : string) :
  says_yes text = true <->
  exists pre a b c post,
    text = pre +++ String a (String b (String c post))
    /\ (a = "y"%char \/ a = "Y"%char)
    /\ (b = "e"%char \/ b = "E"%char)
    /\ (c = "s"%char \/ c = "S"%char).
Proof.
  unfold says_yes. rewrite py_in_iff. unfold Substring. split.
  - intros (pre & post & H).
    apply lower_app_inv in H as (t1 & t2 & -> & _ & H).
    destruct t2 as [|a [|b [|c t2]]]; try discriminate.
    simpl in H. injection H as Ha Hb Hc _.
    exists t1, a, b, c, t2. split; [reflexivity|].
    now rewrite <- lower_char_y, <- lower_char_e, <- lower_char_s.
  - intros (pre & a & b & c & post & -> & Ha & Hb & Hc).
    exists (lower pre), (lower post). rewrite lower_app. simpl.
    apply lower_char_y in Ha. apply lower_char_e in Hb.
    apply lower_char_s in Hc. now rewrite Ha, Hb, Hc.
Qed.

Lemma split_fields_clean (sep : ascii) (s : string) :
  forall field, In field (split sep s) ->
                ~ In sep (list_ascii_of_string field).
Proof.
  induction s as [|c s IH]; intros field Hin.
  - destruct Hin as [<-|[]]. intros [].
  - cbn [split] in Hin. destruct (Ascii.eqb_spec c sep) as [->|Hc].
    + destruct Hin as [<-|Hin]; [intros [] | now apply IH].
    + pose proof (split_nonempty sep s) as Hne.
      destruct (split sep s) as [|f fs]; [congruence|].
      destruct Hin as [<-|Hin].
      * simpl. intros [Heq|H]; [congruence|].
        apply (IH f); [now left | exact H].
      * apply IH. now right.
Qed.

Lemma split_length (sep : ascii) (s : string) :
  List.length (split sep s)
  = S (count_occ ascii_dec (list_ascii_of_string s) sep).
Proof.
  induction s as [|c s IH]; [reflexivity|].
  cbn [split list_ascii_of_string count_occ].
  pose proof (split_nonempty sep s) as Hne.
  destruct (Ascii.eqb_spec c sep) as [->|Hc].
  - destruct (ascii_dec sep sep); [|congruence]. simpl. now rewrite IH.
  - destruct (ascii_dec c sep); [congruence|].
    destruct (split sep s) as [|f fs]; [congruence|].
    simpl in *. exact IH.
Qed.

Lemma lstrip_chars (s : string) (c : ascii) :
  In c (list_ascii_of_string (lstrip s)) -> In c (list_ascii_of_string s).
Proof.
  induction s as [|a s IH]; simpl; [tauto|].
  destruct (is_space a); simpl; tauto.
Qed.

Lemma rstrip_chars (s : string) (c : ascii) :
  In c (list_ascii_of_string (rstrip s)) -> In c (list_ascii_of_string s).
Proof.
  induction s as [|a s IH]; simpl; [tauto|].
  destruct (is_space a && is_empty (rstrip s)); simpl; tauto.
Qed.

Lemma strip_chars (s : string) (c : ascii) :
  In c (list_ascii_of_string (strip s)) -> In c (list_ascii_of_string s).
Proof. intros H. now apply lstrip_chars, rstrip_chars. Qed.

Lemma question_lines_clean (text q : string) :
  In q (question_lines text) -> ~ In newline (list_ascii_of_string q).
Proof.
  intros Hq Hnl. unfold question_lines in Hq.
  apply in_map_iff in Hq as (line & <- & Hin).
  apply filter_In in Hin as [Hin _].
  apply strip_chars in Hnl. now apply (split_fields_clean _ _ _ Hin).
Qed.

(** No question contains a line break, and a reply of [n] line breaks
    yields at most [n + 1] questions. *)
Theorem question_lines_single_lines (text : string) :
  (forall q, In q (question_lines text) ->
             ~ In newline (list_ascii_of_string q))
  /\ List.length (question_lines text)
     <= S (count_occ ascii_dec (list_ascii_of_string text) newline).
Proof.
  split.
  - intros q. apply question_lines_clean.
  - unfold question_lines. rewrite length_map, <- split_length.
    apply filter_length_le.
Qed.

Lemma split_clean (sep : ascii) (s : string) :
  ~ In sep (list_ascii_of_string s) -> split sep s = [s].
Proof.
  induction s as [|c s IH]; intros H; [reflexivity|].
  cbn [split]. destruct (Ascii.eqb_spec c sep) as [->|Hc].
  - exfalso. apply H. now left.
  - rewrite IH; [reflexivity|]. intros Hin. apply H. now right.
Qed.

Lemma split_clean_cons (sep : ascii) (s rest : string) :
  ~ In sep (list_ascii_of_string s) ->
  split sep (s +++ String sep rest) = s :: split sep rest.
Proof.
  induction s as [|c s IH]; intros H.
  - simpl. now rewrite Ascii.eqb_refl.
  - cbn [append split]. destruct (Ascii.eqb_spec c sep) as [->|Hc].
    + exfalso. apply H. now left.
    + rewrite IH; [reflexivity|]. intros Hin. apply H. now right.
Qed.

Lemma split_join_clean (sep : ascii) (fields : list string) :
  fields <> [] ->
  (forall f, In f fields -> ~ In sep (list_ascii_of_string f)) ->
  split sep (PyLib.join (String sep EmptyString) fields) = fields.
Proof.
  induction fields as [|f fs IH]; intros Hne Hclean; [congruence|].
  destruct fs as [|g fs].
  - simpl. apply split_clean, Hclean. now left.
  - change (PyLib.join (String sep EmptyString) (f :: g :: fs))
      with (f +++ String sep (PyLib.join (String sep EmptyString) (g :: fs))).
    rewrite split_clean_cons by (apply Hclean; now left).
    rewrite IH; [reflexivity | discriminate|].
    intros x Hx. apply Hclean. now right.
Qed.

(** The question list is a fixed point of the parsing: written out one
    per line and parsed again, it comes back unchanged. *)
Theorem question_lines_reparse (text : string) :
  question_lines (PyLib.join nl (question_lines text)) = question_lines text.
Proof.
  destruct (question_lines text) as [|q qs] eqn:Hq; [reflexivity|].
  assert (forall x, In x (q :: qs) ->
            ~ In newline (list_ascii_of_string x)
            /\ strip x = x /\ x <> EmptyString) as Hall.
  { rewrite <- Hq. intros x Hx. repeat split.
    - now apply (question_lines_clean text).
    - unfold question_lines in Hx.
      apply in_map_iff in Hx as (line & <- & _). apply strip_idem.
    - unfold question_lines in Hx.
      apply in_map_iff in Hx as (line & <- & Hin).
      apply filter_In in Hin as [_ Hne]. intros He. now rewrite He in Hne. }
  unfold question_lines at 1. unfold nl, chr.
  change (ascii_of_nat 10) with newline.
  rewrite split_join_clean; [|discriminate|intros f Hf; now apply Hall].
  clear Hq. induction (q :: qs) as [|x xs IH]; [reflexivity|].
  destruct (Hall x (or_introl eq_refl)) as (_ & Hx & Hne).
  cbn [filter]. rewrite Hx.
  destruct x as [|c x]; [congruence|]. cbn [is_empty negb map].
  rewrite Hx, IH; [reflexivity|]. intros y Hy. apply Hall. now right.
Qed.

(* ------------------------------------------------------------------ *)
(** * More about the loop and the handler *)

Section LoopProperties.

Context {lib : JsonLib}.

Lemma loop_shape_more (v : variant) (goal : json) (prev_id : string)
    (queries : json) (tr : list event) :
  loop_shape v goal prev_id queries tr ->
  forall pre req reply post,
    tr = pre ++ Call req reply :: post ->
    kind_of req = More ->
    exists pre' c review,
      pre = pre' ++ [Call (evaluate_request v goal c) (Some review)]
      /\ req = more_request v goal c prev_id
      /\ decision review = Returned false.
Proof.
  assert (forall seg0 qs c, batch v prev_id qs seg0 c ->
            Forall (fun e => is_search e = true) seg0) as Hb0.
  { intros seg0 qs c Hb. eapply Forall_impl; [|eapply batch_calls, Hb].
    intros e. apply search_call_is_search. }
  induction 1 as [queries seg0 Hf
                 |queries qs seg0 c reply0 Hq Hb
                 |queries qs seg0 c review reply0 Hq Hb Hd
                 |queries qs seg0 c review more0 text queries' rest
                    Hq Hb Hd Ht Hl Hrest IH];
    intros pre req reply post Heq Hreq;
    assert (~ is_search (Call req reply) = true) as Hy
      by (rewrite is_search_kind, Hreq; discriminate).
  - exfalso. rewrite Heq in Hf. apply Forall_app in Hf as [_ Hf].
    apply Forall_cons_iff in Hf as [Hc _].
    now apply search_call_is_search in Hc.
  - exfalso.
    apply (split_at_first_other (fun e => is_search e = true)) in Heq
      as [(_ & Hx & _) | (pre' & _ & Hnil)];
      trivial; try (eapply Hb0, Hb).
    + injection Hx as Hx _. now rewrite Hx in Hreq.
    + now destruct pre'.
  - apply (split_at_first_other (fun e => is_search e = true)) in Heq
      as [(_ & Hx & _) | (pre' & Hpre & Htail)];
      trivial; try (eapply Hb0, Hb).
    + exfalso. injection Hx as Hx _. now rewrite Hx in Hreq.
    + destruct pre' as [|p [|p' pre']]; try discriminate.
      injection Htail as Hcall _ _. subst pre req.
      now exists seg0, c, review.
  - apply (split_at_first_other (fun e => is_search e = true)) in Heq
      as [(_ & Hx & _) | (pre' & Hpre & Htail)];
      trivial; try (eapply Hb0, Hb).
    + exfalso. injection Hx as Hx _. now rewrite Hx in Hreq.
    + destruct pre' as [|p pre'].
      * injection Htail as Hcall _ _. subst pre req.
        now exists seg0, c, review.
      * injection Htail as <- Htail.
        destruct (IH _ _ _ _ Htail Hreq) as (pre'' & c' & review' & -> & -> & Hd').
        subst pre.
        exists (seg0 ++ Call (evaluate_request v goal c) (Some review)
                     :: Call (more_request v goal c prev_id) (Some more0)
                     :: pre''), c', review'.
        repeat split; trivial. now rewrite <- app_assoc.
Qed.

(** Other queries are requested only right after an evaluation that
    said no, and the request carries the list that evaluation judged. *)
Theorem more_follows_negative_evaluation (fuel : nat) (v : variant)
    (goal queries : json) (prev_id : string) (s : list response)
    (o : outcome (list json)) (tr : list event) (s' : list response)
    (pre : list event) (req : request) (reply : option response)
    (post : list event) :
  conduct_research fuel v goal queries prev_id s = (o, tr, s') ->
  tr = pre ++ Call req reply :: post ->
  kind_of req = More ->
  exists pre' c review,
    pre = pre' ++ [Call (evaluate_request v goal c) (Some review)]
    /\ req = more_request v goal c prev_id
    /\ decision review = Returned false.
Proof.
  intros Hrun Heq Hreq. apply research_loop_shape in Hrun.
  exact (loop_shape_more _ _ _ _ _ Hrun _ _ _ _ Heq Hreq).
Qed.

Lemma search_each_app (v : variant) (prev_id : string) (l1 l2 : list json) :
  forall (acc : list json) (s : list response),
    search_each v (l1 ++ l2) prev_id acc s
    = match search_each v l1 prev_id acc s with
      | (Returned c, t, s1) =>
          match search_each v l2 prev_id c s1 with
          | (o, t2, s2) => (o, t ++ t2, s2)
          end
      | other => other
      end.
Proof.
  induction l1 as [|q l1 IH]; intros acc s.
  - simpl. unfold ret. now destruct (search_each v l2 prev_id acc s) as [[o t] s2].
  - cbn [app search_each]. unfold bind. rewrite run_search_run.
    destruct s as [|reply s1]; [reflexivity|].
    destruct (text_at reply 1) as [text| |]; cbn [obind]; try reflexivity.
    rewrite IH.
    destruct (search_each v l1 prev_id (acc ++ [artifact q text]) s1)
      as [[[c| |] t] s2]; try reflexivity.
    now destruct (search_each v l2 prev_id c s2) as [[o t2] s3].
Qed.

(** A search whose reply has no usable text ends the loop there: the
    exception of the indexing reaches the caller, the later queries of
    the batch are not sent and nothing is evaluated. *)
Theorem failed_search_ends_loop (fuel : nat) (v : variant)
    (goal queries : json) (prev_id : string)
    (done rest : list json) (failed : json)
    (s : list response) (c : list json) (seg : list event)
    (bad : response) (s_rest : list response) (e : exn) :
  py_iter queries = Returned (done ++ failed :: rest) ->
  search_each v done prev_id [] s = (Returned c, seg, bad :: s_rest) ->
  text_at bad 1 = Raised e ->
  conduct_research (S fuel) v goal queries prev_id s
  = (Raised e,
     seg ++ [Call (search_request v failed prev_id) (Some bad)], s_rest).
Proof.
  intros Hq Hdone Hbad. unfold conduct_research.
  rewrite research_loop_step, Hq, search_each_app, Hdone.
  cbn [search_each]. unfold bind. rewrite run_search_run, Hbad.
  reflexivity.
Qed.

(** The reply to the request for other queries is used unchecked: a
    text that does not decode raises [JSONDecodeError]; a text that
    decodes to a value Python cannot iterate raises [TypeError] at the
    next pass, before any search.  Either way the loop ends there. *)
Theorem regenerated_queries_unchecked (fuel : nat) (v : variant)
    (goal queries : json) (prev_id : string) (qs : list json)
    (s : list response) (c : list json) (t1 : list event)
    (review more : response) (s3 : list response) (text : string) :
  py_iter queries = Returned qs ->
  search_each v qs prev_id [] s = (Returned c, t1, review :: more :: s3) ->
  decision review = Returned false ->
  text_at more 0 = Returned text ->
  let stopped :=
    t1 ++ [Call (evaluate_request v goal c) (Some review);
           Call (more_request v goal c prev_id) (Some more)] in
  (json_loads text = None ->
   conduct_research (S fuel) v goal queries prev_id s
   = (Raised JSONDecodeError, stopped, s3))
  /\ (forall value,
        json_loads text = Some value -> py_iter value = Raised TypeError ->
        conduct_research (S (S fuel)) v goal queries prev_id s
        = (Raised TypeError, stopped, s3)).
Proof.
  intros Hq Hs Hd Ht. cbv zeta. unfold conduct_research. split.
  - intros Hl. rewrite research_loop_step, Hq, Hs. cbv zeta.
    rewrite Hd, Ht. cbn [obind]. unfold loads. now rewrite Hl.
  - intros value Hl Hiter. rewrite research_loop_step, Hq, Hs. cbv zeta.
    rewrite Hd, Ht. cbn [obind]. unfold loads. rewrite Hl.
    rewrite research_loop_step, Hiter. reflexivity.
Qed.

(** An empty query list is not refused: the loop asks for a verdict on
    the empty collected set, and on a yes returns the empty set. *)
Theorem empty_queries_still_evaluated (fuel : nat) (v : variant)
    (goal queries : json) (prev_id : string)
    (review : response) (s : list response) :
  py_iter queries = Returned [] ->
  decision review = Returned true ->
  conduct_research (S fuel) v goal queries prev_id (review :: s)
  = (Returned [],
     [Call (evaluate_request v goal []) (Some review)], s).
Proof.
  intros Hq Hd. unfold conduct_research.
  rewrite research_loop_step, Hq. cbn [search_each]. unfold ret.
  cbv zeta. now rewrite Hd.
Qed.

(** ** Which calls a session makes *)

Lemma research_calls (fuel : nat) (v : variant) (goal queries : json)
    (prev_id : string) (s : list response) o tr s' :
  conduct_research fuel v goal queries prev_id s = (o, tr, s') ->
  forall e, In e tr -> loop_call v goal prev_id e.
Proof.
  intros Hrun. apply research_loop_shape, loop_shape_calls in Hrun.
  now apply Forall_forall.
Qed.

Lemma loop_call_kind (v : variant) (goal : json) (prev_id : string)
    (req : request) (reply : option response) :
  loop_call v goal prev_id (Call req reply) ->
  model req = MODEL
  /\ (kind_of req = Search \/ kind_of req = Evaluate \/ kind_of req = More).
Proof.
  intros [(q & r & [= -> _]) | [(c & r & [= -> _]) | (c & r & [= -> _])]];
    split; auto.
Qed.

(** Every call of the handler is the planning call, a call of the loop,
    or the report call. *)
Lemma run_deep_research_calls (fuel : nat) (v : variant) (topic : string)
    (questions : list string) (clarify_id : string) (answers : list string)
    (s : list response) o tr s' :
  run_deep_research fuel v topic questions clarify_id answers s
  = (o, tr, s') ->
  forall req reply,
    In (Call req reply) tr ->
    (req = plan_request v topic questions answers clarify_id
     /\ unanswered v answers = false)
    \/ (exists goal prev_id, loop_call v goal prev_id (Call req reply))
    \/ (exists goal collected, req = report_request v goal collected).
Proof.
  intros Hrun req reply Hin. rewrite run_deep_research_run in Hrun.
  remember (unanswered v answers) as ua eqn:Hua in Hrun.
  symmetry in Hua. destruct ua.
  { injection Hrun as <- <- <-. destruct Hin as [[=]|[]]. }
  destruct (create_plan v topic questions answers clarify_id s)
    as [[o0 t0] s0] eqn:Hplan.
  apply create_plan_inv in Hplan as [-> _].
  assert (forall rest,
            In (Call req reply)
               ([Call (plan_request v topic questions answers clarify_id)
                      (hd_error s)] ++ rest) ->
            (forall e, In e rest ->
               (exists goal prev_id, loop_call v goal prev_id e)
               \/ (exists goal collected r,
                     e = Call (report_request v goal collected) r)
               \/ (exists out, e = Ui out)) ->
            (req = plan_request v topic questions answers clarify_id
             /\ unanswered v answers = false)
            \/ (exists goal prev_id, loop_call v goal prev_id (Call req reply))
            \/ (exists goal collected, req = report_request v goal collected))
    as Hcases.
  { intros rest [[= <- _]|H] Hrest; [now left|].
    destruct (Hrest _ H) as [Hl | [(g & c & r & [= -> _]) | (out & [=])]].
    - right. now left.
    - right. right. now exists g, c. }
  destruct o0 as [[[goal queries] goal_id]| |];
    try (injection Hrun as <- <- <-;
         apply (Hcases []); [now rewrite app_nil_r | intros x []]).
  cbv zeta in Hrun.
  destruct (conduct_research fuel v goal queries goal_id s0)
    as [[o1 t1] s1] eqn:Hloop.
  pose proof (research_calls _ _ _ _ _ _ _ _ _ Hloop) as Hl.
  destruct o1 as [collected| |].
  2,3: injection Hrun as <- <- <-;
       apply (Hcases (Ui (st_success (goal_banner v goal)) :: t1));
       [exact Hin|];
       intros x [<-|Hx];
         [right; right; eexists; reflexivity
         |left; exists goal, goal_id; now apply Hl].
  rewrite generate_final_report_run in Hrun.
  assert (forall r tail,
            (forall x, In x tail -> exists out, x = Ui out) ->
            forall x,
              In x (Ui (st_success (goal_banner v goal))
                    :: t1 ++ [Call (report_request v goal collected) r]
                    ++ tail) ->
              (exists goal prev_id, loop_call v goal prev_id x)
              \/ (exists goal collected r,
                    x = Call (report_request v goal collected) r)
              \/ (exists out, x = Ui out)) as Htail.
  { intros r tail Hui x [<-|Hx]; [right; right; eexists; reflexivity|].
    apply in_app_or in Hx as [Hx|[<-|Hx]].
    - left. exists goal, goal_id. now apply Hl.
    - right; left. now exists goal, collected, r.
    - right; right. now apply Hui. }
  destruct s1 as [|report s2].
  { injection Hrun as <- <- <-. eapply Hcases; [exact Hin|].
    apply (Htail None []). intros x []. }
  destruct (text_at report 0) as [report_md|err|];
    injection Hrun as <- <- <-; (eapply Hcases; [exact Hin|]).
  - apply (Htail (Some report) [Ui (st_markdown (REPORT_HEADING v));
                                Ui (st_markdown report_md)]).
    intros x [<-|[<-|[]]]; eexists; reflexivity.
  - apply (Htail (Some report) []). intros x [].
  - apply (Htail (Some report) []). intros x [].
Qed.

(** The handler stops at its guard exactly when the guard's test holds;
    otherwise its first event is the planning call. *)
Lemma guard_or_plan (fuel : nat) (v : variant) (topic : string)
    (questions : list string) (clarify_id : string) (answers : list string)
    (s : list response) :
  unanswered v answers = false ->
  hd_error (trace_of (run_deep_research fuel v topic questions clarify_id
                        answers s))
  = Some (Call (plan_request v topic questions answers clarify_id)
               (hd_error s)).
Proof.
  intros Hua. rewrite run_deep_research_run, Hua.
  destruct (create_plan v topic questions answers clarify_id s)
    as [[o0 t0] s0] eqn:Hplan.
  apply create_plan_inv in Hplan as [-> _].
  destruct o0 as [[[goal queries] goal_id]| |]; try reflexivity.
  cbv zeta.
  destruct (conduct_research fuel v goal queries goal_id s0)
    as [[[collected| |] t1] s1]; try reflexivity.
  destruct (generate_final_report v goal collected s1)
    as [[[md| |] t2] s2]; reflexivity.
Qed.

(** app.py stops with its warning, before any call, exactly on the
    answer lists that have a blank entry. *)
Theorem app_guard_stops_exactly_blank (fuel : nat) (topic : string)
    (questions : list string) (clarify_id : string) (answers : list string)
    (s : list response) :
  (exists a, In a answers /\ blank a) <->
  run_deep_research fuel AppPy topic questions clarify_id answers s
  = (Raised StopException, [Ui (st_warning (WARNING AppPy))], s).
Proof.
  split; [apply app_guard_stops_blank|].
  intros Hrun. apply unanswered_app_iff.
  destruct (unanswered AppPy answers) eqn:Hua; [reflexivity|].
  pose proof (guard_or_plan fuel AppPy topic questions clarify_id answers s
                Hua) as Hhd.
  rewrite Hrun in Hhd. discriminate Hhd.
Qed.

(** streamlit_app.py stops exactly on the answer lists that contain the
    empty string, and on each of them app.py stops as well. *)
Theorem streamlit_guard_stops_exactly_empty (fuel : nat) (topic : string)
    (questions : list string) (clarify_id : string) (answers : list string)
    (s : list response) :
  (In EmptyString answers <->
   run_deep_research fuel StreamlitAppPy topic questions clarify_id answers s
   = (Raised StopException, [Ui (st_warning (WARNING StreamlitAppPy))], s))
  /\ (In EmptyString answers ->
      run_deep_research fuel AppPy topic questions clarify_id answers s
      = (Raised StopException, [Ui (st_warning (WARNING AppPy))], s)).
Proof.
  split; [split|].
  - intros Hin. now apply guard_stops_before_planning,
                          unanswered_streamlit_iff.
  - intros Hrun. apply unanswered_streamlit_iff.
    destruct (unanswered StreamlitAppPy answers) eqn:Hua; [reflexivity|].
    pose proof (guard_or_plan fuel StreamlitAppPy topic questions
                  clarify_id answers s Hua) as Hhd.
    rewrite Hrun in Hhd. discriminate Hhd.
  - intros Hin. apply app_guard_stops_blank.
    exists EmptyString. split; [exact Hin | apply blank_nil].
Qed.

(** The report call is made only right after an evaluation that said
    yes, about the list that evaluation judged; this holds in every run,
    also one whose report reply turns out unusable. *)
Theorem report_call_follows_positive_evaluation (fuel : nat) (v : variant)
    (topic : string) (questions : list string) (clarify_id : string)
    (answers : list string) (s : list response)
    (o : outcome string) (tr : list event) (s' : list response)
    (req : request) (reply : option response) :
  run_deep_research fuel v topic questions clarify_id answers s
  = (o, tr, s') ->
  In (Call req reply) tr ->
  kind_of req = Report ->
  exists pre goal collected review post,
    tr = pre ++ Call (evaluate_request v goal collected) (Some review)
             :: Call req reply :: post
    /\ req = report_request v goal collected
    /\ decision review = Returned true.
Proof.
  intros Hrun Hin Hkind. rewrite run_deep_research_run in Hrun.
  destruct (unanswered v answers).
  { injection Hrun as <- <- <-. destruct Hin as [[=]|[]]. }
  destruct (create_plan v topic questions answers clarify_id s)
    as [[o0 t0] s0] eqn:Hplan.
  apply create_plan_inv in Hplan as [-> _].
  assert (Call req reply
          <> Call (plan_request v topic questions answers clarify_id)
                  (hd_error s)) as Hplan
    by (intros [= -> _]; discriminate Hkind).
  destruct o0 as [[[goal queries] goal_id]| |];
    try (injection Hrun as <- <- <-; destruct Hin as [Heq|[]];
         now symmetry in Heq).
  cbv zeta in Hrun.
  destruct (conduct_research fuel v goal queries goal_id s0)
    as [[o1 t1] s1] eqn:Hloop.
  assert (~ In (Call req reply) t1) as Hl.
  { intros H. apply (research_calls _ _ _ _ _ _ _ _ _ Hloop) in H.
    apply loop_call_kind in H as [_ [H|[H|H]]]; congruence. }
  destruct o1 as [collected| |].
  2,3: injection Hrun as <- <- <-;
       destruct Hin as [Heq|[[=]|Hin]];
       [now symmetry in Heq | contradiction].
  apply research_loop_returns in Hloop as (pre & review & -> & Hyes).
  rewrite generate_final_report_run in Hrun.
  assert (forall r tail,
            (forall x, In x tail -> exists out, x = Ui out) ->
            In (Call req reply)
               ([Call (plan_request v topic questions answers clarify_id)
                      (hd_error s)]
                ++ Ui (st_success (goal_banner v goal))
                :: (pre ++ [Call (evaluate_request v goal collected)
                                 (Some review)])
                ++ [Call (report_request v goal collected) r] ++ tail) ->
            exists pre0 goal0 collected0 review0 post,
              [Call (plan_request v topic questions answers clarify_id)
                    (hd_error s)]
              ++ Ui (st_success (goal_banner v goal))
              :: (pre ++ [Call (evaluate_request v goal collected)
                               (Some review)])
              ++ [Call (report_request v goal collected) r] ++ tail
              = pre0 ++ Call (evaluate_request v goal0 collected0)
                             (Some review0)
                     :: Call req reply :: post
              /\ req = report_request v goal0 collected0
              /\ decision review0 = Returned true) as Hfound.
  { intros r tail Hui [Heq|[[=]|H]]; [now symmetry in Heq|].
    apply in_app_or in H as [H|[[= <- <-]|H]]; [contradiction| |].
    - exists (Call (plan_request v topic questions answers clarify_id)
                   (hd_error s)
              :: Ui (st_success (goal_banner v goal)) :: pre),
        goal, collected, review, tail.
      repeat split; trivial. simpl. now rewrite <- app_assoc.
    - apply Hui in H as [out [=]]. }
  destruct s1 as [|report s2].
  { injection Hrun as <- <- <-. apply (Hfound None []); [intros x []|].
    now rewrite app_nil_r. }
  destruct (text_at report 0) as [report_md|err|];
    injection Hrun as <- <- <-.
  - apply (Hfound (Some report) [Ui (st_markdown (REPORT_HEADING v));
                                 Ui (st_markdown report_md)]);
      [|exact Hin].
    intros x [<-|[<-|[]]]; eexists; reflexivity.
  - apply (Hfound (Some report) []); [intros x []|]. now rewrite app_nil_r.
  - apply (Hfound (Some report) []); [intros x []|]. now rewrite app_nil_r.
Qed.

Lemma text_at_exn (resp : response) (i : nat) (e : exn) :
  text_at resp i = Raised e -> e = IndexError \/ e = AttributeError.
Proof.
  unfold text_at, py_index.
  destruct (nth_error (output resp) i) as [[parts|]|]; simpl;
    try (intros [= <-]; auto).
  destruct parts as [|[|] ?]; simpl; intros [= <-]; auto.
Qed.

Lemma search_each_exn (v : variant) (prev_id : string) (qs : list json) :
  forall (acc : list json) (s : list response) e tr s',
    search_each v qs prev_id acc s = (Raised e, tr, s') -> reply_error e.
Proof.
  unfold reply_error.
  induction qs as [|q qs IH]; intros acc s e tr s' Hrun; [discriminate|].
  cbn [search_each] in Hrun. unfold bind in Hrun.
  rewrite run_search_run in Hrun.
  destruct s as [|reply s1]; [injection Hrun as <- _ _; tauto|].
  destruct (text_at reply 1) as [text|err|] eqn:Ht; cbn [obind] in Hrun.
  - destruct (search_each v qs prev_id (acc ++ [artifact q text]) s1)
      as [[o2 t2] s2] eqn:Hrest.
    injection Hrun as -> _ _. eapply IH, Hrest.
  - injection Hrun as <- _ _. apply text_at_exn in Ht. tauto.
  - discriminate.
Qed.

Lemma research_loop_raises (v : variant) (goal : json)
    (prev_id : string) (fuel : nat) :
  forall (queries : json) (s : list response) e tr s',
    conduct_research fuel v goal queries prev_id s = (Raised e, tr, s') ->
    reply_error e.
Proof.
  unfold conduct_research. generalize (@nil json).
  induction fuel as [|fuel IH]; intros acc queries s e tr s' Hrun;
    [discriminate|].
  rewrite research_loop_step in Hrun.
  destruct (py_iter queries) as [qs|err|] eqn:Hq.
  - destruct (search_each v qs prev_id acc s) as [[[c|err|] t1] s1] eqn:Hs.
    + destruct s1 as [|review s2];
        [injection Hrun as <- _ _; unfold reply_error; tauto|].
      cbv zeta in Hrun.
      destruct (decision review) as [[|]|err|] eqn:Hd; try discriminate.
      * destruct s2 as [|more s3];
          [injection Hrun as <- _ _; unfold reply_error; tauto|].
        destruct (text_at more 0) as [text|err|] eqn:Ht;
          cbn [obind] in Hrun.
        -- unfold loads in Hrun.
           destruct (json_loads text) as [queries'|].
           ++ destruct (research_loop fuel v goal queries' prev_id [] s3)
                as [[o4 t4] s4] eqn:Hrec.
              injection Hrun as -> _ _. eapply IH, Hrec.
           ++ injection Hrun as <- _ _. unfold reply_error; tauto.
        -- injection Hrun as <- _ _. apply text_at_exn in Ht.
           unfold reply_error; tauto.
        -- discriminate.
      * injection Hrun as <- _ _. unfold decision in Hd.
        destruct (text_at review 0) eqn:Ht; try discriminate.
        injection Hd as ->. apply text_at_exn in Ht.
        unfold reply_error; tauto.
    + injection Hrun as <- _ _. eapply search_each_exn, Hs.
    + discriminate.
  - injection Hrun as <- _ _.
    destruct queries; try discriminate; injection Hq as <-;
      unfold reply_error; tauto.
  - discriminate.
Qed.


End LoopProperties.

(* ------------------------------------------------------------------ *)
(** * The page *)

Section PageProperties.

Context {lib : JsonLib}.

Lemma read_answers_run (inp : widgets) (questions : list string) :
  forall (idx : nat) (w : world) (s : list response),
    read_answers inp idx questions w s
    = (Returned (collect_answers_from idx questions (answer_input inp)),
       answer_inputs idx questions, w, s).
Proof.
  induction questions as [|q rest IH]; intros idx w s; [reflexivity|].
  cbn [read_answers]. unfold pbind at 1. unfold render at 1.
  unfold pbind at 1. rewrite IH. unfold pret.
  cbn [app answer_inputs collect_answers_from]. now rewrite app_nil_r.
Qed.

Lemma run_deep_research_split (fuel : nat) (v : variant) (topic : string)
    (questions : list string) (clarify_id : string) (answers : list string) :
  run_deep_research fuel v topic questions clarify_id answers
  = (answers_guard v answers ;;;
     plan_research_report fuel v topic questions clarify_id answers).
Proof. reflexivity. Qed.

Lemma past_guard (fuel : nat) (v : variant) (topic : string)
    (questions : list string) (clarify_id : string) (answers : list string)
    (s : list response) :
  unanswered v answers = false ->
  run_deep_research fuel v topic questions clarify_id answers s
  = plan_research_report fuel v topic questions clarify_id answers s.
Proof.
  intros H. rewrite run_deep_research_split. unfold answers_guard, bind.
  rewrite H. unfold ret at 1.
  now destruct (plan_research_report fuel v topic questions clarify_id
                  answers s) as [[o t] s'].
Qed.

(** The handler, read as a decision tree. *)
Lemma handler_run (fuel : nat) (v : variant) (inp : widgets)
    (api_key : string) (answers : list string) (w : world)
    (s : list response) :
  handler fuel v inp api_key answers w s
  = if unanswered v answers
    then (Raised StopException, [Stage (Ui (st_warning (WARNING v)))], w, s)
    else
      let w1 := match v with
                | AppPy => w
                | StreamlitAppPy => with_key api_key w
                end in
      match ss_questions (session w), ss_clarify_id (session w) with
      | None, _ => (Raised (KeyError "questions"), [], w1, s)
      | Some _, None => (Raised (KeyError "clarify_id"), [], w1, s)
      | Some questions, Some clarify_id =>
          match plan_research_report fuel v (topic_input inp) questions
                  clarify_id answers s with
          | (o, t, s') => (void o, map Stage t, w1, s')
          end
      end.
Proof.
  unfold handler, answers_guard, pbind, plift, session_get, pret,
    get_openai_client, with_key.
  destruct (unanswered v answers); [reflexivity|].
  destruct v; cbn -[plan_research_report];
    (destruct (ss_questions (session w)) as [questions|];
     cbn -[plan_research_report]; [|reflexivity]);
    (destruct (ss_clarify_id (session w)) as [cid|];
     cbn -[plan_research_report]; [|reflexivity]);
    match goal with
    | |- context [plan_research_report ?f ?v ?t ?q ?c ?a ?s] =>
        destruct (plan_research_report f v t q c a s) as [[[r| |] tr] s']
    end;
    cbn; now rewrite ?app_nil_r.
Qed.

(** The answer form, read as a decision tree. *)
Lemma answer_form_run (fuel : nat) (v : variant) (inp : widgets)
    (api_key : string) (w : world) (s : list response) :
  answer_form fuel v inp api_key w s
  = match ss_questions (session w) with
    | None =>
        (Raised (KeyError "questions"),
         [Page (st_subheader (SUBHEADER v))], w, s)
    | Some questions =>
        let form :=
          Page (st_subheader (SUBHEADER v))
          :: answer_inputs 0 questions
          ++ [Page (st_button "Run Deep Research")] in
        if run_clicked inp then
          match handler fuel v inp api_key
                  (collect_answers questions (answer_input inp)) w s with
          | (o, t, w', s') => (o, form ++ t, w', s')
          end
        else (Returned tt, form, w, s)
    end.
Proof.
  unfold answer_form. unfold pbind at 1. unfold render at 1.
  unfold pbind at 1. unfold session_get at 1.
  destruct (ss_questions (session w)) as [questions|]; [|reflexivity].
  unfold pbind at 1. rewrite read_answers_run.
  unfold pbind at 1. unfold render at 1. cbv zeta.
  destruct (run_clicked inp).
  - unfold collect_answers.
    destruct (handler fuel v inp api_key _ w s) as [[[o t] w'] s'].
    cbn [app]. now rewrite <- app_assoc.
  - reflexivity.
Qed.

Lemma ask_clarifying_questions_run (v : variant) (topic : string)
    (s : list response) :
  ask_clarifying_questions v topic s
  = match s with
    | [] => (Raised APIConnectionError,
             [Call (clarify_request v topic) None], [])
    | clarify :: s' =>
        (obind (text_at clarify 0)
               (fun text => Returned (question_lines text, id_ clarify)),
         [Call (clarify_request v topic) (Some clarify)], s')
    end.
Proof.
  unfold ask_clarifying_questions, bind, create, lift, ret.
  destruct s as [|clarify s']; [reflexivity|].
  destruct (text_at clarify 0); reflexivity.
Qed.

(** [main] of app.py, read as a decision tree. *)
Lemma app_main_run (fuel : nat) (inp : widgets) (w : world)
    (s : list response) :
  app_main fuel inp w s
  = let head := [Page (st_set_page_config "Deep Research Assistant" "wide");
                 Page (st_title "Deep Research Assistant")] in
    let api_key := key_text (app_api_key inp w) in
    if no_key (app_api_key inp w)
    then (Raised StopException, head ++ [Page (st_error KEY_ERROR)], w, s)
    else
      let head1 :=
        head ++ [Page (st_text_input "Topic of research" None
                         (Some "e.g., Quantum Computing for Beginners"))] in
      if is_empty (topic_input inp)
      then (Raised StopException, head1, w, s)
      else
        let head2 :=
          head1 ++ [Page (st_button "Generate Clarifying Questions")] in
        if generate_clicked inp || stored w then
          if stored w then
            match answer_form fuel AppPy inp api_key (with_key api_key w) s
            with
            | (o, t, w', s') => (o, head2 ++ t, w', s')
            end
          else
            match ask_clarifying_questions AppPy (topic_input inp) s with
            | (Returned (qs, clarify_id), t, s1) =>
                match answer_form fuel AppPy inp api_key
                        {| session :=
                             {| ss_questions := Some qs;
                                ss_clarify_id := Some clarify_id;
                                ss_answers := ss_answers (session w) |};
                           OPENAI_API_KEY := Some api_key |} s1 with
                | (o, t2, w', s') => (o, head2 ++ map Stage t ++ t2, w', s')
                end
            | (Raised e, t, s1) =>
                (Raised e, head2 ++ map Stage t, with_key api_key w, s1)
            | (OutOfFuel, t, s1) =>
                (OutOfFuel, head2 ++ map Stage t, with_key api_key w, s1)
            end
        else (Returned tt, head2, w, s).
Proof.
  unfold app_main, pbind, render, get_world, st_stop, praise, pret,
    get_openai_client, put_session, plift, with_key.
  cbv zeta. cbn [app].
  destruct (no_key (app_api_key inp w)); [reflexivity|].
  destruct (is_empty (topic_input inp)); [reflexivity|].
  destruct (generate_clicked inp); cbn [orb];
    destruct (stored w) eqn:Hst; cbn [orb]; try reflexivity.
  - now destruct (answer_form fuel AppPy inp _ _ s) as [[[o t] w'] s'].
  - destruct (ask_clarifying_questions AppPy (topic_input inp) s)
      as [[[[qs cid]| |] t] s1]; cbn [session ss_answers];
      try reflexivity.
    rewrite app_nil_r.
    now destruct (answer_form fuel AppPy inp _ _ s1) as [[[o t2] w'] s'].
  - now destruct (answer_form fuel AppPy inp _ _ s) as [[[o t] w'] s'].
Qed.

(** [main] of streamlit_app.py, read as a decision tree. *)
Lemma streamlit_main_run (fuel : nat) (inp : widgets) (w : world)
    (s : list response) :
  streamlit_main fuel inp w s
  = let head := [Page (st_title "Deep Research Assistant");
                 Page (st_sidebar_text_input "OpenAI API Key" "password")] in
    let api_key := sidebar_key inp in
    if is_empty api_key
    then (Raised StopException,
          head ++ [Page (st_info "Please enter your OpenAI API key to begin.")],
          w, s)
    else
      let head1 :=
        head ++ [Page (st_text_input "Enter the topic of research:"
                         None None)] in
      if is_empty (topic_input inp)
      then (Raised StopException, head1, w, s)
      else
        let head2 :=
          head1 ++ [Page (st_button "Generate Clarifying Questions")] in
        if generate_clicked inp then
          match ask_clarifying_questions StreamlitAppPy (topic_input inp) s
          with
          | (Returned (qs, clarify_id), t, s1) =>
              match answer_form fuel StreamlitAppPy inp api_key
                      {| session :=
                           {| ss_questions := Some qs;
                              ss_clarify_id := Some clarify_id;
                              ss_answers :=
                                Some (repeat EmptyString (List.length qs)) |};
                         OPENAI_API_KEY := Some api_key |} s1 with
              | (o, t2, w', s') => (o, head2 ++ map Stage t ++ t2, w', s')
              end
          | (Raised e, t, s1) =>
              (Raised e, head2 ++ map Stage t, with_key api_key w, s1)
          | (OutOfFuel, t, s1) =>
              (OutOfFuel, head2 ++ map Stage t, with_key api_key w, s1)
          end
        else if stored w then
          match answer_form fuel StreamlitAppPy inp api_key w s with
          | (o, t, w', s') => (o, head2 ++ t, w', s')
          end
        else (Returned tt, head2, w, s).
Proof.
  unfold streamlit_main, pbind, render, get_world, st_stop, praise, pret,
    get_openai_client, put_session, plift, with_key.
  cbv zeta. cbn [app].
  destruct (is_empty (sidebar_key inp)); [reflexivity|].
  destruct (is_empty (topic_input inp)); [reflexivity|].
  destruct (generate_clicked inp).
  - destruct (ask_clarifying_questions StreamlitAppPy (topic_input inp) s)
      as [[[[qs cid]| |] t] s1]; try reflexivity.
    cbn [stored session ss_questions]. rewrite app_nil_r.
    now destruct (answer_form fuel StreamlitAppPy inp _ _ s1)
      as [[[o t2] w'] s'].
  - cbn [app]. destruct (stored w); [|reflexivity].
    now destruct (answer_form fuel StreamlitAppPy inp _ _ s)
      as [[[o t] w'] s'].
Qed.

(** ** What the handler and the form do to the world *)

Lemma py_getitem_exn (value : json) (key : string) (e : exn) :
  py_getitem value key = Raised e -> e = KeyError key \/ e = TypeError.
Proof.
  destruct value; simpl; try (intros [= <-]; auto).
  destruct (assoc key members); [discriminate | intros [= <-]; auto].
Qed.

(** The only [KeyError]s of the handler name a field missing from the
    plan. *)
Lemma run_deep_research_key_error (fuel : nat) (v : variant) (topic : string)
    (questions : list string) (clarify_id : string) (answers : list string)
    (s : list response) (k : string) tr s' :
  run_deep_research fuel v topic questions clarify_id answers s
  = (Raised (KeyError k), tr, s') ->
  k = "goal" \/ k = "queries".
Proof.
  intros Hrun. rewrite run_deep_research_run in Hrun.
  destruct (unanswered v answers); [discriminate|].
  destruct s as [|resp s0].
  { discriminate Hrun. }
  rewrite create_plan_run in Hrun.
  destruct (text_at resp 0) as [text|err|] eqn:Ht; cbn [obind] in Hrun.
  2: { injection Hrun as -> _ _. apply text_at_exn in Ht.
       destruct Ht; discriminate. }
  2: discriminate.
  unfold loads in Hrun.
  destruct (json_loads text) as [plan|]; cbn [obind] in Hrun;
    [|discriminate].
  destruct (py_getitem plan "goal") as [goal|err|] eqn:Hg;
    cbn [obind] in Hrun.
  2: { injection Hrun as -> _ _. apply py_getitem_exn in Hg.
       destruct Hg as [[= ->]|[=]]. now left. }
  2: discriminate.
  destruct (py_getitem plan "queries") as [queries|err|] eqn:Hq;
    cbn [obind] in Hrun.
  2: { injection Hrun as -> _ _. apply py_getitem_exn in Hq.
       destruct Hq as [[= ->]|[=]]. now right. }
  2: discriminate.
  cbv zeta in Hrun.
  destruct (conduct_research fuel v goal queries (id_ resp) s0)
    as [[[collected|err|] t1] s1] eqn:Hloop; try discriminate.
  2: { injection Hrun as -> _ _.
       apply research_loop_raises in Hloop.
       destruct Hloop as [H|[H|[H|[H|H]]]]; discriminate H. }
  rewrite generate_final_report_run in Hrun.
  destruct s1 as [|report s2]; [discriminate|].
  destruct (text_at report 0) as [md|err|] eqn:Hr; try discriminate.
  injection Hrun as -> _ _. apply text_at_exn in Hr.
  destruct Hr; discriminate.
Qed.

Lemma in_stage_events (e : event) (tr : list page_event) :
  In (Stage e) tr <-> In e (stage_events tr).
Proof.
  unfold stage_events. rewrite in_flat_map. split.
  - intros H. exists (Stage e). split; [exact H | now left].
  - intros ([x|out] & Hin & Hx); [|destruct Hx].
    destruct Hx as [<-|[]]. exact Hin.
Qed.

Lemma stage_events_stage (t : list event) : stage_events (map Stage t) = t.
Proof.
  unfold stage_events. induction t as [|e t IH]; [reflexivity|].
  simpl. now rewrite IH.
Qed.

Lemma stage_events_app (a b : list page_event) :
  stage_events (a ++ b) = stage_events a ++ stage_events b.
Proof. apply flat_map_app. Qed.

Lemma stage_events_inputs (idx : nat) (questions : list string) :
  stage_events (answer_inputs idx questions) = [].
Proof.
  revert idx. induction questions as [|q qs IH]; intros idx;
    [reflexivity | apply IH].
Qed.

(** On a session that holds questions and their token, the handler is
    [run_deep_research] on them. *)
Lemma handler_stored (fuel : nat) (v : variant) (inp : widgets)
    (api_key : string) (answers : list string) (w : world)
    (s : list response) (questions : list string) (clarify_id : string) :
  ss_questions (session w) = Some questions ->
  ss_clarify_id (session w) = Some clarify_id ->
  exists w',
    handler fuel v inp api_key answers w s
    = (void (outcome_of (run_deep_research fuel v (topic_input inp)
                           questions clarify_id answers s)),
       map Stage (trace_of (run_deep_research fuel v (topic_input inp)
                              questions clarify_id answers s)),
       w',
       snd (run_deep_research fuel v (topic_input inp) questions
              clarify_id answers s))
    /\ session w' = session w
    /\ OPENAI_API_KEY w'
       = if unanswered v answers then OPENAI_API_KEY w
         else match v with
              | AppPy => OPENAI_API_KEY w
              | StreamlitAppPy => Some api_key
              end.
Proof.
  intros Hq Hc. rewrite handler_run.
  destruct (unanswered v answers) eqn:Hua.
  - exists w. rewrite guard_stops_before_planning by exact Hua.
    now repeat split.
  - cbv zeta. rewrite Hq, Hc, past_guard by exact Hua.
    destruct (plan_research_report fuel v (topic_input inp) questions
                clarify_id answers s) as [[o1 t1] s1].
    eexists. split; [reflexivity|]. now destruct v.
Qed.

(** What a run of the handler leaves: the session as it was, the key in
    the environment where streamlit_app.py made a client, and, past the
    guard, the events of [run_deep_research] on the stored questions. *)
Lemma handler_spec (fuel : nat) (v : variant) (inp : widgets)
    (api_key : string) (answers : list string) (w : world)
    (s : list response) o t w' s' :
  handler fuel v inp api_key answers w s = (o, t, w', s') ->
  session w' = session w
  /\ (OPENAI_API_KEY w' = OPENAI_API_KEY w
      \/ OPENAI_API_KEY w' = Some api_key)
  /\ (forall k, o = Raised (KeyError k) ->
        (ss_questions (session w) = None \/ ss_clarify_id (session w) = None)
        \/ k = "goal" \/ k = "queries")
  /\ (no_calls t /\ s' = s
      \/ unanswered v answers = false
         /\ OPENAI_API_KEY w'
            = match v with
              | AppPy => OPENAI_API_KEY w
              | StreamlitAppPy => Some api_key
              end
         /\ exists questions clarify_id,
              ss_questions (session w) = Some questions
              /\ ss_clarify_id (session w) = Some clarify_id
              /\ (o, stage_events t, s')
                 = (void (outcome_of
                            (run_deep_research fuel v (topic_input inp)
                               questions clarify_id answers s)),
                    trace_of (run_deep_research fuel v (topic_input inp)
                                questions clarify_id answers s),
                    snd (run_deep_research fuel v (topic_input inp)
                           questions clarify_id answers s))).
Proof.
  destruct (ss_questions (session w)) as [questions|] eqn:Hq.
  2: { rewrite handler_run, Hq.
       destruct (unanswered v answers); cbv zeta;
         intros [= <- <- <- <-];
         (split; [now destruct v|]); (split; [destruct v; auto|]);
         (split; [auto|]); left; (split; [|reflexivity]);
         intros req reply H; simpl in H; intuition discriminate. }
  destruct (ss_clarify_id (session w)) as [clarify_id|] eqn:Hc.
  2: { rewrite handler_run, Hq, Hc.
       destruct (unanswered v answers); cbv zeta;
         intros [= <- <- <- <-];
         (split; [now destruct v|]); (split; [destruct v; auto|]);
         (split; [auto|]); left; (split; [|reflexivity]);
         intros req reply H; simpl in H; intuition discriminate. }
  destruct (handler_stored fuel v inp api_key answers w s _ _ Hq Hc)
    as (w1 & -> & Hs & Hk).
  intros [= <- <- <- <-]. split; [exact Hs|].
  split; [destruct (unanswered v answers), v; auto|].
  split.
  - intros k Hk'. right.
    destruct (run_deep_research fuel v (topic_input inp) questions
                clarify_id answers s) as [[[r|e|] t1] s1] eqn:Hrun;
      try discriminate.
    injection Hk' as ->. eapply run_deep_research_key_error, Hrun.
  - destruct (unanswered v answers) eqn:Hua.
    + left. rewrite guard_stops_before_planning by exact Hua.
      split; [|reflexivity]. intros req reply [[=]|[]].
    + right. repeat split; trivial. exists questions, clarify_id.
      now rewrite stage_events_stage.
Qed.

(** The same for the form around it. *)
Lemma answer_form_spec (fuel : nat) (v : variant) (inp : widgets)
    (api_key : string) (w : world) (s : list response) o t w' s' :
  answer_form fuel v inp api_key w s = (o, t, w', s') ->
  session w' = session w
  /\ (OPENAI_API_KEY w' = OPENAI_API_KEY w
      \/ OPENAI_API_KEY w' = Some api_key)
  /\ (forall k, o = Raised (KeyError k) ->
        (ss_questions (session w) = None \/ ss_clarify_id (session w) = None)
        \/ k = "goal" \/ k = "queries")
  /\ (no_calls t /\ s' = s
      \/ run_clicked inp = true
         /\ OPENAI_API_KEY w'
            = match v with
              | AppPy => OPENAI_API_KEY w
              | StreamlitAppPy => Some api_key
              end
         /\ exists questions clarify_id,
              let answers := collect_answers questions (answer_input inp) in
              ss_questions (session w) = Some questions
              /\ ss_clarify_id (session w) = Some clarify_id
              /\ unanswered v answers = false
              /\ (o, stage_events t, s')
                 = (void (outcome_of
                            (run_deep_research fuel v (topic_input inp)
                               questions clarify_id answers s)),
                    trace_of (run_deep_research fuel v (topic_input inp)
                                questions clarify_id answers s),
                    snd (run_deep_research fuel v (topic_input inp)
                           questions clarify_id answers s))).
Proof.
  rewrite answer_form_run.
  destruct (ss_questions (session w)) as [questions|] eqn:Hq.
  2: { intros [= <- <- <- <-]. repeat split; auto.
       left. split; [|reflexivity]. intros req reply []. }
  cbv zeta.
  assert (forall t1,
            stage_events
              (Page (st_subheader (SUBHEADER v))
               :: (answer_inputs 0 questions
                   ++ [Page (st_button "Run Deep Research")]) ++ t1)
            = stage_events t1) as Hform.
  { intros t1.
    change (stage_events ((answer_inputs 0 questions
                           ++ [Page (st_button "Run Deep Research")]) ++ t1)
            = stage_events t1).
    now rewrite !stage_events_app, stage_events_inputs. }
  destruct (run_clicked inp) eqn:Hrun.
  2: { intros [= <- <- <- <-]. repeat split; auto; try discriminate.
       left. split; [|reflexivity]. intros req reply.
       specialize (Hform []). rewrite app_nil_r in Hform.
       rewrite Hform. intros []. }
  destruct (handler fuel v inp api_key
              (collect_answers questions (answer_input inp)) w s)
    as [[[o1 t1] w1] s1] eqn:Hh.
  apply handler_spec in Hh as (Hs & Hk & He & Hcalls).
  intros [= <- <- <- <-]. split; [exact Hs|]. split; [exact Hk|]. split.
  { intros k Hk'. destruct (He k Hk') as [[H|H]|H]; auto. congruence. }
  destruct Hcalls as [[Hnil ->] | (Hua & Hkey & qs & cid & Hq' & Hc' & Heq)].
  - left. split; [|reflexivity]. intros req reply. rewrite Hform.
    apply Hnil.
  - right. split; [reflexivity|]. split; [exact Hkey|].
    exists qs, cid. cbv zeta.
    rewrite Hq in Hq'. injection Hq' as <-. rewrite Hform.
    repeat split; trivial.
Qed.

(** ** One run of the page *)

Lemma ask_outcome (v : variant) (topic : string) (s : list response)
    o t s1 :
  ask_clarifying_questions v topic s = (o, t, s1) ->
  t = [Call (clarify_request v topic) (hd_error s)]
  /\ ((exists qs clarify_id, o = Returned (qs, clarify_id))
      \/ (exists e, o = Raised e /\ reply_error e)).
Proof.
  rewrite ask_clarifying_questions_run. destruct s as [|clarify s0].
  - intros [= <- <- <-]. split; [reflexivity|]. right.
    exists APIConnectionError. unfold reply_error. tauto.
  - destruct (text_at clarify 0) as [text|e|] eqn:Ht; cbn [obind];
      intros [= <- <- <-]; (split; [reflexivity|]).
    + left. eauto.
    + right. exists e. split; [reflexivity|]. apply text_at_exn in Ht.
      unfold reply_error. tauto.
    + now apply text_at_total in Ht.
Qed.

(** The ways a run of [main] can go: it stops early or idles without a
    call; or it gets to the form, after asking for questions (when it
    had to) or on the stored ones. *)
Lemma main_cases (fuel : nat) (v : variant) (inp : widgets) (w : world)
    (s : list response) o tr w' s' :
  main fuel v inp w s = (o, tr, w', s') ->
  let key := key_text (api_key_of v inp w) in
  (stage_events tr = [] /\ s' = s /\ w' = w
   /\ ((o = Raised StopException
        /\ (no_key (api_key_of v inp w) = true
            \/ is_empty (topic_input inp) = true))
       \/ (o = Returned tt /\ generate_clicked inp = false
           /\ stored w = false)))
  \/ (no_key (api_key_of v inp w) = false
      /\ is_empty (topic_input inp) = false
      /\ exists head t_ask t_form,
           tr = head ++ map Stage t_ask ++ t_form
           /\ stage_events head = []
           /\ ((generate_clicked inp = true
                /\ (v = AppPy -> stored w = false)
                /\ ((exists e,
                       ask_clarifying_questions v (topic_input inp) s
                       = (Raised e, t_ask, s')
                       /\ reply_error e /\ o = Raised e
                       /\ t_form = [] /\ w' = with_key key w)
                    \/ (exists qs clarify_id s1,
                          ask_clarifying_questions v (topic_input inp) s
                          = (Returned (qs, clarify_id), t_ask, s1)
                          /\ answer_form fuel v inp key
                               {| session :=
                                    {| ss_questions := Some qs;
                                       ss_clarify_id := Some clarify_id;
                                       ss_answers :=
                                         match v with
                                         | AppPy => ss_answers (session w)
                                         | StreamlitAppPy =>
                                             Some (repeat EmptyString
                                                     (List.length qs))
                                         end |};
                                  OPENAI_API_KEY := Some key |} s1
                             = (o, t_form, w', s'))))
               \/ (stored w = true
                   /\ (v = StreamlitAppPy -> generate_clicked inp = false)
                   /\ t_ask = []
                   /\ answer_form fuel v inp key
                        match v with
                        | AppPy => with_key key w
                        | StreamlitAppPy => w
                        end s
                      = (o, t_form, w', s')))).
Proof.
  assert (forall pages : list page_output,
            stage_events (map Page pages) = []) as Hpages.
  { intros pages. now induction pages. }
  cbv zeta. destruct v; cbn [main api_key_of].
  - rewrite app_main_run. cbv zeta.
    destruct (no_key (app_api_key inp w)) eqn:Hk.
    { intros [= <- <- <- <-]. left.
      repeat split; auto. }
    destruct (is_empty (topic_input inp)) eqn:Ht.
    { intros [= <- <- <- <-]. left.
      repeat split; auto. }
    destruct (stored w) eqn:Hst.
    + rewrite orb_true_r.
      destruct (answer_form fuel AppPy inp _ _ s) as [[[o1 t1] w1] s1] eqn:Hf.
      intros [= <- <- <- <-]. right. repeat split; trivial.
      exists (map Page [st_set_page_config "Deep Research Assistant" "wide";
                         st_title "Deep Research Assistant";
                         st_text_input "Topic of research" None
                           (Some "e.g., Quantum Computing for Beginners");
                         st_button "Generate Clarifying Questions"]), [], t1. split; [reflexivity|].
      split; [apply Hpages|]. right.
      repeat split; trivial; discriminate.
    + rewrite orb_false_r. destruct (generate_clicked inp) eqn:Hg.
      2: { intros [= <- <- <- <-]. left. repeat split; auto. }
      destruct (ask_clarifying_questions AppPy (topic_input inp) s)
        as [[o1 t1] s1] eqn:Hask.
      pose proof (ask_outcome _ _ _ _ _ _ Hask)
        as [_ [(qs & cid & ->) | (e & -> & He)]].
      * destruct (answer_form fuel AppPy inp _ _ s1)
          as [[[o2 t2] w2] s2] eqn:Hf.
        intros [= <- <- <- <-]. right. repeat split; trivial.
        exists (map Page [st_set_page_config "Deep Research Assistant" "wide";
                         st_title "Deep Research Assistant";
                         st_text_input "Topic of research" None
                           (Some "e.g., Quantum Computing for Beginners");
                         st_button "Generate Clarifying Questions"]), t1, t2. split; [reflexivity|].
        split; [apply Hpages|]. left.
        repeat split; trivial. right. now exists qs, cid, s1.
      * intros [= <- <- <- <-]. right. repeat split; trivial.
        exists (map Page [st_set_page_config "Deep Research Assistant" "wide";
                         st_title "Deep Research Assistant";
                         st_text_input "Topic of research" None
                           (Some "e.g., Quantum Computing for Beginners");
                         st_button "Generate Clarifying Questions"]), t1, []. split; [now rewrite app_nil_r|].
        split; [apply Hpages|]. left.
        repeat split; trivial. left. now exists e.
  - rewrite streamlit_main_run. cbv zeta. cbn [no_key key_text].
    destruct (is_empty (sidebar_key inp)) eqn:Hk.
    { intros [= <- <- <- <-]. left.
      repeat split; auto. }
    destruct (is_empty (topic_input inp)) eqn:Ht.
    { intros [= <- <- <- <-]. left.
      repeat split; auto. }
    destruct (generate_clicked inp) eqn:Hg.
    + destruct (ask_clarifying_questions StreamlitAppPy (topic_input inp) s)
        as [[o1 t1] s1] eqn:Hask.
      pose proof (ask_outcome _ _ _ _ _ _ Hask)
        as [_ [(qs & cid & ->) | (e & -> & He)]].
      * destruct (answer_form fuel StreamlitAppPy inp _ _ s1)
          as [[[o2 t2] w2] s2] eqn:Hf.
        intros [= <- <- <- <-]. right. repeat split; trivial.
        exists (map Page [st_title "Deep Research Assistant";
                         st_sidebar_text_input "OpenAI API Key" "password";
                         st_text_input "Enter the topic of research:"
                           None None;
                         st_button "Generate Clarifying Questions"]), t1, t2. split; [reflexivity|].
        split; [apply Hpages|]. left.
        repeat split; try discriminate. right. now exists qs, cid, s1.
      * intros [= <- <- <- <-]. right. repeat split; trivial.
        exists (map Page [st_title "Deep Research Assistant";
                         st_sidebar_text_input "OpenAI API Key" "password";
                         st_text_input "Enter the topic of research:"
                           None None;
                         st_button "Generate Clarifying Questions"]), t1, []. split; [now rewrite app_nil_r|].
        split; [apply Hpages|]. left.
        repeat split; try discriminate. left. now exists e.
    + destruct (stored w) eqn:Hst.
      2: { intros [= <- <- <- <-]. left. repeat split; auto. }
      destruct (answer_form fuel StreamlitAppPy inp _ _ s)
        as [[[o1 t1] w1] s1] eqn:Hf.
      intros [= <- <- <- <-]. right. repeat split; trivial.
      exists (map Page [st_title "Deep Research Assistant";
                         st_sidebar_text_input "OpenAI API Key" "password";
                         st_text_input "Enter the topic of research:"
                           None None;
                         st_button "Generate Clarifying Questions"]), [], t1. split; [reflexivity|].
      split; [apply Hpages|]. right.
      repeat split; trivial.
Qed.

Lemma no_key_false (api_key : option string) :
  no_key api_key = false ->
  api_key = Some (key_text api_key) /\ key_text api_key <> EmptyString.
Proof.
  destruct api_key as [[|c k]|]; try discriminate. intros _.
  split; [reflexivity | discriminate].
Qed.

Lemma stored_iff (w : world) :
  stored w = true <-> ss_questions (session w) <> None.
Proof.
  unfold stored. destruct (ss_questions (session w)); split;
    congruence.
Qed.

Lemma collect_answers_length (questions : list string)
    (input : nat -> string) :
  List.length (collect_answers questions input) = List.length questions.
Proof.
  unfold collect_answers. generalize 0.
  induction questions as [|q qs IH]; intros n; simpl; [reflexivity|].
  now rewrite IH.
Qed.

Lemma in_page_trace (head : list page_event) (t_ask : list event)
    (t_form : list page_event) (req : request) (reply : option response) :
  stage_events head = [] ->
  In (Stage (Call req reply)) (head ++ map Stage t_ask ++ t_form) ->
  In (Call req reply) t_ask \/ In (Call req reply) (stage_events t_form).
Proof.
  intros Hhead H. apply in_stage_events in H.
  rewrite !stage_events_app, stage_events_stage, Hhead in H.
  cbn [app] in H. now apply in_app_or in H.
Qed.

(** Every call of the handler goes to the large model. *)
Lemma run_deep_research_models (fuel : nat) (v : variant) (topic : string)
    (questions : list string) (clarify_id : string) (answers : list string)
    (s : list response) (req : request) (reply : option response) :
  In (Call req reply)
     (trace_of (run_deep_research fuel v topic questions clarify_id
                  answers s)) ->
  model req = MODEL.
Proof.
  destruct (run_deep_research fuel v topic questions clarify_id answers s)
    as [[o tr] s'] eqn:Hrun.
  intros Hin.
  destruct (run_deep_research_calls _ _ _ _ _ _ _ _ _ _ Hrun _ _ Hin)
    as [[-> _] | [(g & p & Hl) | (g & c & ->)]]; try reflexivity.
  now apply loop_call_kind in Hl.
Qed.

(** On a page whose session holds questions and their token, a click on
    the run button makes [main] do what [run_deep_research] does on the
    stored questions and the answers read from the text inputs: same
    outcome, same calls and messages in the same order, same replies
    consumed; the session is left as it was. *)
Theorem main_runs_handler (fuel : nat) (v : variant) (inp : widgets)
    (w : world) (s : list response)
    (o : outcome unit) (tr : list page_event) (w' : world)
    (s' : list response) (questions : list string) (clarify_id : string) :
  main fuel v inp w s = (o, tr, w', s') ->
  no_key (api_key_of v inp w) = false ->
  is_empty (topic_input inp) = false ->
  generate_clicked inp = false ->
  run_clicked inp = true ->
  ss_questions (session w) = Some questions ->
  ss_clarify_id (session w) = Some clarify_id ->
  let run :=
    run_deep_research fuel v (topic_input inp) questions clarify_id
      (collect_answers questions (answer_input inp)) s in
  o = void (outcome_of run)
  /\ stage_events tr = trace_of run
  /\ s' = snd run
  /\ session w' = session w.
Proof.
  intros Hmain Hk Ht Hg Hr Hq Hc. cbv zeta.
  apply main_cases in Hmain. cbv zeta in Hmain.
  destruct Hmain as [(_ & _ & _ & [(_ & [H|H]) | (_ & _ & H)])
                    |(_ & _ & head & t_ask & t_form & -> & Hhead & Hcase)];
    try congruence.
  { exfalso. apply Bool.not_true_iff_false in H. apply H, stored_iff.
    congruence. }
  destruct Hcase as [(H & _) | (_ & _ & -> & Hf)]; [congruence|].
  rewrite answer_form_run in Hf.
  assert (session match v with
                  | AppPy => with_key (key_text (api_key_of v inp w)) w
                  | StreamlitAppPy => w
                  end = session w) as Hs by now destruct v.
  rewrite Hs, Hq, Hr in Hf. cbv zeta in Hf.
  destruct (handler_stored fuel v inp (key_text (api_key_of v inp w))
              (collect_answers questions (answer_input inp))
              match v with
              | AppPy => with_key (key_text (api_key_of v inp w)) w
              | StreamlitAppPy => w
              end s questions clarify_id)
    as (w1 & Hh & Hs1 & _); try (rewrite Hs; assumption).
  rewrite Hh in Hf. injection Hf as <- <- <- <-.
  repeat split; [|congruence].
  rewrite !stage_events_app, Hhead. cbn [app map].
  change (stage_events
            ((answer_inputs 0 questions
              ++ [Page (st_button "Run Deep Research")])
             ++ map Stage
                  (trace_of (run_deep_research fuel v (topic_input inp)
                               questions clarify_id
                               (collect_answers questions (answer_input inp))
                               s)))
          = trace_of (run_deep_research fuel v (topic_input inp) questions
                        clarify_id
                        (collect_answers questions (answer_input inp)) s)).
  now rewrite !stage_events_app, stage_events_inputs, stage_events_stage.
Qed.

Lemma stage_events_no_calls (t : list page_event) :
  stage_events t = [] -> no_calls t.
Proof. intros H req reply. rewrite H. intros []. Qed.

(** A run of [main] calls the gateway only with a non-empty key, a
    non-empty topic, and on the run in which one of the two buttons was
    clicked; any other run costs nothing. *)
Theorem main_calls_need_key_topic_click (fuel : nat) (v : variant)
    (inp : widgets) (w : world) (s : list response)
    (o : outcome unit) (tr : list page_event) (w' : world)
    (s' : list response) (req : request) (reply : option response) :
  main fuel v inp w s = (o, tr, w', s') ->
  In (Stage (Call req reply)) tr ->
  (exists key, api_key_of v inp w = Some key /\ key <> EmptyString)
  /\ topic_input inp <> EmptyString
  /\ (generate_clicked inp = true \/ run_clicked inp = true).
Proof.
  intros Hmain Hin. apply main_cases in Hmain. cbv zeta in Hmain.
  destruct Hmain as [(Hnil & _)
                    |(Hk & Ht & head & t_ask & t_form & -> & Hhead & Hcase)].
  { apply in_stage_events in Hin. rewrite Hnil in Hin. destruct Hin. }
  apply no_key_false in Hk as [Hk Hne].
  split; [eauto|]. split.
  { intros He. rewrite He in Ht. discriminate Ht. }
  destruct Hcase as [(Hg & _) | (_ & _ & -> & Hf)]; [now left|].
  right. apply in_page_trace in Hin as [[]|Hin]; [|exact Hhead].
  apply answer_form_spec in Hf as (_ & _ & _ & [[Hnone _] | (Hr & _)]);
    [now apply Hnone in Hin | exact Hr].
Qed.

(** app.py shows the key error and stops, changing nothing, exactly when
    the secret lookup gives the empty string, or fails while the
    environment variable is unset or empty.  A secret that is present
    and empty hides a key in the environment. *)
Theorem app_key_error_exactly (fuel : nat) (inp : widgets) (w : world)
    (s : list response) :
  (secrets inp = Some EmptyString
   \/ (secrets inp = None
       /\ (OPENAI_API_KEY w = None
           \/ OPENAI_API_KEY w = Some EmptyString))) <->
  app_main fuel inp w s
  = (Raised StopException,
     [Page (st_set_page_config "Deep Research Assistant" "wide");
      Page (st_title "Deep Research Assistant");
      Page (st_error KEY_ERROR)], w, s).
Proof.
  assert (no_key (app_api_key inp w) = true <->
          (secrets inp = Some EmptyString
           \/ (secrets inp = None
               /\ (OPENAI_API_KEY w = None
                   \/ OPENAI_API_KEY w = Some EmptyString)))) as Hiff.
  { unfold app_api_key, no_key.
    destruct (secrets inp) as [[|c k]|]; simpl.
    - tauto.
    - split; [discriminate|]. intros [[=]|[[=] _]].
    - destruct (OPENAI_API_KEY w) as [[|c k]|]; simpl;
        intuition (try discriminate). }
  rewrite <- Hiff, app_main_run. cbv zeta.
  destruct (no_key (app_api_key inp w)); [tauto|].
  split; [discriminate|].
  destruct (is_empty (topic_input inp)); [discriminate|].
  destruct (generate_clicked inp || stored w).
  - destruct (stored w).
    + destruct (answer_form fuel AppPy inp _ _ s) as [[[o t] w1] s1].
      discriminate.
    + destruct (ask_clarifying_questions AppPy (topic_input inp) s)
        as [[[[qs cid]| |] t] s1]; try discriminate.
      destruct (answer_form fuel AppPy inp _ _ s1) as [[[o t2] w1] s2].
      discriminate.
  - discriminate.
Qed.

(** Once questions are stored, app.py never asks for them again: in any
    later run, whatever the topic now says and also when the generate
    button is clicked, no clarification call is made and the stored
    questions and token stay as they are. *)
Theorem app_questions_never_regenerated (fuel : nat) (inp : widgets)
    (w : world) (s : list response)
    (o : outcome unit) (tr : list page_event) (w' : world)
    (s' : list response) (questions : list string) :
  ss_questions (session w) = Some questions ->
  app_main fuel inp w s = (o, tr, w', s') ->
  session w' = session w
  /\ forall req reply,
       In (Stage (Call req reply)) tr -> model req = MODEL.
Proof.
  intros Hq Hmain. apply (main_cases fuel AppPy) in Hmain.
  cbv zeta in Hmain.
  assert (stored w = true) as Hst by (apply stored_iff; congruence).
  destruct Hmain as [(Hnil & _ & -> & _)
                    |(Hk & Ht & head & t_ask & t_form & -> & Hhead & Hcase)].
  { split; [reflexivity|]. intros req reply Hin.
    apply in_stage_events in Hin. rewrite Hnil in Hin. destruct Hin. }
  destruct Hcase as [(_ & Hns & _) | (_ & _ & -> & Hf)].
  { specialize (Hns eq_refl). congruence. }
  apply answer_form_spec in Hf as (Hs & _ & _ & Hcalls). split; [exact Hs|].
  intros req reply Hin.
  apply in_page_trace in Hin as [[]|Hin]; [|exact Hhead].
  destruct Hcalls as [[Hnone _] | (_ & _ & qs & cid & _ & _ & _ & Heq)];
    [now apply Hnone in Hin|].
  injection Heq as _ Heq _. rewrite Heq in Hin.
  now apply run_deep_research_models in Hin.
Qed.

(** In streamlit_app.py a click on the generate button always asks
    again: whatever the session held, it now holds the questions of the
    new reply, its token and a fresh list of empty answers, and the key
    typed in the sidebar is in the environment. *)
Theorem streamlit_generate_overwrites (fuel : nat) (inp : widgets)
    (w : world) (clarify : response) (s : list response) (text : string)
    (o : outcome unit) (tr : list page_event) (w' : world)
    (s' : list response) :
  is_empty (sidebar_key inp) = false ->
  is_empty (topic_input inp) = false ->
  generate_clicked inp = true ->
  text_at clarify 0 = Returned text ->
  streamlit_main fuel inp w (clarify :: s) = (o, tr, w', s') ->
  session w'
  = {| ss_questions := Some (question_lines text);
       ss_clarify_id := Some (id_ clarify);
       ss_answers :=
         Some (repeat EmptyString (List.length (question_lines text))) |}
  /\ OPENAI_API_KEY w' = Some (sidebar_key inp).
Proof.
  intros Hk Ht Hg Htext Hmain.
  apply (main_cases fuel StreamlitAppPy) in Hmain. cbv zeta in Hmain.
  cbn [api_key_of no_key key_text] in Hmain.
  destruct Hmain as [(_ & _ & _ & [(_ & [H|H]) | (_ & H & _)])
                    |(_ & _ & head & t_ask & t_form & -> & Hhead & Hcase)];
    try congruence.
  rewrite ask_clarifying_questions_run, Htext in Hcase. cbn [obind] in Hcase.
  destruct Hcase as [(_ & _ & [(e & [=] & _)
                              |(qs & cid & s1 & [= <- <- <- <-] & Hf)])
                    |(_ & H & _)].
  2: { specialize (H eq_refl). congruence. }
  apply answer_form_spec in Hf as (Hs & Hkey & _).
  split; [exact Hs|]. destruct Hkey as [-> | ->]; reflexivity.
Qed.

(** Every planning call [main] makes carries the stored questions and
    the answers read back from the text inputs, one answer per question,
    none of them unanswered in the eyes of the script's guard, and
    continues from the stored clarification token. *)
Theorem main_plans_with_matched_answers (fuel : nat) (v : variant)
    (inp : widgets) (w : world) (s : list response)
    (o : outcome unit) (tr : list page_event) (w' : world)
    (s' : list response) (req : request) (reply : option response) :
  main fuel v inp w s = (o, tr, w', s') ->
  In (Stage (Call req reply)) tr ->
  kind_of req = Single ->
  model req = MODEL ->
  exists questions clarify_id,
    let answers := collect_answers questions (answer_input inp) in
    ss_questions (session w') = Some questions
    /\ ss_clarify_id (session w') = Some clarify_id
    /\ req = plan_request v (topic_input inp) questions answers clarify_id
    /\ List.length answers = List.length questions
    /\ unanswered v answers = false.
Proof.
  intros Hmain Hin Hkind Hmodel. apply main_cases in Hmain.
  cbv zeta in Hmain.
  destruct Hmain as [(Hnil & _)
                    |(Hk & Ht & head & t_ask & t_form & -> & Hhead & Hcase)].
  { apply in_stage_events in Hin. rewrite Hnil in Hin. destruct Hin. }
  apply in_page_trace in Hin; [|exact Hhead].
  assert (forall w1 s1,
            answer_form fuel v inp (key_text (api_key_of v inp w)) w1 s1
            = (o, t_form, w', s') ->
            In (Call req reply) (stage_events t_form) ->
            exists questions clarify_id,
              ss_questions (session w') = Some questions
              /\ ss_clarify_id (session w') = Some clarify_id
              /\ req = plan_request v (topic_input inp) questions
                         (collect_answers questions (answer_input inp))
                         clarify_id
              /\ List.length (collect_answers questions (answer_input inp))
                 = List.length questions
              /\ unanswered v (collect_answers questions (answer_input inp))
                 = false) as Hform.
  { intros w1 s1 Hf Hcall.
    apply answer_form_spec in Hf as (Hs & _ & _ & Hcalls).
    destruct Hcalls as [[Hnone _] | (_ & _ & qs & cid & Hq & Hc & Hua & Heq)];
      [now apply Hnone in Hcall|].
    cbv zeta in Hua, Heq. injection Heq as _ Heq _. rewrite Heq in Hcall.
    destruct (run_deep_research fuel v (topic_input inp) qs cid
                (collect_answers qs (answer_input inp)) s1)
      as [[o1 t1] s2] eqn:Hrun.
    destruct (run_deep_research_calls _ _ _ _ _ _ _ _ _ _ Hrun _ _ Hcall)
      as [[-> _] | [(g & p & Hl) | (g & c & ->)]].
    - exists qs, cid. rewrite Hs. repeat split; trivial.
      apply collect_answers_length.
    - apply loop_call_kind in Hl as [_ [H|[H|H]]]; congruence.
    - discriminate Hkind. }
  destruct Hcase as [(_ & _ & [(e & Hask & _ & _ & -> & _)
                              |(qs & cid & s1 & Hask & Hf)])
                    |(_ & _ & -> & Hf)].
  - destruct Hin as [Hin|[]].
    apply ask_outcome in Hask as [-> _].
    destruct Hin as [[= <- _]|[]]. discriminate Hmodel.
  - destruct Hin as [Hin|Hin]; [|now apply (Hform _ _ Hf)].
    apply ask_outcome in Hask as [-> _].
    destruct Hin as [[= <- _]|[]]. discriminate Hmodel.
  - destruct Hin as [[]|Hin]. now apply (Hform _ _ Hf).
Qed.

(** [main] keeps the stored questions and their token together, and on
    such a session the only [KeyError] it can end in names a field
    missing from the plan: the lookups in the session never fail. *)
Theorem main_keeps_session_paired (fuel : nat) (v : variant)
    (inp : widgets) (w : world) (s : list response)
    (o : outcome unit) (tr : list page_event) (w' : world)
    (s' : list response) :
  paired (session w) ->
  main fuel v inp w s = (o, tr, w', s') ->
  paired (session w')
  /\ forall k, o = Raised (KeyError k) -> k = "goal" \/ k = "queries".
Proof.
  intros Hp Hmain. apply main_cases in Hmain. cbv zeta in Hmain.
  destruct Hmain as [(_ & _ & -> & [(-> & _) | (-> & _)])
                    |(Hk & Ht & head & t_ask & t_form & -> & Hhead & Hcase)];
    try (split; [exact Hp | discriminate]).
  destruct Hcase as [(_ & _ & [(e & _ & He & -> & _ & ->)
                              |(qs & cid & s1 & _ & Hf)])
                    |(Hst & _ & _ & Hf)].
  - split; [exact Hp|]. intros k [= ->].
    destruct He as [H|[H|[H|[H|H]]]]; discriminate H.
  - apply answer_form_spec in Hf as (Hs & _ & He & _).
    cbn [session ss_questions ss_clarify_id] in He. split.
    + rewrite Hs. unfold paired. cbn. split; discriminate.
    + intros k Hk'. destruct (He k Hk') as [[H|H]|H]; try discriminate.
      exact H.
  - apply answer_form_spec in Hf as (Hs & _ & He & _).
    assert (session match v with
                    | AppPy => with_key (key_text (api_key_of v inp w)) w
                    | StreamlitAppPy => w
                    end = session w) as Hw by now destruct v.
    rewrite Hw in Hs, He. split; [now rewrite Hs|].
    intros k Hk'. apply stored_iff in Hst.
    destruct (He k Hk') as [[H|H]|H]; try exact H.
    + contradiction.
    + apply Hp in H. contradiction.
Qed.

(** The key a run calls the gateway with is left in the process
    environment ([get_openai_client] writes it there), so a later run of
    app.py whose secret lookup fails still finds it. *)
Theorem calls_leave_key_in_environment (fuel : nat) (v : variant)
    (inp : widgets) (w : world) (s : list response)
    (o : outcome unit) (tr : list page_event) (w' : world)
    (s' : list response) (req : request) (reply : option response) :
  main fuel v inp w s = (o, tr, w', s') ->
  In (Stage (Call req reply)) tr ->
  OPENAI_API_KEY w' = api_key_of v inp w
  /\ forall later : widgets,
       secrets later = None -> app_api_key later w' = api_key_of v inp w.
Proof.
  intros Hmain Hin.
  enough (OPENAI_API_KEY w' = api_key_of v inp w) as Hkey.
  { split; [exact Hkey|]. intros later Hl. unfold app_api_key.
    now rewrite Hl. }
  apply main_cases in Hmain. cbv zeta in Hmain.
  destruct Hmain as [(Hnil & _)
                    |(Hk & Ht & head & t_ask & t_form & -> & Hhead & Hcase)].
  { apply in_stage_events in Hin. rewrite Hnil in Hin. destruct Hin. }
  apply no_key_false in Hk as [Hk _]. rewrite Hk.
  apply in_page_trace in Hin; [|exact Hhead].
  destruct Hcase as [(_ & _ & [(e & _ & _ & _ & _ & ->)
                              |(qs & cid & s1 & _ & Hf)])
                    |(_ & _ & -> & Hf)].
  - reflexivity.
  - apply answer_form_spec in Hf as (_ & [-> | ->] & _); reflexivity.
  - destruct Hin as [[]|Hin].
    apply answer_form_spec in Hf as (_ & Hor & _ & Hcalls).
    destruct Hcalls as [[Hnone _] | (_ & Hkey & _)];
      [now apply Hnone in Hin|].
    rewrite Hkey. now destruct v.
Qed.

End PageProperties.

(* ------------------------------------------------------------------ *)
(** * The session of [Scenario], run through the code *)

Section Session.

Import Scenario.
Local Existing Instance PyLib.lib.

Lemma clarify_questions_trimmed_witness :
  ask_clarifying_questions AppPy topic [clarify_reply]
  = (Returned (questions, "resp_clarify"),
     [Call (clarify_request AppPy topic) (Some clarify_reply)], [])
  /\ ~ blank "2. How deep?".
Proof.
  pose proof (clarify_questions_trimmed AppPy topic clarify_reply []
                ("1. Who is the audience?" +++ nl +++ nl
                 +++ "  2. How deep?  " +++ nl) eq_refl)
    as (Hrun & _ & Hq & _).
  split; [exact Hrun|]. apply (Hq "2. How deep?"). simpl. tauto.
Defined.

(** C7 as stated fails: a reply without a non-blank line is not an
    error; the stage returns the empty question list. *)
Lemma clarify_blank_reply_counterexample :
  let run :=
    ask_clarifying_questions AppPy topic
      [text_reply "resp_clarify" ("  " +++ nl +++ " ")] in
  (forall line, In line (split newline ("  " +++ nl +++ " ")) -> blank line)
  /\ outcome_of run = Returned ([], "resp_clarify")
  /\ ~ (exists e, outcome_of run = Raised e).
Proof.
  cbv zeta. repeat split.
  - intros line Hin. apply strip_empty_iff.
    simpl in Hin. destruct Hin as [<-|[<-|[]]]; reflexivity.
  - intros [e He]. vm_compute in He. discriminate He.
Qed.

Lemma create_plan_returns_fields_witness :
  outcome_of (create_plan AppPy topic questions answers "resp_clarify"
                [plan_reply])
  = Returned (goal, queries, "resp_plan").
Proof.
  apply (create_plan_returns_fields AppPy topic questions answers
           "resp_clarify" plan_reply []).
  exists plan_text, (JObject [("goal", goal); ("queries", queries)]).
  repeat split; vm_compute; reflexivity.
Defined.

(** C5 as stated fails: a reply whose goal is the empty string and whose
    query list is empty is returned as a plan. *)
Lemma create_plan_empty_plan_counterexample :
  outcome_of (create_plan AppPy topic questions answers "resp_clarify"
                [text_reply "resp_plan" empty_plan_text])
  = Returned (JString EmptyString, JArray [], "resp_plan")
  /\ ~ fully_populated (JString EmptyString) (JArray []).
Proof.
  split; [vm_compute; reflexivity|].
  intros [(g & [= <-] & Hne) _]. now apply Hne.
Qed.

(** C6 as stated fails: with two questions and one answer the planning
    call is made all the same, and a plan comes back. *)
Lemma create_plan_length_mismatch_counterexample :
  let run :=
    create_plan AppPy topic questions ["Students"] "resp_clarify"
      [plan_reply] in
  List.length ["Students"] <> List.length questions
  /\ trace_of run
     = [Call (plan_request AppPy topic questions ["Students"] "resp_clarify")
             (Some plan_reply)]
  /\ outcome_of run = Returned (goal, queries, "resp_plan")
  /\ ~ rejected_before_call run.
Proof.
  cbv zeta. repeat split; try (vm_compute; reflexivity).
  - discriminate.
  - intros [_ Htr]. vm_compute in Htr. discriminate Htr.
Qed.

Lemma evaluate_yes_iff_witness :
  exists verdict,
    evaluate_progress AppPy goal final_set [text_reply "resp_e2" "Yes"]
    = (Returned verdict,
       [Call (evaluate_request AppPy goal final_set)
             (Some (text_reply "resp_e2" "Yes"))], [])
    /\ (verdict = true <-> Substring "yes" (lower "Yes")).
Proof.
  exact (evaluate_yes_iff AppPy goal final_set (text_reply "resp_e2" "Yes")
           [] "Yes" eq_refl).
Defined.

Lemma run_search_index_error_witness :
  run_search AppPy (JString "q1") "resp_plan" [bare_reply]
  = (Raised IndexError,
     [Call (search_request AppPy (JString "q1") "resp_plan")
           (Some bare_reply)], []).
Proof.
  apply (run_search_index_error AppPy (JString "q1") "resp_plan"
           bare_reply []).
  left. simpl. lia.
Defined.

Lemma artifact_holds_answer_text_witness :
  py_getitem (artifact (JString "q1") "Qubits generalise bits.") "resp_id"
  = Returned (JString "Qubits generalise bits.").
Proof.
  apply (proj1 artifact_holds_answer_text AppPy (JString "q1") "resp_plan"
           (search_reply "resp_s1" "Qubits generalise bits.") []
           "Qubits generalise bits.").
  reflexivity.
Defined.

(** C8 as stated fails: the reference field of the artifact is the answer
    text of the reply, not the reply's token, and that text is part of
    the content submitted for evaluation. *)
Lemma artifact_reference_counterexample :
  let reply := search_reply "resp_s1" "Qubits generalise bits." in
  let found := artifact (JString "q1") "Qubits generalise bits." in
  outcome_of (run_search AppPy (JString "q1") "resp_plan" [reply])
  = Returned found
  /\ ~ stores_only_reference reply found
  /\ exists m,
       nth_error
         (match input (evaluate_request AppPy goal [found]) with
          | Messages msgs => msgs
          | Prompt _ => []
          end) 1 = Some m
       /\ py_in "Qubits generalise bits." (content m) = true.
Proof.
  cbv zeta. split; [reflexivity|]. split.
  - unfold stores_only_reference. simpl. discriminate.
  - eexists. split; [reflexivity|]. vm_compute. reflexivity.
Qed.

Lemma research_returns_evaluated_set_witness :
  exists pre review text,
    trace_of (conduct_research 5 AppPy goal queries "resp_plan"
                research_script)
    = pre ++ [Call (evaluate_request AppPy goal final_set) (Some review)]
    /\ text_at review 0 = Returned text
    /\ says_yes text = true.
Proof.
  apply (research_returns_evaluated_set 5 AppPy goal queries "resp_plan"
           research_script final_set _ []).
  vm_compute. reflexivity.
Defined.

Lemma retry_evaluates_fresh_batch_witness :
  let tr :=
    trace_of (conduct_research 5 AppPy goal queries "resp_plan"
                research_script) in
  exists text queries' qs c,
    text_at more_reply 0 = Returned text
    /\ json_loads text = Some queries'
    /\ py_iter queries' = Returned qs
    /\ batch AppPy "resp_plan" qs (firstn 3 (skipn 4 tr)) c
    /\ evaluate_request AppPy goal final_set
       = evaluate_request AppPy goal c.
Proof.
  cbv zeta.
  apply (retry_evaluates_fresh_batch 5 AppPy goal queries "resp_plan"
           research_script (Returned final_set)
           (trace_of (conduct_research 5 AppPy goal queries "resp_plan"
                        research_script))
           []
           (firstn 3 (trace_of (conduct_research 5 AppPy goal queries
                                  "resp_plan" research_script)))
           (more_request AppPy goal
              [artifact (JString "q1") "Qubits generalise bits.";
               artifact (JString "q2") "Gates act on qubits."] "resp_plan")
           more_reply
           (firstn 3 (skipn 4 (trace_of (conduct_research 5 AppPy goal
                                  queries "resp_plan" research_script))))
           (evaluate_request AppPy goal final_set)
           (Some (text_reply "resp_e2" "Yes")) []).
  - vm_compute. reflexivity.
  - vm_compute. reflexivity.
  - reflexivity.
  - vm_compute. repeat constructor.
  - discriminate.
Defined.

Lemma searches_continue_from_planning_token_witness :
  exists plan_resp,
    hd_error (trace_of (run_deep_research 5 AppPy topic questions
                          "resp_clarify" answers session_script))
    = Some (Call (plan_request AppPy topic questions answers "resp_clarify")
                 (Some plan_resp))
    /\ previous_response_id (search_request AppPy (JString "q4") "resp_plan")
       = Some (id_ plan_resp)
    /\ exists query,
         search_request AppPy (JString "q4") "resp_plan"
         = search_request AppPy query (id_ plan_resp).
Proof.
  refine (searches_continue_from_planning_token 5 AppPy topic questions
            "resp_clarify" answers session_script
            (Returned "Quantum computers use qubits [1].")
            (trace_of (run_deep_research 5 AppPy topic questions
                         "resp_clarify" answers session_script)) []
            _
            (search_request AppPy (JString "q4") "resp_plan")
            (Some (search_reply "resp_s4" "Entanglement explained."))
            _ _).
  - vm_compute. reflexivity.
  - apply (nth_error_In _ 7). vm_compute. reflexivity.
  - reflexivity.
Defined.

(** The scenario runs to its report with fuel to spare. *)
Lemma session_returns_report :
  outcome_of (run_deep_research 5 AppPy topic questions "resp_clarify"
                answers session_script)
  = Returned "Quantum computers use qubits [1].".
Proof. vm_compute. reflexivity. Qed.

(** C9 on streamlit_app.py: an answer that is a single space is blank,
    yet the guard lets the list through: no warning, the planning call is
    made and the session runs to its report.  app.py stops on the same
    input. *)
Theorem streamlit_guard_admits_blank_answer :
  let given := ["Students"; " "] in
  let run :=
    run_deep_research 5 StreamlitAppPy topic questions "resp_clarify"
      given session_script in
  (exists a, In a given /\ blank a)
  /\ unanswered StreamlitAppPy given = false
  /\ hd_error (trace_of run)
     = Some (Call (plan_request StreamlitAppPy topic questions given
                     "resp_clarify") (Some plan_reply))
  /\ outcome_of run = Returned "Quantum computers use qubits [1]."
  /\ run_deep_research 5 AppPy topic questions "resp_clarify" given
       session_script
     = (Raised StopException, [Ui (st_warning (WARNING AppPy))],
        session_script).
Proof.
  cbv zeta. repeat split; try (vm_compute; reflexivity).
  exists " ". split; [simpl; tauto|]. now apply strip_empty_iff.
Qed.

End Session.

(* ------------------------------------------------------------------ *)
(** * The session of [Scenario], continued *)

Section PageSession.

Import Scenario.
Local Existing Instance PyLib.lib.

Lemma more_follows_negative_evaluation_witness :
  let tr :=
    trace_of (conduct_research 5 AppPy goal queries "resp_plan"
                research_script) in
  exists pre' c review,
    firstn 3 tr
    = pre' ++ [Call (evaluate_request AppPy goal c) (Some review)]
    /\ more_request AppPy goal first_set "resp_plan"
       = more_request AppPy goal c "resp_plan"
    /\ decision review = Returned false.
Proof.
  cbv zeta.
  refine (more_follows_negative_evaluation 5 AppPy goal queries "resp_plan"
            research_script (Returned final_set)
            (trace_of (conduct_research 5 AppPy goal queries "resp_plan"
                         research_script)) []
            (firstn 3 (trace_of (conduct_research 5 AppPy goal queries
                                   "resp_plan" research_script)))
            (more_request AppPy goal first_set "resp_plan")
            (Some more_reply)
            (skipn 4 (trace_of (conduct_research 5 AppPy goal queries
                                  "resp_plan" research_script)))
            _ _ _).
  - vm_compute. reflexivity.
  - vm_compute. reflexivity.
  - reflexivity.
Defined.

Lemma failed_search_ends_loop_witness :
  conduct_research 1 AppPy goal queries "resp_plan"
    [search_reply "resp_s1" "Qubits generalise bits."; bare_reply]
  = (Raised IndexError,
     [Call (search_request AppPy (JString "q1") "resp_plan")
           (Some (search_reply "resp_s1" "Qubits generalise bits."))]
     ++ [Call (search_request AppPy (JString "q2") "resp_plan")
              (Some bare_reply)], []).
Proof.
  refine (failed_search_ends_loop 0 AppPy goal queries "resp_plan"
            [JString "q1"] [] (JString "q2")
            [search_reply "resp_s1" "Qubits generalise bits."; bare_reply]
            [artifact (JString "q1") "Qubits generalise bits."]
            [Call (search_request AppPy (JString "q1") "resp_plan")
                  (Some (search_reply "resp_s1" "Qubits generalise bits."))]
            bare_reply [] IndexError _ _ _).
  - reflexivity.
  - vm_compute. reflexivity.
  - reflexivity.
Defined.

Lemma regenerated_queries_unchecked_witness :
  conduct_research 1 AppPy goal queries "resp_plan"
    (first_attempt ++ [text_reply "resp_more" "q3, q4"])
  = (Raised JSONDecodeError,
     trace_of (search_each AppPy [JString "q1"; JString "q2"] "resp_plan" []
                 (first_attempt ++ [text_reply "resp_more" "q3, q4"]))
     ++ [Call (evaluate_request AppPy goal first_set)
              (Some (text_reply "resp_e1" "No."));
         Call (more_request AppPy goal first_set "resp_plan")
              (Some (text_reply "resp_more" "q3, q4"))], []).
Proof.
  refine (proj1 (regenerated_queries_unchecked 0 AppPy goal queries
                   "resp_plan" [JString "q1"; JString "q2"]
                   (first_attempt ++ [text_reply "resp_more" "q3, q4"])
                   first_set
                   (trace_of (search_each AppPy [JString "q1"; JString "q2"]
                                "resp_plan" []
                                (first_attempt
                                 ++ [text_reply "resp_more" "q3, q4"])))
                   (text_reply "resp_e1" "No.")
                   (text_reply "resp_more" "q3, q4") [] "q3, q4"
                   _ _ _ _) _).
  - reflexivity.
  - vm_compute. reflexivity.
  - vm_compute. reflexivity.
  - reflexivity.
  - vm_compute. reflexivity.
Defined.

Lemma empty_queries_still_evaluated_witness :
  conduct_research 1 AppPy goal (JArray []) "resp_plan"
    [text_reply "resp_e2" "Yes"]
  = (Returned [],
     [Call (evaluate_request AppPy goal [])
           (Some (text_reply "resp_e2" "Yes"))], []).
Proof.
  refine (empty_queries_still_evaluated 0 AppPy goal (JArray []) "resp_plan"
            (text_reply "resp_e2" "Yes") [] _ _).
  - reflexivity.
  - vm_compute. reflexivity.
Defined.

Lemma report_call_follows_positive_evaluation_witness :
  let tr :=
    trace_of (run_deep_research 5 AppPy topic questions "resp_clarify"
                answers session_script) in
  exists pre g collected review post,
    tr = pre ++ Call (evaluate_request AppPy g collected) (Some review)
             :: Call (report_request AppPy goal final_set)
                     (Some report_reply) :: post
    /\ report_request AppPy goal final_set
       = report_request AppPy g collected
    /\ decision review = Returned true.
Proof.
  cbv zeta.
  refine (report_call_follows_positive_evaluation 5 AppPy topic questions
            "resp_clarify" answers session_script
            (Returned "Quantum computers use qubits [1].")
            (trace_of (run_deep_research 5 AppPy topic questions
                         "resp_clarify" answers session_script)) []
            (report_request AppPy goal final_set) (Some report_reply)
            _ _ _).
  - vm_compute. reflexivity.
  - apply (nth_error_In _ 10). vm_compute. reflexivity.
  - reflexivity.
Defined.


Lemma main_runs_handler_witness :
  let page := main 5 AppPy run_click stored_world session_script in
  let run :=
    run_deep_research 5 AppPy topic questions "resp_clarify"
      (collect_answers questions (answer_input run_click)) session_script in
  fst (fst (fst page)) = void (outcome_of run)
  /\ stage_events (snd (fst (fst page))) = trace_of run
  /\ snd page = snd run
  /\ session (snd (fst page)) = session stored_world.
Proof.
  cbv zeta.
  refine (main_runs_handler 5 AppPy run_click stored_world session_script
            _ _ _ _ questions "resp_clarify" _ _ _ _ _ _ _);
    reflexivity.
Defined.

Lemma main_calls_need_key_topic_click_witness :
  (exists key, api_key_of AppPy run_click stored_world = Some key
               /\ key <> EmptyString)
  /\ topic_input run_click <> EmptyString
  /\ (generate_clicked run_click = true \/ run_clicked run_click = true).
Proof.
  refine (main_calls_need_key_topic_click 5 AppPy run_click stored_world
            session_script
            (fst (fst (fst (main 5 AppPy run_click stored_world
                              session_script))))
            (snd (fst (fst (main 5 AppPy run_click stored_world
                              session_script))))
            (snd (fst (main 5 AppPy run_click stored_world session_script)))
            (snd (main 5 AppPy run_click stored_world session_script))
            (plan_request AppPy topic questions answers "resp_clarify")
            (Some plan_reply) _ _).
  - vm_compute. reflexivity.
  - apply (nth_error_In _ 8). vm_compute. reflexivity.
Defined.

Lemma app_questions_never_regenerated_witness :
  let page := app_main 5 generate_click stored_world session_script in
  session (snd (fst page)) = session stored_world
  /\ forall req reply,
       In (Stage (Call req reply)) (snd (fst (fst page))) ->
       model req = MODEL.
Proof.
  cbv zeta.
  refine (app_questions_never_regenerated 5 generate_click stored_world
            session_script _ _ _ _ questions _ _).
  - reflexivity.
  - vm_compute. reflexivity.
Defined.

Lemma streamlit_generate_overwrites_witness :
  let page := streamlit_main 5 generate_click stored_world [clarify_reply] in
  session (snd (fst page))
  = {| ss_questions := Some questions;
       ss_clarify_id := Some "resp_clarify";
       ss_answers := Some [EmptyString; EmptyString] |}
  /\ OPENAI_API_KEY (snd (fst page)) = Some api_key.
Proof.
  cbv zeta.
  refine (streamlit_generate_overwrites 5 generate_click stored_world
            clarify_reply []
            ("1. Who is the audience?" +++ nl +++ nl
             +++ "  2. How deep?  " +++ nl)
            _ _ _ _ _ _ _ _ _); reflexivity.
Defined.

Lemma main_plans_with_matched_answers_witness :
  exists qs clarify_id,
    let given := collect_answers qs (answer_input run_click) in
    ss_questions
      (session (snd (fst (main 5 AppPy run_click stored_world
                            session_script)))) = Some qs
    /\ ss_clarify_id
         (session (snd (fst (main 5 AppPy run_click stored_world
                               session_script)))) = Some clarify_id
    /\ plan_request AppPy topic questions answers "resp_clarify"
       = plan_request AppPy (topic_input run_click) qs given clarify_id
    /\ List.length given = List.length qs
    /\ unanswered AppPy given = false.
Proof.
  refine (main_plans_with_matched_answers 5 AppPy run_click stored_world
            session_script
            (fst (fst (fst (main 5 AppPy run_click stored_world
                              session_script))))
            (snd (fst (fst (main 5 AppPy run_click stored_world
                              session_script))))
            (snd (fst (main 5 AppPy run_click stored_world session_script)))
            (snd (main 5 AppPy run_click stored_world session_script))
            (plan_request AppPy topic questions answers "resp_clarify")
            (Some plan_reply) _ _ _ _).
  - vm_compute. reflexivity.
  - apply (nth_error_In _ 8). vm_compute. reflexivity.
  - reflexivity.
  - reflexivity.
Defined.

Lemma main_keeps_session_paired_witness :
  let page := main 5 StreamlitAppPy generate_click fresh_world
                [clarify_reply] in
  paired (session (snd (fst page)))
  /\ forall k, fst (fst (fst page)) = Raised (KeyError k) ->
               k = "goal" \/ k = "queries".
Proof.
  cbv zeta.
  refine (main_keeps_session_paired 5 StreamlitAppPy generate_click
            fresh_world [clarify_reply] _ _ _ _ _ _).
  - unfold paired. simpl. tauto.
  - vm_compute. reflexivity.
Defined.

Lemma calls_leave_key_in_environment_witness :
  let page := main 5 AppPy run_click stored_world session_script in
  OPENAI_API_KEY (snd (fst page)) = Some api_key
  /\ forall later : widgets,
       secrets later = None ->
       app_api_key later (snd (fst page)) = Some api_key.
Proof.
  cbv zeta.
  refine (calls_leave_key_in_environment 5 AppPy run_click stored_world
            session_script
            (fst (fst (fst (main 5 AppPy run_click stored_world
                              session_script))))
            (snd (fst (fst (main 5 AppPy run_click stored_world
                              session_script))))
            (snd (fst (main 5 AppPy run_click stored_world session_script)))
            (snd (main 5 AppPy run_click stored_world session_script))
            (plan_request AppPy topic questions answers "resp_clarify")
            (Some plan_reply) _ _).
  - vm_compute. reflexivity.
  - apply (nth_error_In _ 8). vm_compute. reflexivity.
Defined.

End PageSession.
